(** * WEBSCRAPER: the text pipeline of scraper.py, processor.py and
      processor_llm.py, embedded and checked against its specification.

    Python strings are sequences of Unicode code points; they are modelled
    as lists of code points ([N]).  The parts of Python and NLTK whose
    behaviour is a table in the interpreter or a trained model (case
    folding, the character classes [\w] and [\d], the tokenisers, the
    tagger, the lemmatiser) are interfaces, with an ASCII instance to run
    the definitions on concrete inputs. *)

From Stdlib Require Import NArith ZArith List String Ascii Bool Arith Lia Sorted.
From stdpp Require Import gmap strings list.

Import ListNotations.
Local Open Scope nat_scope.

(* ================================================================== *)
(** ** Python strings *)
(* ================================================================== *)

Definition char : Type := N.
Definition str : Type := list N.

(** A string literal of the source. *)
Definition py (s : string) : str := List.map N_of_ascii (list_ascii_of_string s).
Arguments py : simpl never.

Definition char_eqb (a b : char) : bool := N.eqb a b.

Fixpoint str_eqb (a b : str) : bool :=
  match a, b with
  | [], [] => true
  | x :: a', y :: b' => char_eqb x y && str_eqb a' b'
  | _, _ => false
  end.

Definition in_range (lo hi c : N) : bool := (N.leb lo c && N.leb c hi)%bool.

(** The white space of [str.split()], [str.strip()] and of [\s] in a
    [str] pattern (CPython's [Py_UNICODE_ISSPACE]). *)
Definition isspace (c : char) : bool :=
  (in_range 9 13 c || in_range 28 32 c || N.eqb c 133 || N.eqb c 160
   || N.eqb c 5760 || in_range 8192 8202 c || N.eqb c 8232 || N.eqb c 8233
   || N.eqb c 8239 || N.eqb c 8287 || N.eqb c 12288)%bool.

(** [s.split()]: the maximal runs of characters that are not white space. *)
Fixpoint split (s : str) : list str :=
  match s with
  | [] => []
  | c :: s' =>
      if isspace c then split s'
      else match s' with
           | [] => [[c]]
           | d :: _ =>
               if isspace d then [c] :: split s'
               else match split s' with
                    | w :: ws => (c :: w) :: ws
                    | [] => [[c]]
                    end
           end
  end.

(** [sep.join(l)]. *)
Fixpoint join (sep : str) (l : list str) : str :=
  match l with
  | [] => []
  | [w] => w
  | w :: ws => w ++ sep ++ join sep ws
  end.

(** [s.startswith(p)]. *)
Fixpoint startswith (p s : str) : bool :=
  match p, s with
  | [], _ => true
  | x :: p', y :: s' => char_eqb x y && startswith p' s'
  | _ :: _, [] => false
  end.

(** [s.endswith(p)]. *)
Definition endswith (p s : str) : bool := startswith (rev p) (rev s).

(** [sub in s]. *)
Fixpoint contains (sub s : str) : bool :=
  startswith sub s ||
  match s with
  | [] => false
  | _ :: s' => contains sub s'
  end.

(** [s.replace(old, new)] for a non-empty [old]: occurrences are found
    from the left and do not overlap.  [skip] counts the characters of an
    occurrence still to be passed over. *)
Fixpoint replace_go (old new : str) (skip : nat) (s : str) : str :=
  match s with
  | [] => []
  | c :: s' =>
      match skip with
      | S k => replace_go old new k s'
      | O =>
          if startswith old s
          then new ++ replace_go old new (length old - 1) s'
          else c :: replace_go old new 0 s'
      end
  end.

Definition replace (old new s : str) : str := replace_go old new 0 s.

Fixpoint lstrip (s : str) : str :=
  match s with
  | c :: s' => if isspace c then lstrip s' else s
  | [] => []
  end.

(** [s.strip()]. *)
Definition strip (s : str) : str := rev (lstrip (rev (lstrip s))).

(* ================================================================== *)
(** ** Interfaces to the interpreter's Unicode tables and to NLTK *)
(* ================================================================== *)

Class PyUnicode := {
  str_lower : str -> str;            (* str.lower() *)
  str_isalnum : str -> bool;         (* str.isalnum() *)
  re_word : char -> bool;            (* \w *)
  re_digit : char -> bool;           (* \d *)
  re_ieq : char -> char -> bool      (* a pattern literal against a text
                                        character under re.IGNORECASE *)
}.

(** [sent_tokenize] and [pos_tag] may raise: the scraper provides for
    the former, and the tagger needs a model that is not among the
    resources the modules download when they are imported.
    [word_tokenize] gives the tokens of a text when the call returns. *)
Class NLTK := {
  sent_tokenize : str -> option (list str);          (* None: the call raises *)
  word_tokenize : str -> list str;
  pos_tag : list str -> option (list (str * str));   (* None: the call raises *)
  lemmatize : str -> str;
  stop_words : list str                              (* stopwords.words('english') *)
}.

(** A call of [nltk.word_tokenize] that nothing guards.  The function
    splits its text into sentences with [sent_tokenize] before it
    tokenizes them, and raises where that raises.  (In the processors
    [word_tokenize] runs after [sent_tokenize] has returned.) *)
Definition word_tokenize_call `{NLTK} (text : str) : option (list str) :=
  match sent_tokenize text with
  | Some _ => Some (word_tokenize text)
  | None => None
  end.

(** *** The ASCII instance *)

Definition is_upper (c : char) : bool := in_range 65 90 c.
Definition is_lower (c : char) : bool := in_range 97 122 c.
Definition is_digit (c : char) : bool := in_range 48 57 c.
Definition lower_char (c : char) : char := if is_upper c then (c + 32)%N else c.
Definition is_alnum (c : char) : bool := (is_upper c || is_lower c || is_digit c)%bool.

Definition ascii_unicode : PyUnicode := {|
  str_lower := List.map lower_char;
  str_isalnum := fun s => (negb (Nat.eqb (length s) 0) && forallb is_alnum s)%bool;
  re_word := fun c => (is_alnum c || N.eqb c 95)%bool;
  re_digit := is_digit;
  re_ieq := fun p c => N.eqb (lower_char p) (lower_char c)
|}.

(* ================================================================== *)
(** ** Regular expressions ([re]) *)
(* ================================================================== *)

(** The fragment of [re] syntax the program uses.  [x{2,}] is [x x x*],
    [x+] is [x x*], [x?] is [x|()]; all repetition is greedy. *)
Inductive regex : Type :=
| Eps
| Cls (p : char -> bool)
| Seq (r1 r2 : regex)
| Alt (r1 r2 : regex)
| Star (r : regex)
| WordB.

Definition opt_word (w : char -> bool) (o : option char) : bool :=
  match o with Some c => w c | None => false end.

(** Backtracking matcher: [prev] is the character before the current
    position, [s] the text from it on, [k] what to match after [r].
    The result is the text left after the whole match. *)
Fixpoint rmatch (w : char -> bool) (r : regex) (prev : option char) (s : str)
    (k : option char -> str -> option str) {struct r} : option str :=
  match r with
  | Eps => k prev s
  | Cls p =>
      match s with
      | c :: s' => if p c then k (Some c) s' else None
      | [] => None
      end
  | Seq r1 r2 => rmatch w r1 prev s (fun p' s' => rmatch w r2 p' s' k)
  | Alt r1 r2 =>
      match rmatch w r1 prev s k with
      | Some x => Some x
      | None => rmatch w r2 prev s k
      end
  | Star r' =>
      (fix star (n : nat) (prev : option char) (s : str) {struct n} : option str :=
         match n with
         | O => k prev s
         | S n' =>
             match rmatch w r' prev s
                     (fun p' s' => if length s' <? length s then star n' p' s' else None) with
             | Some x => Some x
             | None => k prev s
             end
         end) (S (length s)) prev s
  | WordB =>
      if xorb (opt_word w prev) (opt_word w (head s)) then k prev s else None
  end.

(** Length of the match of [r] that starts at the current position. *)
Definition match_at (w : char -> bool) (r : regex) (prev : option char) (s : str) : option nat :=
  match rmatch w r prev s (fun _ rest => Some rest) with
  | Some rest => Some (length s - length rest)
  | None => None
  end.

(** [re.sub(r, repl, s)] for a literal replacement. *)
Fixpoint re_sub_go (w : char -> bool) (r : regex) (repl : str)
    (skip : nat) (prev : option char) (s : str) : str :=
  match s with
  | [] =>
      match skip, match_at w r prev [] with
      | O, Some _ => repl
      | _, _ => []
      end
  | c :: s' =>
      match skip with
      | S k => re_sub_go w r repl k (Some c) s'
      | O =>
          match match_at w r prev s with
          | Some O => repl ++ c :: re_sub_go w r repl 0 (Some c) s'
          | Some (S n) => repl ++ re_sub_go w r repl n (Some c) s'
          | None => c :: re_sub_go w r repl 0 (Some c) s'
          end
      end
  end.

Definition re_sub `{PyUnicode} (r : regex) (repl s : str) : str :=
  re_sub_go re_word r repl 0 None s.

(** [len(re.findall(r, s))]. *)
Fixpoint re_count_go (w : char -> bool) (r : regex)
    (skip : nat) (prev : option char) (s : str) : nat :=
  match s with
  | [] =>
      match skip, match_at w r prev [] with
      | O, Some _ => 1
      | _, _ => 0
      end
  | c :: s' =>
      match skip with
      | S k => re_count_go w r k (Some c) s'
      | O =>
          match match_at w r prev s with
          | Some O => S (re_count_go w r 0 (Some c) s')
          | Some (S n) => S (re_count_go w r n (Some c) s')
          | None => re_count_go w r 0 (Some c) s'
          end
      end
  end.

Definition re_findall_len `{PyUnicode} (r : regex) (s : str) : nat :=
  re_count_go re_word r 0 None s.

(** [re.search(r, s) is not None]. *)
Fixpoint re_search_go (w : char -> bool) (r : regex) (prev : option char) (s : str) : bool :=
  match match_at w r prev s with
  | Some _ => true
  | None =>
      match s with
      | [] => false
      | c :: s' => re_search_go w r (Some c) s'
      end
  end.

Definition re_search `{PyUnicode} (r : regex) (s : str) : bool :=
  re_search_go re_word r None s.

(** Pattern builders. *)
Definition chr (c : string) : char :=
  match py c with x :: _ => x | [] => 0%N end.
Definition lit1 (c : char) : regex := Cls (char_eqb c).
Fixpoint lit (s : str) : regex :=
  match s with
  | [] => Eps
  | [c] => lit1 c
  | c :: s' => Seq (lit1 c) (lit s')
  end.
Definition plus (r : regex) : regex := Seq r (Star r).
Definition opt (r : regex) : regex := Alt r Eps.
Fixpoint times (n : nat) (r : regex) : regex :=
  match n with
  | O => Eps
  | 1 => r
  | S n' => Seq r (times n' r)
  end.
Definition at_least (n : nat) (r : regex) : regex := Seq (times n r) (Star r).
Fixpoint seqs (l : list regex) : regex :=
  match l with
  | [] => Eps
  | [r] => r
  | r :: l' => Seq r (seqs l')
  end.
Fixpoint alts (l : list regex) : regex :=
  match l with
  | [] => Cls (fun _ => false)
  | [r] => r
  | r :: l' => Alt r (alts l')
  end.

(* ================================================================== *)
(** ** scraper.py: the Text Normalizer *)
(* ================================================================== *)

(** The double quote character. *)
Definition dquote : str := [34%N].

(** [WebScraper._basic_text_cleaning].  The two [replace] calls of the
    quote line have the same one-character string for both arguments; the
    apostrophe line is a single call, its first argument the triple-quoted
    literal that runs from the comma to the parenthesis of what reads as a
    second call. *)
Definition _basic_text_cleaning `{PyUnicode} (content : str) : str :=
  let content := join (py " ") (split content) in
  let content := replace dquote dquote (replace dquote dquote content) in
  let content :=
    replace (py ", " ++ dquote ++ py "'" ++ dquote ++ py ").replace(") (py "'") content in
  let content := re_sub (at_least 3 (lit1 (chr "."))) (py "...") content in
  let content := re_sub (at_least 2 (lit1 (chr "!"))) (py "!") content in
  let content := re_sub (at_least 2 (lit1 (chr "?"))) (py "?") content in
  content.

(* ================================================================== *)
(** ** scraper.py: the Noise Filter *)
(* ================================================================== *)

(** A literal under [re.IGNORECASE]. *)
Definition ilit `{PyUnicode} (s : string) : regex :=
  seqs (List.map (fun c => Cls (re_ieq c)) (py s)).

Definition ws_plus : regex := plus (Cls isspace).
Definition digit `{PyUnicode} : regex := Cls re_digit.
Definition one_of (s : string) (c : char) : bool := existsb (char_eqb c) (py s).

Definition irrelevant_patterns `{PyUnicode} : list regex :=
  [ seqs [WordB;
          alts [ilit "menu"; ilit "navigation"; ilit "nav"; ilit "header";
                ilit "footer"; ilit "sidebar"; ilit "advertisement"; ilit "ad";
                ilit "banner"];
          WordB];
    seqs [WordB; ilit "copyright"; ws_plus; times 4 digit];
    seqs [WordB; ilit "privacy"; ws_plus; ilit "policy"; WordB];
    seqs [WordB; ilit "terms"; ws_plus; ilit "of"; ws_plus; ilit "service"; WordB];
    seqs [WordB; ilit "contact"; ws_plus; ilit "us"; WordB];
    seqs [WordB; ilit "about"; ws_plus; ilit "us"; WordB];
    seqs [WordB; ilit "sign"; ws_plus; ilit "in"; WordB];
    seqs [WordB; ilit "log"; ws_plus; ilit "in"; WordB];
    seqs [WordB; ilit "sign"; ws_plus; ilit "up"; WordB];
    seqs [WordB; ilit "register"; WordB];
    seqs [WordB; ilit "newsletter"; WordB];
    seqs [WordB; ilit "subscribe"; WordB] ].

Definition ascii_letter (c : char) : bool := (is_lower c || is_upper c)%bool.
Definition hex_digit (c : char) : bool :=
  (is_digit c || in_range 97 102 c || in_range 65 70 c)%bool.

(** [http[s]?://(?:[a-zA-Z]|[0-9]|[$-_@.&+]|[!*\\(\\),]|(?:%[0-9a-fA-F][0-9a-fA-F]))+];
    [$-_] is the range from the dollar sign (36) to the underscore (95). *)
Definition url_pattern : regex :=
  seqs [lit (py "http"); opt (lit1 (chr "s")); lit (py "://");
        plus (alts [Cls ascii_letter;
                    Cls is_digit;
                    Cls (fun c => (in_range 36 95 c || one_of "@.&+" c)%bool);
                    Cls (fun c => (one_of "!*()," c || N.eqb c 92)%bool);
                    seqs [lit1 (chr "%"); Cls hex_digit; Cls hex_digit]])].

(** [\b[A-Za-z0-9._%+-]+@[A-Za-z0-9.-]+\.[A-Z|a-z]{2,}\b] *)
Definition email_pattern : regex :=
  seqs [WordB;
        plus (Cls (fun c => (ascii_letter c || is_digit c || one_of "._%+-" c)%bool));
        lit1 (chr "@");
        plus (Cls (fun c => (ascii_letter c || is_digit c || one_of ".-" c)%bool));
        lit1 (chr ".");
        at_least 2 (Cls (fun c => (ascii_letter c || one_of "|" c)%bool));
        WordB].

(** [\b\d{3}[-.]?\d{3}[-.]?\d{4}\b] *)
Definition phone_pattern `{PyUnicode} : regex :=
  seqs [WordB; times 3 digit; opt (Cls (one_of "-.")); times 3 digit;
        opt (Cls (one_of "-.")); times 4 digit; WordB].

(** [WebScraper._remove_irrelevant_content]. *)
Definition _remove_irrelevant_content `{PyUnicode} (content : str) : str :=
  let content := fold_left (fun content pattern => re_sub pattern [] content)
                           irrelevant_patterns content in
  let content := re_sub url_pattern [] content in
  let content := re_sub email_pattern [] content in
  let content := re_sub phone_pattern [] content in
  join (py " ") (split content).

(* ================================================================== *)
(** ** scraper.py: the Coherence Filter *)
(* ================================================================== *)

(** [s.split(sep)] for a one-character separator. *)
Fixpoint split_on (sep : char) (s : str) : list str :=
  match s with
  | [] => [[]]
  | c :: s' =>
      if char_eqb c sep then [] :: split_on sep s'
      else match split_on sep s' with
           | w :: ws => (c :: w) :: ws
           | [] => [[c]]
           end
  end.

(** The objects the noun test looks at.  [nltk.pos_tag] returns 2-tuples
    [(word, tag)]; a tuple has the attributes of its type and no others.
    [Token] is an object that carries named string attributes, as the
    tokens of a tagger with a [pos_] field do. *)
Inductive pyobj : Type :=
| Tuple2 (word tag : str)
| Token (attrs : list (string * str)).

(** The public attribute names of [tuple]. *)
Definition tuple_attrs : list string := ["count"; "index"]%string.

Definition hasattr (o : pyobj) (name : string) : bool :=
  match o with
  | Tuple2 _ _ => existsb (String.eqb name) tuple_attrs
  | Token attrs => existsb (fun kv => String.eqb name (fst kv)) attrs
  end.

(** The string value of attribute [name], if it is one. *)
Definition getattr (o : pyobj) (name : string) : option str :=
  match o with
  | Tuple2 _ _ => None
  | Token attrs =>
      match List.find (fun kv => String.eqb name (fst kv)) attrs with
      | Some kv => Some (snd kv)
      | None => None
      end
  end.

(** The tuples [nltk.pos_tag] returned, as objects. *)
Definition tagged (tags : list (str * str)) : list pyobj :=
  List.map (fun wt => Tuple2 (fst wt) (snd wt)) tags.

(** [WebScraper._is_grammatical_sentence]; [None] when the tokenizer or
    the tagger raises, which nothing in the function catches. *)
Definition _is_grammatical_sentence `{PyUnicode} `{NLTK} (sentence : str) : option bool :=
  if length sentence <? 10 then Some false
  else if 500 <? length sentence then Some false
  else
    match word_tokenize_call (str_lower sentence) with
    | None => None
    | Some [] => Some false
    | Some words =>
        match pos_tag words with
        | None => None
        | Some tags =>
            let has_noun :=
              existsb (fun word => match getattr word "pos_" with
                                   | Some v => str_eqb v (py "NOUN")
                                   | None => false
                                   end)
                      (List.filter (fun word => hasattr word "pos_") (tagged tags)) in
            let has_verb :=
              existsb (fun wt => startswith (py "VB") (snd wt)) tags in
            Some (has_noun && has_verb)%bool
        end
    end.

Definition is_empty (s : str) : bool := match s with [] => true | _ => false end.

(** [if content and not content.endswith('.'): content += '.'] *)
Definition ensure_period (content : str) : str :=
  if (negb (is_empty content) && negb (endswith (py ".") content))%bool
  then content ++ py "."
  else content.

(** The loop of the filter over the sentences: it stops where the
    acceptance test raises. *)
Fixpoint grammatical_sentences `{PyUnicode} `{NLTK} (sentences : list str)
    : option (list str) :=
  match sentences with
  | [] => Some []
  | sentence :: rest =>
      let sentence := strip sentence in
      match _is_grammatical_sentence sentence with
      | None => None
      | Some keep =>
          match grammatical_sentences rest with
          | None => None
          | Some filtered_sentences =>
              Some (if keep then sentence :: filtered_sentences else filtered_sentences)
          end
      end
  end.

(** [WebScraper._grammar_and_coherence_filter]; [None] when the
    acceptance test raises. *)
Definition _grammar_and_coherence_filter `{PyUnicode} `{NLTK} (content : str) : option str :=
  if is_empty content then Some []
  else
    let sentences :=
      match sent_tokenize content with
      | Some sentences => sentences
      | None => split_on (chr ".") content
      end in
    match grammatical_sentences sentences with
    | None => None
    | Some filtered_sentences => Some (ensure_period (join (py ". ") filtered_sentences))
    end.

(* ================================================================== *)
(** ** scraper.py: the Sector Context Filter *)
(* ================================================================== *)

(** A [dict] literal whose iteration order matters: keys in the order
    written. *)
Definition table : Type := list (str * list str).

Definition sector_contexts : table :=
  [ (py "e-mobility",
     List.map py ["electric"; "vehicle"; "battery"; "charging"; "sustainable";
                  "mobility"; "green"; "energy"; "transport"; "autonomous"]%string);
    (py "manufacturing",
     List.map py ["manufacture"; "production"; "supply"; "chain"; "automation";
                  "robotics"; "factory"; "industry"; "efficiency"]%string);
    (py "politics-governance",
     List.map py ["government"; "policy"; "regulation"; "election"; "legislation";
                  "political"; "governance"; "law"; "minister"]%string);
    (py "artificial intelligence & machine learning",
     List.map py ["artificial"; "intelligence"; "machine"; "learning"; "ai";
                  "algorithm"; "data"; "neural"; "deep"]%string);
    (py "startup & innovation",
     List.map py ["startup"; "innovation"; "venture"; "entrepreneur"; "funding";
                  "business"; "model"; "disruption"; "scalability"]%string) ].

(** [sum(1 for keyword in keywords if keyword in full_text)] *)
Definition context_score (full_text : str) (keywords : list str) : nat :=
  length (List.filter (fun keyword => contains keyword full_text) keywords).

(** [max(d, key=d.get)]: the first key whose value is the largest. *)
Fixpoint max_key (scores : list (str * nat)) : option (str * nat) :=
  match scores with
  | [] => None
  | (k, v) :: rest =>
      match max_key rest with
      | Some (k', v') => if v' <=? v then Some (k, v) else Some (k', v')
      | None => Some (k, v)
      end
  end.

Fixpoint lookup_table (sector : str) (t : table) : list str :=
  match t with
  | [] => []
  | (k, v) :: t' => if str_eqb sector k then v else lookup_table sector t'
  end.

Definition context_scores `{PyUnicode} (content title : str) : list (str * nat) :=
  let full_text := str_lower (title ++ py " " ++ content) in
  List.map (fun sk => (fst sk, context_score full_text (snd sk))) sector_contexts.

Definition relevant_to `{PyUnicode} (keywords : list str) (sentence : str) : bool :=
  existsb (fun keyword => contains keyword (str_lower sentence)) keywords.

(** [WebScraper._sector_context_filter]. *)
Definition _sector_context_filter `{PyUnicode} `{NLTK} (content title : str) : str :=
  if is_empty content then []
  else
    match max_key (context_scores content title) with
    | Some (best_sector, score) =>
        if (negb (is_empty best_sector) && (0 <? score))%bool then
          match sent_tokenize content with
          | Some sentences =>
              let relevant_sentences :=
                List.filter (relevant_to (lookup_table best_sector sector_contexts))
                            sentences in
              match relevant_sentences with
              | [] => content
              | _ =>
                  let content := join (py ". ") relevant_sentences in
                  if endswith (py ".") content then content else content ++ py "."
              end
          | None => content
          end
        else content
    | None => content
    end.

(* ================================================================== *)
(** ** scraper.py: the Deduplicator and the cleaning chain *)
(* ================================================================== *)

Definition mem (x : str) (l : list str) : bool := existsb (str_eqb x) l.

Fixpoint unique_go `{PyUnicode} (seen : list str) (sentences : list str) : list str :=
  match sentences with
  | [] => []
  | sentence :: rest =>
      let normalized := strip (str_lower sentence) in
      if (negb (mem normalized seen) && (10 <? length normalized))%bool
      then sentence :: unique_go (normalized :: seen) rest
      else unique_go seen rest
  end.

(** [WebScraper._final_polish]. *)
Definition _final_polish `{PyUnicode} `{NLTK} (content : str) : str :=
  if is_empty content then []
  else
    let content :=
      match sent_tokenize content with
      | Some sentences => join (py ". ") (unique_go [] sentences)
      | None => content
      end in
    ensure_period (join (py " ") (split content)).

(** [WebScraper._clean_and_filter_content]; [None] when the Coherence
    Filter raises. *)
Definition _clean_and_filter_content `{PyUnicode} `{NLTK} (content title : str)
    : option str :=
  if is_empty content then Some []
  else
    let content := _basic_text_cleaning content in
    let content := _remove_irrelevant_content content in
    match _grammar_and_coherence_filter content with
    | None => None
    | Some content =>
        let content := _sector_context_filter content title in
        let content := _final_polish content in
        Some content
    end.

(* ================================================================== *)
(** ** Records, the store and exceptions *)
(* ================================================================== *)

(** The values a record's field holds.  A float is kept as mantissa and
    binary exponent; it is only stored, never computed with. *)
Inductive pyval : Type :=
| VStr (s : str)
| VList (l : list str)
| VFloat (mantissa exponent : Z)
| VNone.

Inductive exn : Type :=
| KeyError (key : string)
| AttributeError
| TypeError
| IndexError
| NLTKError.

Inductive result (A : Type) : Type :=
| Ok (a : A)
| Raise (e : exn).
Arguments Ok {A} a.
Arguments Raise {A} e.

(** A record is a [dict] object; lists of records and variables hold
    references to it, and every stage updates the object in place. *)
Definition loc : Type := nat.
Abbreviation dict := (gmap string pyval).
Abbreviation heap := (gmap nat (gmap string pyval)).

(** Computations over the store that may raise. *)
Definition M (A : Type) : Type := heap -> heap * result A.

Definition ret {A} (a : A) : M A := fun h => (h, Ok a).
Definition raise {A} (e : exn) : M A := fun h => (h, Raise e).
Definition bind {A B} (m : M A) (f : A -> M B) : M B :=
  fun h => match m h with
           | (h', Ok a) => f a h'
           | (h', Raise e) => (h', Raise e)
           end.

(** [try: m except Exception: handler]; what [m] wrote before it raised
    stays written. *)
Definition try_except {A} (m : M A) (handler : exn -> M A) : M A :=
  fun h => match m h with
           | (h', Ok a) => (h', Ok a)
           | (h', Raise e) => handler e h'
           end.

Notation "x <- m ;; k" := (bind m (fun x => k))
  (at level 62, m at next level, right associativity).
Notation "m ;;; k" := (bind m (fun _ => k))
  (at level 62, right associativity).

Definition deref (l : loc) (h : heap) : dict := default ∅ (h !! l).

(** [d[key]] *)
Definition getitem (l : loc) (key : string) : M pyval :=
  fun h => match deref l h !! key with
           | Some v => (h, Ok v)
           | None => (h, Raise (KeyError key))
           end.

(** [d.get(key, dflt)] *)
Definition get (l : loc) (key : string) (dflt : pyval) : M pyval :=
  fun h => (h, Ok (default dflt (deref l h !! key))).

Definition update_dict (kvs : list (string * pyval)) (d : dict) : dict :=
  fold_left (fun d kv => <[fst kv := snd kv]> d) kvs d.

(** [d.update({...})] and [d[key] = v] *)
Definition update (l : loc) (kvs : list (string * pyval)) : M unit :=
  fun h => (<[l := update_dict kvs (deref l h)]> h, Ok tt).
Definition setitem (l : loc) (key : string) (v : pyval) : M unit :=
  update l [(key, v)].

(** [v.lower()], [v.strip()]: methods of [str] only. *)
Definition as_str (on_fail : exn) (v : pyval) : M str :=
  match v with
  | VStr s => ret s
  | _ => raise on_fail
  end.

(* ================================================================== *)
(** ** scraper.py: the Sector Scorer *)
(* ================================================================== *)

Definition sectors : table :=
  [ (py "e-mobility",
     List.map py ["electric vehicle"; "ev"; "battery"; "charging station";
                  "autonomous driving"; "sustainable mobility"; "green energy";
                  "renewable transport"; "electric car"; "lithium-ion";
                  "vehicle electrification"; "smart mobility"; "e-mobility"]%string);
    (py "manufacturing",
     List.map py ["manufacturing"; "supply chain"; "automation"; "industry 4.0";
                  "robotics"; "production line"; "factory automation";
                  "industrial iot"; "smart manufacturing"; "lean manufacturing";
                  "quality control"; "production efficiency"]%string);
    (py "politics-governance",
     List.map py ["government"; "policy"; "regulation"; "election"; "legislation";
                  "parliament"; "political"; "governance"; "public sector";
                  "democracy"; "constitution"; "minister"; "president"; "law";
                  "bill"; "senate"]%string);
    (py "artificial intelligence & machine learning",
     List.map py ["artificial intelligence"; "machine learning"; "deep learning";
                  "neural network"; "data science"; "ai model"; "computer vision";
                  "natural language processing"; "predictive analytics";
                  "algorithm"; "automation ai"]%string);
    (py "startup & innovation",
     List.map py ["startup"; "innovation"; "venture capital"; "tech startup";
                  "business model"; "entrepreneurship"; "funding round";
                  "pitch deck"; "scalability"; "disruption"]%string) ].

(** [len(re.findall(r'\b' + re.escape(keyword) + r'\b', full_text))] *)
Definition keyword_count `{PyUnicode} (keyword full_text : str) : nat :=
  re_findall_len (seqs [WordB; lit keyword; WordB]) full_text.

Definition sector_score `{PyUnicode} (full_text : str) (keywords : list str) : nat :=
  fold_left (fun score keyword => score + keyword_count keyword full_text) keywords 0.

Definition sector_scores `{PyUnicode} (full_text : str) : list (str * nat) :=
  List.map (fun sk => (fst sk, sector_score full_text (snd sk))) sectors.

(** [max(scores.values()) if scores else 0] *)
Definition max_value (scores : list (str * nat)) : nat :=
  fold_right (fun kv m => Nat.max (snd kv) m) 0 scores.

Definition top_of (scores : list (str * nat)) : list str :=
  List.map fst (List.filter (fun kv => snd kv =? max_value scores) scores).

(** The choice made from the scores; [Raise IndexError] stands for
    [top_sectors[0]] on an empty list. *)
Definition choose_category (scores : list (str * nat)) : result str :=
  let max_score := max_value scores in
  if 0 <? max_score then
    let top_sectors := top_of scores in
    if ((length top_sectors =? 1) || (2 <=? max_score))%bool then
      match top_sectors with
      | first :: _ => Ok first
      | [] => Raise IndexError
      end
    else Ok (py "general")
  else Ok (py "general").

(** [WebScraper.categorize_content]. *)
Definition categorize_content `{PyUnicode} (content_dict : loc) : M loc :=
  v <- getitem content_dict "content" ;;
  content <- as_str AttributeError v ;;
  v <- get content_dict "title" (VStr []) ;;
  title <- as_str AttributeError v ;;
  let full_text := str_lower content ++ py " " ++ str_lower title in
  match choose_category (sector_scores full_text) with
  | Ok category =>
      setitem content_dict "category" (VStr category) ;;;
      ret content_dict
  | Raise e => raise e
  end.

(* ================================================================== *)
(** ** processor.py, processor_llm.py: tokens, keywords, themes *)
(* ================================================================== *)

(** [Counter(l)]: the distinct elements in order of first appearance,
    each with its number of occurrences. *)
Fixpoint counter_add (x : str) (c : list (str * nat)) : list (str * nat) :=
  match c with
  | [] => [(x, 1)]
  | (y, n) :: c' => if str_eqb x y then (y, S n) :: c' else (y, n) :: counter_add x c'
  end.

Definition Counter (l : list str) : list (str * nat) :=
  fold_left (fun c x => counter_add x c) l [].

(** [sorted(items, key=itemgetter(1), reverse=True)]: an item goes in
    front of the first item whose count is not larger, so that items of
    equal count keep their order. *)
Fixpoint insert_desc (x : str * nat) (l : list (str * nat)) : list (str * nat) :=
  match l with
  | [] => [x]
  | y :: l' => if snd y <=? snd x then x :: l else y :: insert_desc x l'
  end.

Definition sort_desc (items : list (str * nat)) : list (str * nat) :=
  fold_right insert_desc [] items.

(** [c.most_common(n)], that is [heapq.nlargest(n, c.items(), key=itemgetter(1))]. *)
Definition most_common (n : nat) (c : list (str * nat)) : list (str * nat) :=
  firstn n (sort_desc c).

(** [words = [word for word in word_tokenize(text.lower()) if word.isalnum()]] *)
Definition alnum_words `{PyUnicode} `{NLTK} (text : str) : list str :=
  List.filter str_isalnum (word_tokenize (str_lower text)).

(** The Token Pipeline. *)
Definition filtered_words `{PyUnicode} `{NLTK} (text : str) : list str :=
  List.map lemmatize
    (List.filter (fun word => (negb (mem word stop_words) && (2 <? length word))%bool)
                 (alnum_words text)).

Definition top_keywords `{PyUnicode} `{NLTK} (text : str) : list str :=
  List.map fst (most_common 10 (Counter (filtered_words text))).

Definition words_in_sent `{PyUnicode} `{NLTK} (sentence : str) : list str :=
  List.filter (fun w => (str_isalnum w && negb (mem w stop_words))%bool)
              (word_tokenize (str_lower sentence)).

(** [for i in range(len(ws) - 1): themes.append(f"{ws[i]} {ws[i+1]}")] *)
Fixpoint bigrams (ws : list str) : list str :=
  match ws with
  | a :: (b :: _) as rest => (a ++ py " " ++ b) :: bigrams rest
  | _ => []
  end.

Definition themes `{PyUnicode} `{NLTK} (sentences : list str) : list str :=
  flat_map (fun sentence => bigrams (words_in_sent sentence)) sentences.

Definition top_themes `{PyUnicode} `{NLTK} (sentences : list str) : list str :=
  List.map fst (most_common 5 (Counter (themes sentences))).

(** [len(set(words) & lexicon)] for a lexicon written without repeats. *)
Definition lexicon_count (lexicon words : list str) : nat :=
  length (List.filter (fun w => mem w words) lexicon).

Definition sentiment_of (positive_words negative_words words : list str) : str :=
  let positive_count := lexicon_count positive_words words in
  let negative_count := lexicon_count negative_words words in
  if negative_count <? positive_count then py "positive"
  else if positive_count <? negative_count then py "negative"
  else py "neutral".

Definition run_sent_tokenize `{NLTK} (text : str) : M (list str) :=
  match sent_tokenize text with
  | Some sentences => ret sentences
  | None => raise NLTKError
  end.

(** [ContentProcessor.batch_process], the same text in both files. *)
Fixpoint batch_loop (process_content : loc -> M loc)
    (content_list : list loc) (processed : list loc) : M (list loc) :=
  match content_list with
  | [] => ret processed
  | content :: rest =>
      processed <- try_except
                     (r <- process_content content ;; ret (processed ++ [r]))
                     (fun e =>
                        _ <- get content "url" (VStr (py "unknown")) ;;
                        ret (processed ++ [content])) ;;
      batch_loop process_content rest processed
  end.

Module Processor.

(** [ContentProcessor._enhance_category] of processor.py. *)
Definition _enhance_category `{PyUnicode} (base_category : pyval) (keywords : list str) : pyval :=
  let keyword_str := str_lower (join (py " ") keywords) in
  let has := fun s : string => contains (py s) keyword_str in
  if (has "electric" || has "vehicle" || has "battery")%bool then VStr (py "e-mobility")
  else if (has "manufactur" || has "supply" || has "automation")%bool then VStr (py "manufacturing")
  else if (has "government" || has "policy" || has "regulation")%bool then VStr (py "politics-governance")
  else base_category.

Definition positive_words : list str :=
  List.map py ["good"; "great"; "excellent"; "positive"; "innovative"; "successful";
               "beneficial"]%string.
Definition negative_words : list str :=
  List.map py ["bad"; "poor"; "negative"; "problematic"; "challenging"; "difficult";
               "issue"]%string.

(** [ContentProcessor.process_content] of processor.py. *)
Definition process_content `{PyUnicode} `{NLTK} (content_dict : loc) : M loc :=
  v <- getitem content_dict "content" ;;
  text <- as_str TypeError v ;;
  sentences <- run_sent_tokenize text ;;
  let top_keywords := top_keywords text in
  let top_themes := top_themes sentences in
  let sentiment := sentiment_of positive_words negative_words (filtered_words text) in
  base_category <- getitem content_dict "category" ;;
  let enhanced_category := _enhance_category base_category top_keywords in
  update content_dict [("keywords", VList top_keywords);
                       ("themes", VList top_themes);
                       ("sentiment", VStr sentiment);
                       ("category", enhanced_category)]%string ;;;
  _ <- getitem content_dict "url" ;;
  ret content_dict.

Definition batch_process `{PyUnicode} `{NLTK} (content_list : list loc) : M (list loc) :=
  batch_loop process_content content_list [].

End Processor.

(** The reply of the language model to the prompt built from the title,
    the content and the sector, parsed into the three fields the cleaner
    stores; [None] when the request or the parsing raises. *)
Class LLM := {
  llm_reply : pyval -> str -> str -> option (pyval * pyval * pyval)
}.

Module ProcessorLLM.

(** [LLMCleaner.clean_content] of llm_cleaner.py. *)
Definition clean_content `{LLM} (content_dict : loc) (sector : pyval) : M loc :=
  title <- get content_dict "title" (VStr []) ;;
  v <- get content_dict "content" (VStr []) ;;
  raw_content <- as_str AttributeError v ;;
  if is_empty (strip raw_content) then
    update content_dict [("cleaned_content", VStr []);
                         ("key_insights", VList []);
                         ("relevance_score", VFloat 0 0)]%string ;;;
    ret content_dict
  else
    sector <- as_str AttributeError sector ;;
    match llm_reply title raw_content sector with
    | Some (cleaned_content, key_insights, relevance_score) =>
        update content_dict [("cleaned_content", cleaned_content);
                             ("key_insights", key_insights);
                             ("relevance_score", relevance_score)]%string
    | None =>
        update content_dict [("cleaned_content", VStr raw_content);
                             ("key_insights", VList []);
                             ("relevance_score", VFloat 1 (-1))]%string
    end ;;;
    ret content_dict.

(** [ContentProcessor._enhance_category] of processor_llm.py. *)
Definition _enhance_category `{PyUnicode} (base_category : pyval) (keywords : list str) : pyval :=
  let keyword_str := str_lower (join (py " ") keywords) in
  let has := fun s : string => contains (py s) keyword_str in
  if (has "electric" || has "vehicle" || has "battery")%bool then VStr (py "e-mobility")
  else if (has "manufactur" || has "supply" || has "automation")%bool then VStr (py "manufacturing")
  else if (has "government" || has "policy" || has "regulation")%bool then VStr (py "politics-governance")
  else if (has "startup" || has "entrepreneur" || has "funding")%bool then VStr (py "startup & innovation")
  else if (has "ai" || has "artificial" || has "intelligence")%bool then VStr (py "ai & ml")
  else base_category.

Definition positive_words : list str :=
  List.map py ["good"; "great"; "excellent"; "positive"; "innovative"; "successful";
               "beneficial"; "growth"; "advance"; "breakthrough"]%string.
Definition negative_words : list str :=
  List.map py ["bad"; "poor"; "negative"; "problematic"; "challenging"; "difficult";
               "issue"; "decline"; "crisis"; "failure"]%string.

(** [ContentProcessor.process_content] of processor_llm.py; [use_llm]
    is the processor's flag of that name. *)
Definition process_content `{PyUnicode} `{NLTK} `{LLM} (use_llm : bool) (content_dict : loc) : M loc :=
  dt <- (if use_llm then
           sector <- get content_dict "category" (VStr (py "general")) ;;
           content_dict <- clean_content content_dict sector ;;
           dflt <- get content_dict "content" (VStr []) ;;
           text <- get content_dict "cleaned_content" dflt ;;
           ret (content_dict, text)
         else
           text <- get content_dict "content" (VStr []) ;;
           ret (content_dict, text)) ;;
  let content_dict := fst dt in
  text <- as_str AttributeError (snd dt) ;;
  if is_empty (strip text) then
    update content_dict [("keywords", VList []);
                         ("themes", VList []);
                         ("sentiment", VStr (py "neutral"))]%string ;;;
    ret content_dict
  else
    sentences <- run_sent_tokenize text ;;
    let top_keywords := top_keywords text in
    let top_themes := top_themes sentences in
    let sentiment := sentiment_of positive_words negative_words (filtered_words text) in
    base_category <- get content_dict "category" (VStr (py "general")) ;;
    let enhanced_category := _enhance_category base_category top_keywords in
    update content_dict [("keywords", VList top_keywords);
                         ("themes", VList top_themes);
                         ("sentiment", VStr sentiment);
                         ("category", enhanced_category)]%string ;;;
    _ <- get content_dict "url" (VStr (py "unknown")) ;;
    ret content_dict.

Definition batch_process `{PyUnicode} `{NLTK} `{LLM} (use_llm : bool)
    (content_list : list loc) : M (list loc) :=
  batch_loop (process_content use_llm) content_list [].

End ProcessorLLM.

(* ================================================================== *)
(** ** Stand-ins for NLTK and the language model, to run examples *)
(* ================================================================== *)

Definition sentence_end (c : char) (rest : str) : bool :=
  (one_of ".!?" c && match rest with [] => true | d :: _ => isspace d end)%bool.

(** Sentences end at a full stop, exclamation or question mark that is
    followed by white space or ends the text. *)
Fixpoint demo_sentences (cur : str) (s : str) : list str :=
  match s with
  | [] => if is_empty cur then [] else [rev cur]
  | c :: s' =>
      if (is_empty cur && isspace c)%bool then demo_sentences [] s'
      else if sentence_end c s' then rev (c :: cur) :: demo_sentences [] s'
      else demo_sentences (c :: cur) s'
  end.

(** Words are separated by white space; a final punctuation mark is a
    token of its own. *)
Definition demo_word (w : str) : list str :=
  match rev w with
  | c :: (_ :: _) as body => if one_of ".,!?;:" c then [rev body; [c]] else [w]
  | _ => [w]
  end.

Definition demo_lexicon : list (str * str) :=
  List.map (fun wt => (py (fst wt), py (snd wt)))
    [("the", "DT"); ("a", "DT"); ("on", "IN"); ("is", "VBZ"); ("are", "VBP");
     ("sat", "VBD"); ("fall", "VBP"); (".", ".")]%string.

Fixpoint demo_tag (w : str) (lex : list (str * str)) : str :=
  match lex with
  | [] => py "NN"
  | (w', t) :: lex' => if str_eqb w w' then t else demo_tag w lex'
  end.

Definition demo_nltk : NLTK := {|
  sent_tokenize := fun s => Some (demo_sentences [] s);
  word_tokenize := fun s => flat_map demo_word (split s);
  pos_tag := fun words => Some (List.map (fun w => (w, demo_tag w demo_lexicon)) words);
  lemmatize := fun w => w;
  stop_words := List.map py ["the"; "a"; "on"; "is"; "are"; "and"; "of"; "in"]%string
|}.

(** A tokeniser whose sentence splitter raises on every text. *)
Definition raising_nltk : NLTK := {|
  sent_tokenize := fun _ => None;
  word_tokenize := @word_tokenize demo_nltk;
  pos_tag := @pos_tag demo_nltk;
  lemmatize := @lemmatize demo_nltk;
  stop_words := @stop_words demo_nltk
|}.

(** NLTK as the program installs it: the tagger's model is missing, and
    [pos_tag] raises. *)
Definition untagged_nltk : NLTK := {|
  sent_tokenize := @sent_tokenize demo_nltk;
  word_tokenize := @word_tokenize demo_nltk;
  pos_tag := fun _ => None;
  lemmatize := @lemmatize demo_nltk;
  stop_words := @stop_words demo_nltk
|}.

(** A language model that is never reached. *)
Definition offline_llm : LLM := {| llm_reply := fun _ _ _ => None |}.

(** A record with the given fields at address 0. *)
Definition record (fields : list (string * pyval)) : heap :=
  {[ 0 := update_dict fields ∅ ]}.

(** The Sector enumeration as the specification lists it. *)
Definition spec_sectors : list str :=
  List.map py ["e-mobility"; "manufacturing"; "politics-governance"; "ai-ml";
               "startup-innovation"; "general"]%string.

(** The labels the program writes into [category]. *)
Definition scorer_labels : list str := List.map fst sectors ++ [py "general"].
Definition refiner_labels : list str :=
  List.map py ["e-mobility"; "manufacturing"; "politics-governance"]%string.
Definition refiner_llm_labels : list str :=
  refiner_labels ++ List.map py ["startup & innovation"; "ai & ml"]%string.
Definition code_labels : list str :=
  scorer_labels ++ [py "ai & ml"].

(** The Sector Context Filter as the specification words it: the sector
    is the one the Sector Scorer assigns; [general] skips the stage;
    otherwise the sentences that contain one of that sector's keyword
    phrases are kept and joined with a full stop and a space. *)
Definition spec_sector_context_filter `{PyUnicode} `{NLTK} (content title : str) : str :=
  match choose_category (sector_scores (str_lower content ++ py " " ++ str_lower title)),
        sent_tokenize content with
  | Ok sector, Some sentences =>
      if str_eqb sector (py "general") then content
      else join (py ". ")
             (List.filter (fun sentence =>
                             existsb (fun keyword => contains keyword sentence)
                                     (lookup_table sector sectors))
                          sentences)
  | _, _ => content
  end.

(** The indicator terms of the two Category Refiners, in the order tested. *)
Definition refiner_indicators : list string :=
  ["electric"; "vehicle"; "battery"; "manufactur"; "supply"; "automation";
   "government"; "policy"; "regulation"]%string.
Definition refiner_llm_indicators : list string :=
  refiner_indicators ++
  ["startup"; "entrepreneur"; "funding"; "ai"; "artificial"; "intelligence"]%string.

(** A store with the given records at addresses [i], [i+1], ... *)
Fixpoint store_from (i : nat) (records : list (list (string * pyval))) : heap :=
  match records with
  | [] => ∅
  | fields :: rest => <[i := update_dict fields ∅]> (store_from (S i) rest)
  end.

(** The store in which [content_list] has been gone through with
    [process_content], a raise leaving the store as it was at the raise. *)
Definition processed_store (process_content : loc -> M loc)
    (content_list : list loc) (h : heap) : heap :=
  fold_left (fun h content => fst (process_content content h)) content_list h.

(** Ranking by frequency.  [count x l] is the number of occurrences of
    [x] in [l]; [first_index x l] the position of the first one. *)
Definition count (x : str) (l : list str) : nat :=
  length (List.filter (str_eqb x) l).

Fixpoint first_index (x : str) (l : list str) : nat :=
  match l with
  | [] => 0
  | y :: l' => if str_eqb x y then 0 else S (first_index x l')
  end.

(** [a] comes before [b]: it is more frequent in the stream, or as
    frequent and first seen earlier. *)
Definition ranks_before (stream : list str) (a b : str) : Prop :=
  count b stream < count a stream \/
  (count a stream = count b stream /\ first_index a stream < first_index b stream).

(** [out] is the ranking of the stream cut at [n]: at most [n] distinct
    elements of the stream, each before the next, and before every
    element of the stream that was left out. *)
Definition ranked (stream : list str) (n : nat) (out : list str) : Prop :=
  length out <= n /\
  List.NoDup out /\
  (forall x, In x out -> In x stream) /\
  StronglySorted (ranks_before stream) out /\
  (forall x, In x stream -> ~ In x out ->
             length out = n /\ Forall (fun a => ranks_before stream a x) out).

(** The order of the items after the stable sort by decreasing count,
    [earlier] being their order before it. *)
Definition sorted_before (earlier : str * nat -> str * nat -> Prop)
    (p q : str * nat) : Prop :=
  snd q < snd p \/ (snd p = snd q /\ earlier p q).

(** The count stored for [y] in a counter. *)
Fixpoint assoc_count (y : str) (c : list (str * nat)) : nat :=
  match c with
  | [] => 0
  | (z, n) :: c' => if str_eqb y z then n else assoc_count y c'
  end.

(** What a processed record holds for a text and the sentences the
    splitter made of it: as keywords the ranking of the token stream of
    the text, as themes the ranking of the bigram stream of the
    sentences. *)
Definition holds_rankings `{PyUnicode} `{NLTK} (text : str) (sentences : list str)
    (h : heap) (content_dict : loc) : Prop :=
  deref content_dict h !! "keywords"%string = Some (VList (top_keywords text)) /\
  deref content_dict h !! "themes"%string = Some (VList (top_themes sentences)).

(** The characters of a text that are not white space. *)
Definition nonspace (s : str) : str := List.filter (fun c => negb (isspace c)) s.

(** The least number of characters a match of [r] takes. *)
Fixpoint min_len (r : regex) : nat :=
  match r with
  | Eps => 0
  | Cls _ => 1
  | Seq r1 r2 => min_len r1 + min_len r2
  | Alt r1 r2 => Nat.min (min_len r1) (min_len r2)
  | Star _ => 0
  | WordB => 0
  end.

(** A word of [str.split()]: not empty, and free of white space. *)
Definition is_word (w : str) : Prop :=
  w <> [] /\ forallb (fun c => negb (isspace c)) w = true.

(** The form in which the Deduplicator compares sentences. *)
Definition normalized `{PyUnicode} (sentence : str) : str := strip (str_lower sentence).

(** The three sentiment labels. *)
Definition sentiments : list str := List.map py ["positive"; "negative"; "neutral"]%string.

(** The fields processor.py's [process_content] stores for a text, its
    sentences and the category found in the record. *)
Definition processed_fields `{PyUnicode} `{NLTK}
    (text : str) (sentences : list str) (base_category : pyval) : list (string * pyval) :=
  [("keywords", VList (top_keywords text));
   ("themes", VList (top_themes sentences));
   ("sentiment", VStr (sentiment_of Processor.positive_words Processor.negative_words
                         (filtered_words text)));
   ("category", Processor._enhance_category base_category (top_keywords text))]%string.

(** The fields the cleaner and the blank-text path of processor_llm.py
    write. *)
Definition cleaner_keys : list string :=
  ["cleaned_content"; "key_insights"; "relevance_score"]%string.
Definition blank_fields : list (string * pyval) :=
  [("keywords", VList []); ("themes", VList []);
   ("sentiment", VStr (py "neutral"))]%string.


(** The fields processor_llm.py's [process_content] stores for a text
    that is not blank, and the fields the cleaner stores when the request
    to the language model fails. *)
Definition processed_fields_llm `{PyUnicode} `{NLTK}
    (text : str) (sentences : list str) (base_category : pyval) : list (string * pyval) :=
  [("keywords", VList (top_keywords text));
   ("themes", VList (top_themes sentences));
   ("sentiment", VStr (sentiment_of ProcessorLLM.positive_words ProcessorLLM.negative_words
                         (filtered_words text)));
   ("category", ProcessorLLM._enhance_category base_category (top_keywords text))]%string.
Definition fallback_fields (raw_content : str) : list (string * pyval) :=
  [("cleaned_content", VStr raw_content); ("key_insights", VList []);
   ("relevance_score", VFloat 1 (-1))]%string.


(* ================================================================== *)
(** ** scraper.py: requests, pages and the scraping loop *)
(* ================================================================== *)

(** What [scrape_url] reads off a parsed page: the text of the [title]
    element when [soup.find('title')] finds one, the texts of the
    elements [soup.select] finds for a selector, and the text of the
    whole page. *)
Record soup : Type := {
  soup_title : option str;
  soup_select : str -> list str;
  soup_text : str
}.

(** The three ways the [try] block of [scrape_url] goes: the request (or
    [raise_for_status]) raises a [RequestException], something else
    raises, or the page is fetched and parsed. *)
Inductive response : Type :=
| RequestException
| OtherException
| Parsed (page : soup).

(** The network: the outcome of the [n]-th request of the session, made
    for [url]. *)
Class Web := {
  http_get : nat -> str -> response
}.

(** The state of a scraping session: the requests made so far and the
    seconds spent in [time.sleep]. *)
Record session : Type := {
  requests : nat;
  slept : nat
}.

Definition content_selectors : list str :=
  [py "article"; py "main"; py ".post-content"; py ".entry-content"; py ".article-body";
   py ".content"; py "[role=" ++ dquote ++ py "main" ++ dquote ++ py "]"; py ".blog-post"].

(** The loop over the content selectors; [selected] holds, selector by
    selector, the texts of the selected elements. *)
Fixpoint select_content (content : str) (selected : list (list str)) : str :=
  match selected with
  | [] => content
  | elements :: rest =>
      match elements with
      | [] => select_content content rest
      | _ :: _ =>
          let content := join (py " ") (List.map strip elements) in
          if 100 <? length content then content else select_content content rest
      end
  end.

(** The body of the [try] block after the page is parsed: the record
    [scrape_url] returns, or [None] when the cleaning raises. *)
Definition page_record `{PyUnicode} `{NLTK} (url : str) (page : soup)
    : option (list (string * pyval)) :=
  let title_text := match soup_title page with
                    | Some title => strip title
                    | None => py "No title"
                    end in
  let content := select_content [] (List.map (soup_select page) content_selectors) in
  let content := if is_empty content then strip (soup_text page) else content in
  match _clean_and_filter_content content title_text with
  | None => None
  | Some content =>
      Some [("url", VStr url); ("title", VStr title_text); ("content", VStr content)]%string
  end.

(** [for attempt in range(max_retries)]: [todo] attempts are left, the
    next one is number [attempt]. *)
Fixpoint scrape_attempts `{PyUnicode} `{NLTK} `{Web} (url : str) (max_retries delay : nat)
    (todo attempt : nat) (s : session) : session * option (list (string * pyval)) :=
  match todo with
  | 0 => (s, None)
  | S todo =>
      let s1 := {| requests := S (requests s); slept := slept s |} in
      match http_get (requests s) url with
      | Parsed page => (s1, page_record url page)
      | RequestException =>
          if attempt <? max_retries - 1
          then scrape_attempts url max_retries delay todo (S attempt)
                 {| requests := S (requests s);
                    slept := slept s + delay * (attempt + 1) |}
          else (s1, None)
      | OtherException => (s1, None)
      end
  end.

(** [WebScraper.scrape_url]. *)
Definition scrape_url `{PyUnicode} `{NLTK} `{Web} (url : str) (max_retries delay : nat)
    (s : session) : session * option (list (string * pyval)) :=
  scrape_attempts url max_retries delay max_retries 0 s.

(** [WebScraper.scrape_multiple_urls]; [results] is the list built so
    far. *)
Fixpoint scrape_loop `{PyUnicode} `{NLTK} `{Web} (urls : list str) (delay_between : nat)
    (results : list (list (string * pyval))) (s : session)
    : session * list (list (string * pyval)) :=
  match urls with
  | [] => (s, results)
  | url :: rest =>
      let (s1, result) := scrape_url url 3 1 s in
      let results := match result with
                     | Some r => results ++ [r]
                     | None => results
                     end in
      scrape_loop rest delay_between results
        {| requests := requests s1; slept := slept s1 + delay_between |}
  end.

Definition scrape_multiple_urls `{PyUnicode} `{NLTK} `{Web} (urls : list str)
    (delay_between : nat) (s : session) : session * list (list (string * pyval)) :=
  scrape_loop urls delay_between [] s.

(** A network for examples: the first request fails, every later one
    gets a page whose [article] element holds [text]. *)
Definition demo_web (text : str) : Web := {|
  http_get := fun n url =>
    match n with
    | 0 => RequestException
    | _ => Parsed {| soup_title := Some (py " Electric mats ");
                     soup_select := fun selector =>
                       if str_eqb selector (py "article") then [text] else [];
                     soup_text := text |}
    end
|}.

(** The record of a page from which no content is left. *)
Definition empty_record (url title : str) : list (string * pyval) :=
  [("url", VStr url); ("title", VStr title); ("content", VStr [])]%string.


(** [LLMCleaner.batch_clean] of llm_cleaner.py: the loop of
    [batch_process] around [clean_content]. *)
Definition batch_clean `{LLM} (content_list : list loc) (sector : pyval) : M (list loc) :=
  batch_loop (fun content => ProcessorLLM.clean_content content sector) content_list [].

(** A computation that works on the record [l] alone: it leaves every
    other record as it is, and its outcome and what it makes of [l]
    depend on nothing but the fields of [l]. *)
Definition local {A} (l : loc) (m : M A) : Prop :=
  forall h,
    (forall l', l' <> l -> fst (m h) !! l' = h !! l') /\
    (forall h0, deref l h = deref l h0 ->
                snd (m h) = snd (m h0) /\ deref l (fst (m h)) = deref l (fst (m h0))).


(* ================================================================== *)
(** ** main_llm.py: the workflow *)
(* ================================================================== *)

(** [[self.scraper.categorize_content(content) for content in
    scraped_content]] *)
Fixpoint categorize_all `{PyUnicode} (scraped_content : list loc) : M (list loc) :=
  match scraped_content with
  | [] => ret []
  | content :: rest =>
      r <- categorize_content content ;;
      rs <- categorize_all rest ;;
      ret (r :: rs)
  end.

(** [LinkedInScraperApp.run_workflow] of main_llm.py up to the end of
    its Step 2: the urls are scraped, the records categorized and
    processed.  The records [scrape_multiple_urls] returns are new
    objects; they are put in a new store at 0, 1, ...  [None] stands
    for the early return when nothing was scraped. *)
Definition scrape_and_process `{PyUnicode} `{NLTK} `{LLM} `{Web}
    (use_llm : bool) (urls : list str) (s : session)
    : session * option (heap * result (list loc)) :=
  let (s', scraped_content) := scrape_multiple_urls urls 2 s in
  match scraped_content with
  | [] => (s', None)
  | _ :: _ =>
      (s', Some ((categorized_content <- categorize_all (seq 0 (length scraped_content)) ;;
                  ProcessorLLM.batch_process use_llm categorized_content)
                   (store_from 0 scraped_content)))
  end.


(* ================================================================== *)
(** ** generator.py: the final polish of a draft *)
(* ================================================================== *)

Definition newline : char := 10%N.
(** ['\n\n'] *)
Definition paragraph_break : str := [newline; newline].

(** [s.rstrip()]. *)
Definition rstrip (s : str) : str := rev (lstrip (rev s)).

(** [s.split(sep)] for a non-empty [sep]: the separators are found from
    the left and do not overlap.  [skip] counts the characters of a
    separator still to be passed over, [cur] holds the current piece,
    last character first. *)
Fixpoint split_str_go (sep : str) (skip : nat) (cur : str) (s : str) : list str :=
  match s with
  | [] => [rev cur]
  | c :: s' =>
      match skip with
      | S k => split_str_go sep k cur s'
      | O =>
          if startswith sep s
          then rev cur :: split_str_go sep (length sep - 1) [] s'
          else split_str_go sep 0 (c :: cur) s'
      end
  end.

Definition split_str (sep s : str) : list str := split_str_go sep 0 [] s.

(** [self.max_chars] *)
Definition max_chars : nat := 3000.

(** The loop of [_polish_draft] over the paragraphs. *)
Fixpoint take_paragraphs (polished_draft : str) (paragraphs : list str) : str :=
  match paragraphs with
  | [] => polished_draft
  | para :: rest =>
      if max_chars - 50 <? length (polished_draft ++ paragraph_break ++ para)
      then polished_draft
      else take_paragraphs
             (polished_draft
                ++ (if is_empty polished_draft then [] else paragraph_break) ++ para)
             rest
  end.

(** [LinkedInDraftGenerator._polish_draft]. *)
Definition _polish_draft `{PyUnicode} (draft : str) : str :=
  let draft :=
    if max_chars <? length draft
    then rstrip (take_paragraphs [] (split_str paragraph_break draft)) ++ py "..."
    else rstrip draft in
  let draft := re_sub (at_least 3 (lit1 newline)) paragraph_break draft in
  strip draft.


(* ================================================================== *)
(** ** generator.py: the hashtags *)
(* ================================================================== *)

(** [str.capitalize()], which follows the interpreter's Unicode
    tables. *)
Class PyCase := {
  str_capitalize : str -> str
}.

(** [self.category_hashtags] *)
Definition category_hashtags : table :=
  [ (py "e-mobility",
     List.map py ["#ElectricVehicles"; "#EV"; "#SustainableMobility"; "#GreenEnergy";
                  "#Innovation"]%string);
    (py "manufacturing",
     List.map py ["#Manufacturing"; "#Industry40"; "#Automation"; "#SupplyChain";
                  "#Engineering"]%string);
    (py "politics-governance",
     List.map py ["#Policy"; "#Governance"; "#Politics"; "#Regulation";
                  "#PublicSector"]%string);
    (py "general",
     List.map py ["#Business"; "#Technology"; "#News"; "#Insights";
                  "#ProfessionalDevelopment"]%string) ].

(** [d.get(key)] on a table. *)
Fixpoint table_get (key : str) (d : table) : option (list str) :=
  match d with
  | [] => None
  | (k, v) :: d' => if str_eqb key k then Some v else table_get key d'
  end.

(** [self.category_hashtags.get(category,
    self.category_hashtags['general']).copy()] *)
Definition category_tags (category : str) : list str :=
  match table_get category category_hashtags with
  | Some tags => tags
  | None => default [] (table_get (py "general") category_hashtags)
  end.

(** ['#' + ''.join(word.capitalize() for word in kw.split() if
    len(word) > 2)] *)
Definition keyword_hashtag `{PyCase} (kw : str) : str :=
  py "#" ++ concat (List.map str_capitalize
                      (List.filter (fun word => 2 <? length word) (split kw))).

(** ['#' + ''.join(word.capitalize() for word in theme.split()[:2])] *)
Definition theme_hashtag `{PyCase} (theme : str) : str :=
  py "#" ++ concat (List.map str_capitalize (firstn 2 (split theme))).

(** The body of the loop over the keywords, and of the loop over the
    themes. *)
Definition add_keyword_hashtag `{PyCase} (hashtags : list str) (kw : str) : list str :=
  if 3 <? length kw then
    let hashtag := keyword_hashtag kw in
    if (negb (mem hashtag hashtags) && (4 <? length hashtag))%bool
    then hashtags ++ [hashtag]
    else hashtags
  else hashtags.

Definition add_theme_hashtag `{PyCase} (hashtags : list str) (theme : str) : list str :=
  let theme_words := firstn 2 (split theme) in
  if 1 <? length theme_words then
    let hashtag := theme_hashtag theme in
    if negb (mem hashtag hashtags) then hashtags ++ [hashtag] else hashtags
  else hashtags.

(** [LinkedInDraftGenerator._generate_curated_hashtags], for a category
    that is a string and keywords and themes that are lists of
    strings. *)
Definition _generate_curated_hashtags `{PyCase}
    (category : str) (keywords themes : list str) : list str :=
  let hashtags := category_tags category in
  let hashtags := fold_left add_keyword_hashtag (firstn 2 keywords) hashtags in
  let hashtags := fold_left add_theme_hashtag (firstn 1 themes) hashtags in
  firstn 8 hashtags.

(** A hashtag that a loop appends when it is new, or nothing. *)
Definition append_new (hashtags : list str) (candidate : option str) : list str :=
  match candidate with
  | Some hashtag => if mem hashtag hashtags then hashtags else hashtags ++ [hashtag]
  | None => hashtags
  end.


(* ================================================================== *)
(** ** processor.py, processor_llm.py: the aggregated insights *)
(* ================================================================== *)

Definition lift {A} (r : result A) : M A := fun h => (h, r).

(** What [list.extend(v)] appends: the elements of a list, the
    characters of a string; the other values are not iterable. *)
Definition iterate (v : pyval) : result (list str) :=
  match v with
  | VList l => Ok l
  | VStr s => Ok (List.map (fun c => [c]) s)
  | VFloat _ _ => Raise TypeError
  | VNone => Raise TypeError
  end.

(** [a == b] between values that can be keys; floats are compared by
    their value [mantissa * 2 ^ exponent]. *)
Definition float_eqb (m e m' e' : Z) : bool :=
  let k := Z.min e e' in
  (m * 2 ^ (e - k) =? m' * 2 ^ (e' - k))%Z.

Definition pyval_eqb (a b : pyval) : bool :=
  match a, b with
  | VStr s, VStr t => str_eqb s t
  | VFloat m e, VFloat m' e' => float_eqb m e m' e'
  | VNone, VNone => true
  | _, _ => false
  end.

(** [counter[k] += 1] on a [Counter] kept as the list of its items in
    the order in which the keys came in; a list is not hashable. *)
Fixpoint tally_add (k : pyval) (c : list (pyval * nat)) : list (pyval * nat) :=
  match c with
  | [] => [(k, 1)]
  | (y, n) :: c' => if pyval_eqb k y then (y, S n) :: c' else (y, n) :: tally_add k c'
  end.

Definition tally (k : pyval) (c : list (pyval * nat)) : result (list (pyval * nat)) :=
  match k with
  | VList _ => Raise TypeError
  | _ => Ok (tally_add k c)
  end.

(** The four accumulators of [extract_insights]. *)
Module Tallies.
Record t : Type := {
  all_keywords : list str;
  all_themes : list str;
  categories : list (pyval * nat);
  sentiments : list (pyval * nat)
}.
End Tallies.

(** The dict [extract_insights] returns. *)
Module Insights.
Record t : Type := {
  total_content : nat;
  top_keywords : list str;
  top_themes : list str;
  category_distribution : list (pyval * nat);
  sentiment_distribution : list (pyval * nat)
}.
End Insights.

(** The loop of [extract_insights]. *)
Fixpoint insights_loop (processed_content_list : list loc) (acc : Tallies.t) : M Tallies.t :=
  match processed_content_list with
  | [] => ret acc
  | content :: rest =>
      v <- get content "keywords" (VList []) ;;
      keywords <- lift (iterate v) ;;
      v <- get content "themes" (VList []) ;;
      themes_ <- lift (iterate v) ;;
      k <- get content "category" (VStr (py "unknown")) ;;
      categories_ <- lift (tally k (Tallies.categories acc)) ;;
      k <- get content "sentiment" (VStr (py "neutral")) ;;
      sentiments_ <- lift (tally k (Tallies.sentiments acc)) ;;
      insights_loop rest {| Tallies.all_keywords := Tallies.all_keywords acc ++ keywords;
                            Tallies.all_themes := Tallies.all_themes acc ++ themes_;
                            Tallies.categories := categories_;
                            Tallies.sentiments := sentiments_ |}
  end.

(** [ContentProcessor.extract_insights], the same text in both
    files. *)
Definition extract_insights (processed_content_list : list loc) : M Insights.t :=
  acc <- insights_loop processed_content_list
           {| Tallies.all_keywords := []; Tallies.all_themes := []; Tallies.categories := []; Tallies.sentiments := [] |} ;;
  ret {| Insights.total_content := length processed_content_list;
         Insights.top_keywords := List.map fst (most_common 20 (Counter (Tallies.all_keywords acc)));
         Insights.top_themes := List.map fst (most_common 10 (Counter (Tallies.all_themes acc)));
         Insights.category_distribution := Tallies.categories acc;
         Insights.sentiment_distribution := Tallies.sentiments acc |}.

(** What a record contributes to the aggregation: the strings of a
    field and the key under which it is counted. *)
Definition strings_in (key : string) (h : heap) (content : loc) : list str :=
  match iterate (default (VList []) (deref content h !! key)) with
  | Ok l => l
  | Raise _ => []
  end.

(** The records of [l] whose field [key] ([dflt] when absent) is the
    string [s], and the count stored for [s]. *)
Definition records_with (key : string) (dflt : pyval) (s : str) (h : heap)
    (l : list loc) : nat :=
  length (List.filter
            (fun content => pyval_eqb (VStr s) (default dflt (deref content h !! key))) l).

Fixpoint tally_count (k : pyval) (c : list (pyval * nat)) : nat :=
  match c with
  | [] => 0
  | (y, n) :: c' => if pyval_eqb k y then n else tally_count k c'
  end.

Definition iterable (v : pyval) : bool :=
  match v with VList _ | VStr _ => true | _ => false end.
Definition hashable (v : pyval) : bool :=
  match v with VList _ => false | _ => true end.

(** A record [extract_insights] can take in. *)
Definition aggregable (h : heap) (content : loc) : bool :=
  (iterable (default (VList []) (deref content h !! "keywords"%string))
   && iterable (default (VList []) (deref content h !! "themes"%string))
   && hashable (default (VStr (py "unknown")) (deref content h !! "category"%string))
   && hashable (default (VStr (py "neutral")) (deref content h !! "sentiment"%string)))%bool.


(* ================================================================== *)
(** ** queue_manager.py *)
(* ================================================================== *)

(** The values of a draft: what [json] can write. *)
#[warnings="-register-all"]
Inductive jval : Type :=
| JStr (s : str)
| JInt (n : Z)
| JFloat (mantissa exponent : Z)
| JList (l : list jval)
| JNone.

(** How a [save_queue] goes: the file is written, [open] fails and
    leaves the file as it was, or the writing fails and leaves a file
    that cannot be read. *)
Inductive write_outcome : Type := Written | OpenFailed | DumpFailed.

Inductive file_state : Type :=
| Absent
| Saved (drafts : list (gmap string jval))
| Broken.

(** The clock and the disk: the text of [datetime.now().isoformat()] at
    the [n]-th reading, and the outcome of the [n]-th writing. *)
Class Clock := { isoformat_now : nat -> str }.
Class Disk := { write_queue_file : nat -> write_outcome }.

Module QueueManager.

(** The draft objects, the deque of the manager (references to draft
    objects), the queue file, and the readings of the clock and the
    writings so far. *)
Record state : Type := {
  store : gmap nat (gmap string jval);
  queue : list nat;
  file : file_state;
  ticks : nat;
  writes : nat
}.

Definition Q (A : Type) : Type := state -> state * result A.

Definition draft_of (draft : nat) (st : state) : gmap string jval :=
  default ∅ (store st !! draft).

(** [draft[key] = v] *)
Definition set_field (draft : nat) (key : string) (v : jval) (st : state) : state :=
  {| store := <[draft := <[key := v]> (draft_of draft st)]> (store st);
     queue := queue st; file := file st; ticks := ticks st; writes := writes st |}.

(** [len(v)] *)
Definition len (v : jval) : result nat :=
  match v with
  | JStr s => Ok (length s)
  | JList l => Ok (length l)
  | _ => Raise TypeError
  end.

(** [save_queue]: the exceptions of the writing are caught. *)
Definition save_queue `{Disk} (st : state) : state :=
  {| store := store st;
     queue := queue st;
     file := match write_queue_file (writes st) with
             | Written => Saved (List.map (fun draft => draft_of draft st) (queue st))
             | OpenFailed => file st
             | DumpFailed => Broken
             end;
     ticks := ticks st;
     writes := S (writes st) |}.

(** [add_draft] *)
Definition add_draft `{Clock} `{Disk} (draft_dict : nat) : Q unit :=
  fun st =>
    let st := set_field draft_dict "added_at" (JStr (isoformat_now (ticks st)))
                {| store := store st; queue := queue st; file := file st;
                   ticks := S (ticks st); writes := writes st |} in
    let st := set_field draft_dict "status" (JStr (py "pending")) st in
    let st := {| store := store st; queue := queue st ++ [draft_dict]; file := file st;
                 ticks := ticks st; writes := writes st |} in
    let st := save_queue st in
    match draft_of draft_dict st !! "draft"%string with
    | None => (st, Raise (KeyError "draft"))
    | Some v =>
        match len v with
        | Ok _ => (st, Ok tt)
        | Raise e => (st, Raise e)
        end
    end.

(** [get_next_draft] *)
Definition get_next_draft `{Disk} : Q (option nat) :=
  fun st =>
    match queue st with
    | draft :: rest =>
        let st := {| store := store st; queue := rest; file := file st;
                     ticks := ticks st; writes := writes st |} in
        let st := set_field draft "status" (JStr (py "retrieved")) st in
        (save_queue st, Ok (Some draft))
    | [] => (st, Ok None)
    end.

(** [peek_next_draft], [queue_size] *)
Definition peek_next_draft (st : state) : option nat := hd_error (queue st).
Definition queue_size (st : state) : nat := length (queue st).

(** [clear_queue] *)
Definition clear_queue `{Disk} (st : state) : state :=
  save_queue {| store := store st; queue := []; file := file st;
                ticks := ticks st; writes := writes st |}.

(** [batch_add_drafts] *)
Fixpoint batch_add_drafts `{Clock} `{Disk} (drafts_list : list nat) : Q unit :=
  fun st =>
    match drafts_list with
    | [] => (st, Ok tt)
    | draft :: rest =>
        match add_draft draft st with
        | (st, Ok _) => batch_add_drafts rest st
        | (st, Raise e) => (st, Raise e)
        end
    end.

(** [l[:limit]] *)
Definition slice_to {A} (limit : Z) (l : list A) : list A :=
  if (limit <? 0)%Z then firstn (length l - Z.to_nat (- limit)) l
  else firstn (Z.to_nat limit) l.

(** A summary of [list_queue]. *)
Record summary : Type := {
  position : nat;
  category : jval;
  title_preview : str;
  added_at : jval;
  status : jval
}.

(** [draft.get('draft', '')[:50] + '...'] *)
Definition preview (v : jval) : result str :=
  match v with
  | JStr s => Ok (firstn 50 s ++ py "...")
  | _ => Raise TypeError
  end.

Fixpoint summaries_from (i : nat) (drafts : list (gmap string jval)) : result (list summary) :=
  match drafts with
  | [] => Ok []
  | draft :: rest =>
      match preview (default (JStr []) (draft !! "draft"%string)) with
      | Raise e => Raise e
      | Ok title_preview =>
          match summaries_from (S i) rest with
          | Raise e => Raise e
          | Ok summaries =>
              Ok ({| position := i + 1;
                     category := default (JStr (py "unknown")) (draft !! "category"%string);
                     title_preview := title_preview;
                     added_at := default (JStr (py "unknown")) (draft !! "added_at"%string);
                     status := default (JStr (py "unknown")) (draft !! "status"%string) |}
                    :: summaries)
          end
      end
  end.

(** [list_queue] *)
Definition list_queue (limit : Z) (st : state) : result (list summary) :=
  summaries_from 0 (List.map (fun draft => draft_of draft st) (slice_to limit (queue st))).

(** [n] calls of [get_next_draft], with what they returned. *)
Fixpoint get_drafts `{Disk} (n : nat) (st : state) : state * list (option nat) :=
  match n with
  | 0 => (st, [])
  | S n =>
      match get_next_draft st with
      | (st, Ok r) => let (st, rs) := get_drafts n st in (st, r :: rs)
      | (st, Raise _) => (st, [])
      end
  end.

End QueueManager.

(** A clock and a disk for examples. *)
Definition demo_clock : Clock := {| isoformat_now := fun _ => py "2025-01-01T00:00:00" |}.
Definition good_disk : Disk := {| write_queue_file := fun _ => Written |}.


(** A [draft] field that [len] accepts. *)
Definition sized (v : option jval) : bool :=
  match v with
  | Some (JStr _) | Some (JList _) => true
  | _ => false
  end.


(* ================================================================== *)
(** ** generator.py: the summary paragraph *)
(* ================================================================== *)

(** [re.split(r, s)] for a pattern without groups that matches no empty
    string: the pieces between the matches.  [skip] counts the
    characters of a match still to be passed over, [cur] holds the
    current piece, last character first. *)
Fixpoint re_split_go (w : char -> bool) (r : regex)
    (skip : nat) (prev : option char) (cur : str) (s : str) : list str :=
  match s with
  | [] => [rev cur]
  | c :: s' =>
      match skip with
      | S k => re_split_go w r k (Some c) cur s'
      | O =>
          match match_at w r prev s with
          | Some (S n) => rev cur :: re_split_go w r n (Some c) [] s'
          | _ => re_split_go w r 0 (Some c) (c :: cur) s'
          end
      end
  end.

Definition re_split `{PyUnicode} (r : regex) (s : str) : list str :=
  re_split_go re_word r 0 None [] s.

(** [s.rstrip('.')] *)
Fixpoint lstrip_dots (s : str) : str :=
  match s with
  | c :: s' => if char_eqb c (chr ".") then lstrip_dots s' else s
  | [] => []
  end.
Definition rstrip_dots (s : str) : str := rev (lstrip_dots (rev s)).

(** [any(kw.lower() in sentence_lower for kw in l)] *)
Definition any_in `{PyUnicode} (l : list str) (sentence_lower : str) : bool :=
  existsb (fun kw => contains (str_lower kw) sentence_lower) l.

Definition summary_opening : str := py "Delving into the details, ".
Definition summary_closing : str :=
  py ". This development represents a significant shift in how we approach these challenges.".
Definition summary_default : str :=
  py "The content explores critical developments that are reshaping our understanding of current industry dynamics.".

(** [LinkedInDraftGenerator._create_detailed_summary], for a content
    that is a string and keywords and themes that are lists of
    strings. *)
Definition _create_detailed_summary `{PyUnicode}
    (content : str) (keywords themes : list str) : str :=
  let sentences := re_split (plus (Cls (one_of ".!?"))) (strip content) in
  let key_sentences :=
    List.map strip
      (List.filter (fun sentence =>
                      let sentence_lower := str_lower sentence in
                      (any_in (firstn 3 keywords) sentence_lower
                       || any_in (firstn 2 themes) sentence_lower)%bool)
                   (firstn 5 sentences)) in
  let key_sentences :=
    match key_sentences, sentences with
    | [], first :: _ => [strip first]
    | _, _ => key_sentences
    end in
  match key_sentences with
  | _ :: _ =>
      let summary_text := join (py " ") (firstn 2 key_sentences) in
      summary_opening ++ rstrip_dots (str_lower summary_text) ++ summary_closing
  | [] => summary_default
  end.


(** The text the specification has the Sector Scorer score: the
    lower-cased [title + " " + content]. *)
Definition spec_full_text `{PyUnicode} (content title : str) : str :=
  str_lower (title ++ py " " ++ content).

(** The sentences the Coherence Filter goes through, and whether NLTK
    raises on one of them: its length is in range and the tokenizer
    raises, or there are tokens and the tagger raises. *)
Definition coherence_sentences `{NLTK} (content : str) : list str :=
  List.map strip (match sent_tokenize content with
                  | Some sentences => sentences
                  | None => split_on (chr ".") content
                  end).

Definition nltk_raises `{PyUnicode} `{NLTK} (sentence : str) : bool :=
  (negb (length sentence <? 10) && negb (500 <? length sentence) &&
   match word_tokenize_call (str_lower sentence) with
   | None => true
   | Some [] => false
   | Some (word :: words) =>
       match pos_tag (word :: words) with
       | None => true
       | Some _ => false
       end
   end)%bool.

(** The title [scrape_url] stores for a page. *)
Definition page_title (page : soup) : str :=
  match soup_title page with
  | Some title => strip title
  | None => py "No title"
  end.

(** The text a run of processor_llm.py's [process_content] has worked
    on, read off the record it leaves: the content, or with the cleaner
    on what the cleaner stored as [cleaned_content]. *)
Definition processed_text (use_llm : bool) (h : heap) (content_dict : loc) : pyval :=
  let content := default (VStr []) (deref content_dict h !! "content"%string) in
  if use_llm then default content (deref content_dict h !! "cleaned_content"%string)
  else content.

(* ================================================================== *)
(** * Properties *)
(* ================================================================== *)

(** ** Strings *)

Lemma char_eqb_eq (a b : char) : char_eqb a b = true <-> a = b.
Proof. unfold char_eqb. apply N.eqb_eq. Qed.

Lemma str_eqb_eq (a b : str) : str_eqb a b = true <-> a = b.
Proof.
  revert b. induction a as [|x a IH]; intros [|y b]; simpl; split; try congruence; try easy.
  - intros Hab. apply andb_prop in Hab as [Hx Ha].
    apply char_eqb_eq in Hx. apply IH in Ha. congruence.
  - intros Hab. injection Hab as -> ->. apply andb_true_intro. split.
    + now apply char_eqb_eq.
    + now apply IH.
Qed.

Lemma str_eqb_refl (a : str) : str_eqb a a = true.
Proof. now apply str_eqb_eq. Qed.

Lemma str_eqb_neq (a b : str) : str_eqb a b = false <-> a <> b.
Proof.
  split.
  - intros Hf Hab. apply str_eqb_eq in Hab. congruence.
  - intros Hne. destruct (str_eqb a b) eqn:E; [|reflexivity].
    apply str_eqb_eq in E. contradiction.
Qed.

Lemma mem_In (x : str) (l : list str) : mem x l = true <-> In x l.
Proof.
  unfold mem. rewrite existsb_exists. split.
  - intros (y & Hy & Hxy). apply str_eqb_eq in Hxy. now subst.
  - intros Hx. exists x. split; [assumption | apply str_eqb_refl].
Qed.

(** ** The definitions on the scenarios of the specification *)

Example split_collapses_whitespace :
  split (py "  two   words ") = [py "two"; py "words"].
Proof. reflexivity. Qed.

Example normalizer_scenario :
  @_basic_text_cleaning ascii_unicode (py "He   said.... wow!!!  Really??")
  = py "He said... wow! Really?".
Proof. vm_compute. reflexivity. Qed.

Example noise_filter_scenario :
  @_remove_irrelevant_content ascii_unicode
    (py "Electric vehicle battery prices are falling. Contact us at info@x.com. Call 555-123-4567.")
  = py "Electric vehicle battery prices are falling. at . Call .".
Proof. vm_compute. reflexivity. Qed.

Example scorer_unique_top :
  choose_category (@sector_scores ascii_unicode
                     (py "the electric vehicle has a new battery" ++ py " " ++ []))
  = Ok (py "e-mobility").
Proof. vm_compute. reflexivity. Qed.

Example scorer_tie_at_one :
  choose_category (@sector_scores ascii_unicode
                     (py "a battery for every startup" ++ py " " ++ []))
  = Ok (py "general").
Proof. vm_compute. reflexivity. Qed.

Example most_common_keeps_first_seen :
  most_common 2 (Counter (List.map py ["b"; "a"; "b"; "a"; "c"]%string))
  = [(py "b", 2); (py "a", 2)].
Proof. vm_compute. reflexivity. Qed.

(** ** The Sector Scorer *)

Lemma max_value_upper (scores : list (str * nat)) (kv : str * nat) :
  In kv scores -> snd kv <= max_value scores.
Proof.
  induction scores as [|x scores IH]; simpl; [easy|].
  intros [-> | Hin]; [lia|]. specialize (IH Hin). lia.
Qed.

Lemma max_value_attained (scores : list (str * nat)) :
  0 < max_value scores -> exists kv, In kv scores /\ snd kv = max_value scores.
Proof.
  induction scores as [|x scores IH]; simpl; [lia|].
  intros Hpos. destruct (Nat.max_spec (snd x) (max_value scores)) as [[Hlt Hm] | [Hle Hm]].
  - rewrite Hm in *. destruct (IH Hpos) as (kv & Hin & Hkv). eauto.
  - rewrite Hm. eauto.
Qed.

Lemma max_value_zero_top (scores : list (str * nat)) :
  max_value scores = 0 -> top_of scores = List.map fst scores.
Proof.
  intros Hz. unfold top_of. f_equal.
  apply List.forallb_filter_id. apply forallb_forall. intros kv Hin.
  pose proof (max_value_upper _ _ Hin). apply Nat.eqb_eq. lia.
Qed.

(** The head of a filtered list is the first element that passes. *)
Lemma filter_head {A} (f : A -> bool) (l : list A) (x : A) (rest : list A) :
  List.filter f l = x :: rest ->
  exists pre post, l = pre ++ x :: post /\ f x = true /\
                   Forall (fun y => f y = false) pre.
Proof.
  induction l as [|a l IH]; simpl; [discriminate|].
  destruct (f a) eqn:Ea.
  - intros [= -> <-]. exists [], l. repeat split; auto.
  - intros Hf. destruct (IH Hf) as (pre & post & -> & Hx & Hpre).
    exists (a :: pre), post. repeat split; auto.
Qed.

Lemma top_of_nonempty (scores : list (str * nat)) :
  0 < max_value scores -> top_of scores <> [].
Proof.
  intros Hpos Htop. destruct (max_value_attained _ Hpos) as (kv & Hin & Hkv).
  assert (Hf : In kv (List.filter (fun kv => snd kv =? max_value scores) scores)).
  { apply List.filter_In. split; [assumption | now apply Nat.eqb_eq]. }
  unfold top_of in Htop. apply (List.in_map fst) in Hf. rewrite Htop in Hf. destruct Hf.
Qed.

Lemma top_of_head (scores : list (str * nat)) (first : str) (rest : list str) :
  top_of scores = first :: rest ->
  exists pre post,
    scores = pre ++ (first, max_value scores) :: post /\
    Forall (fun kv => snd kv < max_value scores) pre.
Proof.
  unfold top_of. intros Htop.
  destruct (List.filter (fun kv => snd kv =? max_value scores) scores)
    as [|[k v] tl] eqn:Ef; [discriminate|].
  simpl in Htop. injection Htop as -> _.
  destruct (filter_head _ _ _ _ Ef) as (pre & post & Hsc & Hx & Hpre).
  simpl in Hx. apply Nat.eqb_eq in Hx. subst v.
  exists pre, post. split; [assumption|].
  apply List.Forall_forall. intros kv Hin.
  assert (Hne : (snd kv =? max_value scores) = false).
  { eapply (proj1 (List.Forall_forall _ _) Hpre). exact Hin. }
  apply Nat.eqb_neq in Hne.
  assert (Hle : snd kv <= max_value scores).
  { apply max_value_upper. rewrite Hsc. apply List.in_or_app. now left. }
  lia.
Qed.

(** The four cases of the choice, on any table of scores. *)
Lemma choose_category_cases (scores : list (str * nat)) :
  exists category,
    choose_category scores = Ok category /\
    (max_value scores = 0 -> category = py "general") /\
    (0 < max_value scores -> forall s, top_of scores = [s] -> category = s) /\
    (1 < length (top_of scores) -> 2 <= max_value scores ->
     exists pre post,
       scores = pre ++ (category, max_value scores) :: post /\
       Forall (fun kv => snd kv < max_value scores) pre) /\
    (1 < length (top_of scores) -> max_value scores = 1 -> category = py "general").
Proof.
  unfold choose_category.
  destruct (0 <? max_value scores) eqn:Epos.
  - apply Nat.ltb_lt in Epos.
    pose proof (top_of_nonempty _ Epos) as Hne.
    destruct (top_of scores) as [|first rest] eqn:Etop; [contradiction|].
    destruct ((length (first :: rest) =? 1) || (2 <=? max_value scores))%bool eqn:Eclear.
    + exists first. split; [reflexivity|]. refine (conj _ (conj _ (conj _ _))).
      * lia.
      * intros _ s Hs. injection Hs as Hs _. exact Hs.
      * intros _ _. eapply top_of_head. exact Etop.
      * intros Hlen Hone. apply orb_prop in Eclear as [E1 | E2].
        -- apply Nat.eqb_eq in E1. lia.
        -- apply Nat.leb_le in E2. lia.
    + apply orb_false_elim in Eclear as [E1 E2].
      apply Nat.eqb_neq in E1. apply Nat.leb_gt in E2.
      exists (py "general"). split; [reflexivity|]. refine (conj _ (conj _ (conj _ _))).
      * reflexivity.
      * intros _ s Hs. injection Hs as _ Hs. subst rest. simpl in E1. lia.
      * intros _ Hge. lia.
      * reflexivity.
  - apply Nat.ltb_ge in Epos.
    exists (py "general"). split; [reflexivity|]. refine (conj _ (conj _ (conj _ _))).
    + reflexivity.
    + lia.
    + intros _ Hge. lia.
    + reflexivity.
Qed.

(** [C1] For a record whose content and title are strings, the Sector
    Scorer stores a category chosen from the sector scores of the
    lower-cased content followed by a space and the lower-cased title,
    in this order (word-boundary-delimited counts of the keyword
    phrases), as follows: when the highest score is 0 it is
    [general]; when exactly one sector has the highest score it is that
    sector; when several sectors share a highest score of 2 or more it is
    the first of them in the order the table declares them; when several
    share a highest score of exactly 1 it is [general]. *)
Theorem C1_categorize_content_decision `{PyUnicode}
    (h : heap) (content_dict : loc) (content title : str) :
  deref content_dict h !! "content"%string = Some (VStr content) ->
  default (VStr []) (deref content_dict h !! "title"%string) = VStr title ->
  let scores := sector_scores (str_lower content ++ py " " ++ str_lower title) in
  exists category,
    categorize_content content_dict h =
      (<[content_dict := <["category"%string := VStr category]> (deref content_dict h)]> h,
       Ok content_dict) /\
    (max_value scores = 0 -> category = py "general") /\
    (forall s, top_of scores = [s] -> category = s) /\
    (1 < length (top_of scores) -> 2 <= max_value scores ->
     exists pre post,
       scores = pre ++ (category, max_value scores) :: post /\
       Forall (fun kv => snd kv < max_value scores) pre) /\
    (1 < length (top_of scores) -> max_value scores = 1 -> category = py "general").
Proof.
  intros Hcontent Htitle scores.
  destruct (choose_category_cases scores) as (category & Hch & Hzero & Hone & Htie & Hweak).
  exists category. refine (conj _ (conj Hzero (conj _ (conj Htie Hweak)))).
  - unfold categorize_content, bind, getitem, get, as_str, setitem, update, ret.
    rewrite Hcontent. cbv beta iota zeta. rewrite Htitle. cbv beta iota zeta.
    subst scores. rewrite Hch. reflexivity.
  - intros s Htop. destruct (Nat.eq_0_gt_0_cases (max_value scores)) as [Hz | Hpos].
    + rewrite (max_value_zero_top _ Hz) in Htop.
      apply (f_equal (@length str)) in Htop. discriminate Htop.
    + now apply Hone.
Qed.

Lemma C1_categorize_content_decision_witness :
  let h := record [("content", VStr (py "An electric vehicle and a battery. The EV policy. Policy law"))]%string in
  let scores := @sector_scores ascii_unicode
                  (py "an electric vehicle and a battery. the ev policy. policy law" ++ py " " ++ []) in
  (max_value scores = 3 /\ length (top_of scores) = 2) /\
  exists category,
    @categorize_content ascii_unicode 0 h =
      (<[0 := <["category"%string := VStr category]> (deref 0 h)]> h, Ok 0) /\
    (max_value scores = 0 -> category = py "general") /\
    (forall s, top_of scores = [s] -> category = s) /\
    (1 < length (top_of scores) -> 2 <= max_value scores ->
     exists pre post,
       scores = pre ++ (category, max_value scores) :: post /\
       Forall (fun kv => snd kv < max_value scores) pre) /\
    (1 < length (top_of scores) -> max_value scores = 1 -> category = py "general").
Proof.
  split; [split; vm_compute; reflexivity|].
  apply (@C1_categorize_content_decision ascii_unicode
           (record [("content", VStr (py "An electric vehicle and a battery. The EV policy. Policy law"))]%string)
           0 (py "An electric vehicle and a battery. The EV policy. Policy law") []);
    vm_compute; reflexivity.
Defined.

(** The order of title and content matters where a keyword phrase
    spans the two.  With content [chain] and title [supply] the code
    scores [chain supply], finds no phrase and stores [general]; the
    text [title + " " + content] of the specification is [supply chain],
    where [manufacturing] alone has the highest score. *)
Lemma C1_counterexample :
  let h := record [("content", VStr (py "chain")); ("title", VStr (py "supply"))]%string in
  let out := @categorize_content ascii_unicode 0 h in
  let spec_scores := @sector_scores ascii_unicode
                       (@spec_full_text ascii_unicode (py "chain") (py "supply")) in
  snd out = Ok 0 /\
  deref 0 (fst out) !! "category"%string = Some (VStr (py "general")) /\
  top_of spec_scores = [py "manufacturing"] /\
  choose_category spec_scores = Ok (py "manufacturing").
Proof. vm_compute. repeat split. Qed.

(** ** The Coherence Filter *)

Lemma tuples_have_no_pos_ (tags : list (str * str)) :
  List.filter (fun word => hasattr word "pos_") (tagged tags) = [].
Proof.
  unfold tagged. induction tags as [|wt l IH]; simpl; [reflexivity | exact IH].
Qed.

(** The acceptance test raises where NLTK raises, and returns [False]
    everywhere else. *)
Lemma _is_grammatical_sentence_false `{PyUnicode} `{NLTK} (sentence : str) :
  _is_grammatical_sentence sentence = (if nltk_raises sentence then None else Some false).
Proof.
  unfold _is_grammatical_sentence, nltk_raises.
  destruct (length sentence <? 10); [reflexivity|].
  destruct (500 <? length sentence); [reflexivity|].
  cbn [negb andb].
  destruct (word_tokenize_call (str_lower sentence)) as [[|w ws]|]; try reflexivity.
  destruct (pos_tag (w :: ws)) as [tags|]; [|reflexivity].
  cbv zeta. rewrite tuples_have_no_pos_. reflexivity.
Qed.

Lemma grammatical_sentences_run `{PyUnicode} `{NLTK} (sentences : list str) :
  grammatical_sentences sentences =
  (if existsb nltk_raises (List.map strip sentences) then None else Some []).
Proof.
  induction sentences as [|sentence rest IH]; [reflexivity|].
  cbn [grammatical_sentences List.map existsb]. cbv zeta.
  rewrite _is_grammatical_sentence_false.
  destruct (nltk_raises (strip sentence)); [reflexivity|].
  rewrite IH. cbn [orb]. now destruct (existsb nltk_raises (List.map strip rest)).
Qed.

Lemma filter_none {A} (f : A -> bool) (l : list A) :
  (forall x, f x = false) -> List.filter f l = [].
Proof.
  intros Hf. induction l as [|a l IH]; simpl; [reflexivity|]. now rewrite Hf.
Qed.

(** [C2] The acceptance test is meant to accept a sentence of 10 to 500
    characters whose tagged tokens include a noun and a verb.  On the
    sentence below the length is in range, the tokenizer and the tagger
    return, the tagger marks two nouns and a verb, the verb test
    succeeds, and the test returns [False] all the same: the noun test
    asks the [(word, tag)] tuples for an attribute they do not have. *)
Theorem C2_sentence_with_noun_and_verb_rejected :
  let sentence := py "The cat sat on the mat." in
  let words := @word_tokenize demo_nltk (@str_lower ascii_unicode sentence) in
  10 <= length sentence <= 500 /\
  @word_tokenize_call demo_nltk (@str_lower ascii_unicode sentence) = Some words /\
  (exists tags,
     @pos_tag demo_nltk words = Some tags /\
     List.map snd tags = List.map py ["DT"; "NN"; "VBD"; "IN"; "DT"; "NN"; "."]%string /\
     existsb (fun wt => startswith (py "VB") (snd wt)) tags = true) /\
  @_is_grammatical_sentence ascii_unicode demo_nltk sentence = Some false.
Proof.
  cbv zeta. refine (conj _ (conj _ (conj _ _))).
  - vm_compute. split; lia.
  - vm_compute. reflexivity.
  - eexists. split; [vm_compute; reflexivity|]. split; vm_compute; reflexivity.
  - vm_compute. reflexivity.
Qed.

(** [C3] The Coherence Filter never returns any text.  No sentence
    passes the acceptance test, because the noun test only looks at
    items that have an attribute [pos_], and the tuples of
    [nltk.pos_tag] have none: the test returns [False] or raises.  So
    the filter returns the empty string whenever it returns; and it
    raises exactly when the text is not empty and NLTK raises on one of
    its sentences, one of 10 to 500 characters that the tokenizer
    raises on or that has tokens the tagger raises on. *)
Theorem C3_coherence_filter_returns_no_text `{PyUnicode} `{NLTK} (content : str) :
  (forall out, _grammar_and_coherence_filter content = Some out -> out = []) /\
  (_grammar_and_coherence_filter content = None <->
   content <> [] /\
   exists sentence, In sentence (coherence_sentences content) /\ nltk_raises sentence = true) /\
  (forall sentence,
     _is_grammatical_sentence sentence
     = (if nltk_raises sentence then None else Some false)) /\
  (forall tags, List.filter (fun word => hasattr word "pos_") (tagged tags) = []).
Proof.
  refine (conj _ (conj _ (conj _is_grammatical_sentence_false tuples_have_no_pos_))).
  - unfold _grammar_and_coherence_filter. intros out.
    destruct (is_empty content); [now intros [= <-]|]. cbv zeta.
    rewrite grammatical_sentences_run.
    destruct (existsb nltk_raises _); [discriminate | now intros [= <-]].
  - unfold _grammar_and_coherence_filter, coherence_sentences.
    destruct content as [|c content]; cbn [is_empty].
    + split; [discriminate | now intros [Hne _]].
    + cbv zeta. rewrite grammatical_sentences_run.
      destruct (existsb nltk_raises _) eqn:E.
      * split; [|reflexivity]. intros _. split; [discriminate|].
        apply List.existsb_exists in E. exact E.
      * split; [discriminate|]. intros [_ Hex].
        apply List.existsb_exists in Hex. congruence.
Qed.

(** With the resources the program installs for itself the tagger
    raises, and so does the filter, on a text with one sentence of
    ordinary length. *)
Lemma C3_counterexample :
  @_grammar_and_coherence_filter ascii_unicode untagged_nltk (py "The cat sat on the mat.")
  = None /\
  @_grammar_and_coherence_filter ascii_unicode untagged_nltk (py "The cat sat on the mat.")
  <> Some [].
Proof. split; [vm_compute; reflexivity | vm_compute; discriminate]. Qed.

(** With the Coherence Filter returning nothing, so does the chain: it
    returns the empty string or raises with the filter. *)
Lemma _clean_and_filter_content_run `{PyUnicode} `{NLTK} (content title : str) :
  _clean_and_filter_content content title =
  (if is_empty content then Some []
   else match _grammar_and_coherence_filter
                (_remove_irrelevant_content (_basic_text_cleaning content)) with
        | Some _ => Some []
        | None => None
        end).
Proof.
  unfold _clean_and_filter_content. destruct (is_empty content); [reflexivity|].
  cbv zeta. unfold _grammar_and_coherence_filter.
  destruct (is_empty (_remove_irrelevant_content (_basic_text_cleaning content)));
    [reflexivity|].
  cbv zeta. rewrite grammatical_sentences_run.
  destruct (existsb nltk_raises _); reflexivity.
Qed.

Lemma _clean_and_filter_content_empty `{PyUnicode} `{NLTK} (content title out : str) :
  _clean_and_filter_content content title = Some out -> out = [].
Proof.
  rewrite _clean_and_filter_content_run.
  destruct (is_empty content); [now intros [= <-]|].
  destruct (_grammar_and_coherence_filter _); [now intros [= <-] | discriminate].
Qed.

(** ** The labels written into [category] *)

Lemma choose_category_label (scores : list (str * nat)) (category : str) :
  choose_category scores = Ok category ->
  In category (List.map fst scores ++ [py "general"]).
Proof.
  unfold choose_category. intros Hch. apply List.in_or_app.
  destruct (0 <? max_value scores); [|right; left; congruence].
  destruct ((length (top_of scores) =? 1) || (2 <=? max_value scores))%bool;
    [|right; left; congruence].
  destruct (top_of scores) as [|first rest] eqn:Etop; [discriminate|].
  injection Hch as <-. left.
  assert (Hin : In first (top_of scores)) by (rewrite Etop; now left).
  unfold top_of in Hin. apply List.in_map_iff in Hin as (kv & <- & Hkv).
  apply List.filter_In in Hkv as [Hkv _]. now apply List.in_map.
Qed.

Lemma sector_scores_keys `{PyUnicode} (full_text : str) :
  List.map fst (sector_scores full_text) = List.map fst sectors.
Proof. reflexivity. Qed.

(** What a run of the Sector Scorer that returns has done. *)
Lemma categorize_content_ok `{PyUnicode} (h h' : heap) (content_dict r : loc) :
  categorize_content content_dict h = (h', Ok r) ->
  exists content title category,
    deref content_dict h !! "content"%string = Some (VStr content) /\
    default (VStr []) (deref content_dict h !! "title"%string) = VStr title /\
    choose_category (sector_scores (str_lower content ++ py " " ++ str_lower title))
      = Ok category /\
    h' = <[content_dict := <["category"%string := VStr category]> (deref content_dict h)]> h /\
    r = content_dict.
Proof.
  unfold categorize_content, bind, getitem, get, as_str, setitem, update, ret, raise.
  destruct (deref content_dict h !! "content"%string) as [[content| | |]|] eqn:Ec;
    try discriminate.
  cbv beta iota zeta.
  destruct (default (VStr []) (deref content_dict h !! "title"%string))
    as [title| | |] eqn:Et; try discriminate.
  cbv beta iota zeta.
  destruct (choose_category _) as [category|e] eqn:Ech; [|discriminate].
  intros [= <- <-]. exists content, title, category. auto.
Qed.

Lemma deref_insert (h : heap) (l : loc) (d : dict) : deref l (<[l := d]> h) = d.
Proof. unfold deref. now rewrite lookup_insert_eq. Qed.

Lemma deref_insert_ne (h : heap) (l l' : loc) (d : dict) :
  l <> l' -> deref l' (<[l := d]> h) = deref l' h.
Proof. intros Hne. unfold deref. now rewrite lookup_insert_ne. Qed.

Lemma enhance_category_label `{PyUnicode} (base : pyval) (keywords : list str) :
  Processor._enhance_category base keywords = base \/
  exists c, Processor._enhance_category base keywords = VStr c /\ In c refiner_labels.
Proof.
  unfold Processor._enhance_category. cbv zeta.
  repeat match goal with
         | |- context [if ?b then _ else _] => destruct b
         end;
    try (left; reflexivity);
    right; eexists; (split; [reflexivity|]); unfold refiner_labels; simpl; auto.
Qed.

Lemma enhance_category_llm_label `{PyUnicode} (base : pyval) (keywords : list str) :
  ProcessorLLM._enhance_category base keywords = base \/
  exists c, ProcessorLLM._enhance_category base keywords = VStr c /\ In c refiner_llm_labels.
Proof.
  unfold ProcessorLLM._enhance_category. cbv zeta.
  repeat match goal with
         | |- context [if ?b then _ else _] => destruct b
         end;
    try (left; reflexivity);
    right; eexists; (split; [reflexivity|]); unfold refiner_llm_labels, refiner_labels;
    simpl; auto 10.
Qed.

(** [C4] The category a stage stores is one of the labels the program
    uses: the Sector Scorer stores one of the five keys of its table or
    [general]; the Category Refiner returns the base category it was given
    or one of its own labels (three in processor.py, five in
    processor_llm.py).  So from a base category among the seven labels
    [e-mobility], [manufacturing], [politics-governance],
    [artificial intelligence & machine learning], [startup & innovation],
    [ai & ml] and [general], the refined category is among them too. *)
Theorem C4_category_among_code_labels `{PyUnicode} :
  (forall h h' content_dict r,
     categorize_content content_dict h = (h', Ok r) ->
     exists c, deref content_dict h' !! "category"%string = Some (VStr c) /\
               In c scorer_labels) /\
  (forall base keywords,
     Processor._enhance_category base keywords = base \/
     exists c, Processor._enhance_category base keywords = VStr c /\ In c refiner_labels) /\
  (forall base keywords,
     ProcessorLLM._enhance_category base keywords = base \/
     exists c, ProcessorLLM._enhance_category base keywords = VStr c /\
               In c refiner_llm_labels) /\
  (forall b keywords,
     In b code_labels ->
     exists c c', Processor._enhance_category (VStr b) keywords = VStr c /\
                  ProcessorLLM._enhance_category (VStr b) keywords = VStr c' /\
                  In c code_labels /\ In c' code_labels).
Proof.
  refine (conj _ (conj enhance_category_label (conj enhance_category_llm_label _))).
  - intros h h' content_dict r Hrun.
    destruct (categorize_content_ok _ _ _ _ Hrun)
      as (content & title & category & _ & _ & Hch & -> & _).
    exists category. split.
    + rewrite deref_insert. apply lookup_insert_eq.
    + apply choose_category_label in Hch. now rewrite sector_scores_keys in Hch.
  - intros b keywords Hb.
    assert (Hsub : forall c, In c refiner_llm_labels -> In c code_labels).
    { intros c Hc. unfold refiner_llm_labels, refiner_labels in Hc. simpl in Hc.
      unfold code_labels, scorer_labels. simpl.
      repeat (destruct Hc as [<- | Hc]; [auto 10|]). destruct Hc. }
    assert (Hsub' : forall c, In c refiner_labels -> In c code_labels).
    { intros c Hc. apply Hsub. unfold refiner_llm_labels. apply List.in_or_app. now left. }
    destruct (enhance_category_label (VStr b) keywords) as [-> | (c & -> & Hc)];
      destruct (enhance_category_llm_label (VStr b) keywords) as [-> | (c' & -> & Hc')];
      eauto 10.
Qed.

Lemma C4_category_among_code_labels_witness :
  let h := record [("content", VStr (py "A startup story"))]%string in
  exists c, deref 0 (fst (@categorize_content ascii_unicode 0 h)) !! "category"%string
              = Some (VStr c) /\ In c scorer_labels.
Proof.
  apply (proj1 (@C4_category_among_code_labels ascii_unicode)
           (record [("content", VStr (py "A startup story"))]%string)
           (fst (@categorize_content ascii_unicode 0
                   (record [("content", VStr (py "A startup story"))]%string)))
           0 0).
  vm_compute. reflexivity.
Defined.

Lemma C4_counterexample :
  let h := record [("content", VStr (py "A startup story"))]%string in
  let out := @categorize_content ascii_unicode 0 h in
  snd out = Ok 0 /\
  deref 0 (fst out) !! "category"%string = Some (VStr (py "startup & innovation")) /\
  ~ In (py "startup & innovation") spec_sectors.
Proof.
  split; [vm_compute; reflexivity|]. split; [vm_compute; reflexivity|].
  intros Hin. apply mem_In in Hin. vm_compute in Hin. discriminate Hin.
Qed.

(** ** The Sector Context Filter *)

Lemma max_key_first (scores : list (str * nat)) :
  scores <> [] ->
  exists best score pre post,
    max_key scores = Some (best, score) /\
    scores = pre ++ (best, score) :: post /\
    Forall (fun kv => snd kv < score) pre /\
    Forall (fun kv => snd kv <= score) post.
Proof.
  induction scores as [|[k v] rest IH]; [congruence|]. intros _. simpl.
  destruct rest as [|kv' rest'].
  - simpl. exists k, v, [], []. auto.
  - destruct IH as (k' & v' & pre & post & -> & Hrest & Hpre & Hpost); [congruence|].
    destruct (v' <=? v) eqn:Ev.
    + apply Nat.leb_le in Ev. exists k, v, [], (kv' :: rest').
      refine (conj eq_refl (conj eq_refl (conj (List.Forall_nil _) _))).
      rewrite Hrest. apply List.Forall_app. split.
      * eapply List.Forall_impl; [|exact Hpre]. simpl. intros; lia.
      * constructor; [simpl; lia|].
        eapply List.Forall_impl; [|exact Hpost]. simpl. intros; lia.
    + apply Nat.leb_gt in Ev. exists k', v', ((k, v) :: pre), post.
      refine (conj eq_refl (conj _ (conj _ Hpost))).
      * rewrite Hrest. reflexivity.
      * constructor; [simpl; lia | assumption].
Qed.

Lemma context_scores_keys_nonempty `{PyUnicode} (content title : str) (k : str) (v : nat) :
  In (k, v) (context_scores content title) -> is_empty k = false.
Proof.
  unfold context_scores. intros Hin.
  apply (List.in_map fst) in Hin. rewrite List.map_map in Hin. simpl in Hin.
  change (In k (List.map fst sector_contexts)) in Hin.
  simpl in Hin. repeat (destruct Hin as [<- | Hin]; [reflexivity|]). destruct Hin.
Qed.

(** [C5] The Sector Context Filter chooses a sector of its own: it
    counts, for each sector of its own table of single-word keywords, the
    keywords that occur as plain substrings of the lower-cased title,
    space and content, and takes the first sector with the highest count.
    With a count of 0, or when the sentence splitter raises, the text is
    returned as it is.  Otherwise the sentences kept are exactly those
    whose lower-cased text contains one of that sector's keywords as a
    plain substring; they are joined with a full stop and a space and a
    final full stop is added if missing; when no sentence is kept the text
    is returned as it is. *)
Theorem C5_context_filter_own_sector `{PyUnicode} `{NLTK} (content title : str) :
  content <> [] ->
  exists best score pre post,
    context_scores content title = pre ++ (best, score) :: post /\
    Forall (fun kv => snd kv < score) pre /\
    Forall (fun kv => snd kv <= score) post /\
    (score = 0 -> _sector_context_filter content title = content) /\
    (sent_tokenize content = None -> _sector_context_filter content title = content) /\
    (forall sentences,
       0 < score -> sent_tokenize content = Some sentences ->
       let keywords := lookup_table best sector_contexts in
       let kept := List.filter (relevant_to keywords) sentences in
       (forall s, In s kept <->
                  In s sentences /\
                  exists keyword, In keyword keywords /\
                                  contains keyword (str_lower s) = true) /\
       (kept = [] -> _sector_context_filter content title = content) /\
       (kept <> [] ->
        _sector_context_filter content title =
          if endswith (py ".") (join (py ". ") kept)
          then join (py ". ") kept
          else join (py ". ") kept ++ py ".")).
Proof.
  intros Hne.
  destruct (max_key_first (context_scores content title))
    as (best & score & pre & post & Hmax & Hsc & Hpre & Hpost).
  { unfold context_scores. discriminate. }
  exists best, score, pre, post.
  assert (Hbest : is_empty best = false).
  { apply (context_scores_keys_nonempty content title best score).
    rewrite Hsc. apply List.in_or_app. right. now left. }
  assert (Hc : is_empty content = false) by (destruct content; [congruence | reflexivity]).
  refine (conj Hsc (conj Hpre (conj Hpost (conj _ (conj _ _))))).
  - intros ->. unfold _sector_context_filter. rewrite Hc, Hmax, Hbest. reflexivity.
  - intros Hs. unfold _sector_context_filter. rewrite Hc, Hmax, Hbest, Hs.
    now destruct (0 <? score).
  - intros sentences Hpos Hs keywords kept.
    assert (Hrun : _sector_context_filter content title =
                   match kept with
                   | [] => content
                   | _ => if endswith (py ".") (join (py ". ") kept)
                          then join (py ". ") kept
                          else join (py ". ") kept ++ py "."
                   end).
    { unfold _sector_context_filter. rewrite Hc, Hmax, Hbest, Hs.
      apply Nat.ltb_lt in Hpos. rewrite Hpos. reflexivity. }
    refine (conj _ (conj _ _)).
    + intros s. unfold kept. rewrite List.filter_In. unfold relevant_to.
      rewrite existsb_exists. reflexivity.
    + intros Hk. rewrite Hrun, Hk. reflexivity.
    + intros Hk. rewrite Hrun. destruct kept; [congruence | reflexivity].
Qed.

Lemma C5_context_filter_own_sector_witness :
  exists best score pre post,
    @context_scores ascii_unicode (py "Electric cars are green. The sky is blue today.") []
      = pre ++ (best, score) :: post /\
    Forall (fun kv => snd kv < score) pre /\
    Forall (fun kv => snd kv <= score) post /\
    (score = 0 ->
     @_sector_context_filter ascii_unicode demo_nltk
       (py "Electric cars are green. The sky is blue today.") []
     = py "Electric cars are green. The sky is blue today.") /\
    (@sent_tokenize demo_nltk (py "Electric cars are green. The sky is blue today.") = None ->
     @_sector_context_filter ascii_unicode demo_nltk
       (py "Electric cars are green. The sky is blue today.") []
     = py "Electric cars are green. The sky is blue today.") /\
    (forall sentences,
       0 < score ->
       @sent_tokenize demo_nltk (py "Electric cars are green. The sky is blue today.")
         = Some sentences ->
       let keywords := lookup_table best sector_contexts in
       let kept := List.filter (@relevant_to ascii_unicode keywords) sentences in
       (forall s, In s kept <->
                  In s sentences /\
                  exists keyword, In keyword keywords /\
                                  contains keyword (@str_lower ascii_unicode s) = true) /\
       (kept = [] ->
        @_sector_context_filter ascii_unicode demo_nltk
          (py "Electric cars are green. The sky is blue today.") []
        = py "Electric cars are green. The sky is blue today.") /\
       (kept <> [] ->
        @_sector_context_filter ascii_unicode demo_nltk
          (py "Electric cars are green. The sky is blue today.") [] =
          if endswith (py ".") (join (py ". ") kept)
          then join (py ". ") kept
          else join (py ". ") kept ++ py ".")).
Proof.
  apply (@C5_context_filter_own_sector ascii_unicode demo_nltk
           (py "Electric cars are green. The sky is blue today.") []).
  vm_compute. discriminate.
Defined.

Lemma C5_counterexample :
  let content := py "Electric cars are green. The sky is blue today." in
  choose_category (@sector_scores ascii_unicode
                     (@str_lower ascii_unicode content ++ py " " ++ @str_lower ascii_unicode []))
    = Ok (py "general") /\
  @spec_sector_context_filter ascii_unicode demo_nltk content [] = content /\
  @_sector_context_filter ascii_unicode demo_nltk content [] = py "Electric cars are green." /\
  @_sector_context_filter ascii_unicode demo_nltk content []
    <> @spec_sector_context_filter ascii_unicode demo_nltk content [].
Proof.
  split; [vm_compute; reflexivity|]. split; [vm_compute; reflexivity|].
  split; [vm_compute; reflexivity|].
  vm_compute. discriminate.
Qed.

(** ** The Category Refiner *)

Lemma Forall_cons_inv {A} (P : A -> Prop) (x : A) (l : list A) :
  Forall P (x :: l) -> P x /\ Forall P l.
Proof. intros HF. inversion HF; subst. auto. Qed.

Ltac use_indicators H :=
  repeat (apply Forall_cons_inv in H as [?Hi H]; cbv beta in *);
  repeat match goal with
         | Hi : contains _ _ = false |- _ => rewrite Hi; clear Hi
         end.

(** [C6] A keyword list whose joined, lower-cased text contains
    [electric] is refined to [e-mobility] whatever the base category, in
    both processors; a keyword list that contains none of a processor's
    indicator terms leaves the base category as it was. *)
Theorem C6_refiner_electric_first_else_unchanged `{PyUnicode}
    (base_category : pyval) (keywords : list str) :
  let keyword_str := str_lower (join (py " ") keywords) in
  (contains (py "electric") keyword_str = true ->
   Processor._enhance_category base_category keywords = VStr (py "e-mobility") /\
   ProcessorLLM._enhance_category base_category keywords = VStr (py "e-mobility")) /\
  (Forall (fun t => contains (py t) keyword_str = false) refiner_indicators ->
   Processor._enhance_category base_category keywords = base_category) /\
  (Forall (fun t => contains (py t) keyword_str = false) refiner_llm_indicators ->
   ProcessorLLM._enhance_category base_category keywords = base_category).
Proof.
  intros keyword_str. refine (conj _ (conj _ _)).
  - intros He. unfold Processor._enhance_category, ProcessorLLM._enhance_category.
    cbv zeta. fold keyword_str. rewrite He. split; reflexivity.
  - intros Hnone. unfold Processor._enhance_category. cbv zeta. fold keyword_str.
    unfold refiner_indicators in Hnone. use_indicators Hnone. reflexivity.
  - intros Hnone. unfold ProcessorLLM._enhance_category. cbv zeta. fold keyword_str.
    unfold refiner_llm_indicators, refiner_indicators in Hnone. simpl in Hnone.
    use_indicators Hnone. reflexivity.
Qed.

Lemma C6_refiner_electric_first_else_unchanged_witness :
  (@Processor._enhance_category ascii_unicode (VStr (py "politics-governance"))
     [py "policy"; py "Electricity"] = VStr (py "e-mobility") /\
   @ProcessorLLM._enhance_category ascii_unicode (VStr (py "politics-governance"))
     [py "policy"; py "Electricity"] = VStr (py "e-mobility")) /\
  @Processor._enhance_category ascii_unicode (VStr (py "general")) [py "cat"; py "mat"]
    = VStr (py "general") /\
  @ProcessorLLM._enhance_category ascii_unicode VNone [py "cat"; py "mat"] = VNone.
Proof.
  refine (conj _ (conj _ _)).
  - apply (proj1 (@C6_refiner_electric_first_else_unchanged ascii_unicode
                    (VStr (py "politics-governance")) [py "policy"; py "Electricity"])).
    vm_compute. reflexivity.
  - apply (proj1 (proj2 (@C6_refiner_electric_first_else_unchanged ascii_unicode
                           (VStr (py "general")) [py "cat"; py "mat"]))).
    unfold refiner_indicators.
    repeat (constructor; [vm_compute; reflexivity|]). constructor.
  - apply (proj2 (proj2 (@C6_refiner_electric_first_else_unchanged ascii_unicode
                           VNone [py "cat"; py "mat"]))).
    unfold refiner_llm_indicators, refiner_indicators. simpl.
    repeat (constructor; [vm_compute; reflexivity|]). constructor.
Defined.

(** ** Runs over the store *)

Lemma bind_ok {A B} (m : M A) (f : A -> M B) (h h' : heap) (b : B) :
  bind m f h = (h', Ok b) ->
  exists a h1, m h = (h1, Ok a) /\ f a h1 = (h', Ok b).
Proof.
  unfold bind. destruct (m h) as [h1 [a|e]]; [eauto | discriminate].
Qed.

Lemma ret_ok {A} (a b : A) (h h' : heap) : ret a h = (h', Ok b) -> h' = h /\ b = a.
Proof. unfold ret. intros [= <- <-]. auto. Qed.

Lemma get_run (l : loc) (key : string) (dflt : pyval) (h : heap) :
  get l key dflt h = (h, Ok (default dflt (deref l h !! key))).
Proof. reflexivity. Qed.

Lemma getitem_ok (l : loc) (key : string) (h h' : heap) (v : pyval) :
  getitem l key h = (h', Ok v) -> h' = h /\ deref l h !! key = Some v.
Proof.
  unfold getitem. destruct (deref l h !! key); [|discriminate].
  intros [= <- <-]. auto.
Qed.

Lemma as_str_ok (e : exn) (v : pyval) (h h' : heap) (s : str) :
  as_str e v h = (h', Ok s) -> h' = h /\ v = VStr s.
Proof.
  destruct v; simpl; unfold ret, raise; try discriminate. intros [= <- <-]. auto.
Qed.

Lemma run_sent_tokenize_ok `{NLTK} (text : str) (h h' : heap) (sentences : list str) :
  run_sent_tokenize text h = (h', Ok sentences) ->
  h' = h /\ sent_tokenize text = Some sentences.
Proof.
  unfold run_sent_tokenize. destruct (sent_tokenize text); unfold ret, raise;
    [|discriminate].
  intros [= <- <-]. auto.
Qed.

Lemma update_ok (l : loc) (kvs : list (string * pyval)) (h h' : heap) (u : unit) :
  update l kvs h = (h', Ok u) -> h' = <[l := update_dict kvs (deref l h)]> h.
Proof. unfold update. now intros [= <- _]. Qed.

Lemma get_ok (l : loc) (key : string) (dflt : pyval) (h h' : heap) (v : pyval) :
  get l key dflt h = (h', Ok v) -> h' = h.
Proof. unfold get. now intros [= <- _]. Qed.

(** The cleaner hands back the record it was given. *)
Lemma clean_content_same `{LLM} (content_dict r : loc) (sector : pyval) (h h' : heap) :
  ProcessorLLM.clean_content content_dict sector h = (h', Ok r) -> r = content_dict.
Proof.
  unfold ProcessorLLM.clean_content. intros Hrun.
  apply bind_ok in Hrun as (title & h1 & _ & Hrun).
  apply bind_ok in Hrun as (v & h2 & _ & Hrun).
  apply bind_ok in Hrun as (raw & h3 & _ & Hrun).
  destruct (is_empty (strip raw)).
  - apply bind_ok in Hrun as (u & h4 & _ & Hrun). apply ret_ok in Hrun. easy.
  - apply bind_ok in Hrun as (s & h4 & _ & Hrun).
    apply bind_ok in Hrun as (u & h5 & _ & Hrun). apply ret_ok in Hrun. easy.
Qed.

(** Both processors hand back the record they were given. *)
Lemma process_content_same `{PyUnicode} `{NLTK} (content_dict r : loc) (h h' : heap) :
  Processor.process_content content_dict h = (h', Ok r) -> r = content_dict.
Proof.
  unfold Processor.process_content. intros Hrun.
  apply bind_ok in Hrun as (v & h1 & _ & Hrun).
  apply bind_ok in Hrun as (text & h2 & _ & Hrun).
  apply bind_ok in Hrun as (sentences & h3 & _ & Hrun).
  cbv zeta in Hrun.
  apply bind_ok in Hrun as (base & h4 & _ & Hrun).
  apply bind_ok in Hrun as (u & h5 & _ & Hrun).
  apply bind_ok in Hrun as (url & h6 & _ & Hrun).
  apply ret_ok in Hrun. easy.
Qed.

Lemma process_content_llm_same `{PyUnicode} `{NLTK} `{LLM}
    (use_llm : bool) (content_dict r : loc) (h h' : heap) :
  ProcessorLLM.process_content use_llm content_dict h = (h', Ok r) -> r = content_dict.
Proof.
  unfold ProcessorLLM.process_content. intros Hrun.
  apply bind_ok in Hrun as ([d text] & h1 & Hfirst & Hrun).
  assert (Hd : d = content_dict).
  { destruct use_llm.
    - apply bind_ok in Hfirst as (sector & h2 & _ & Hfirst).
      apply bind_ok in Hfirst as (d' & h3 & Hclean & Hfirst).
      apply clean_content_same in Hclean. subst d'.
      apply bind_ok in Hfirst as (dflt & h4 & _ & Hfirst).
      apply bind_ok in Hfirst as (t & h5 & _ & Hfirst).
      apply ret_ok in Hfirst as [_ Hfirst]. congruence.
    - apply bind_ok in Hfirst as (t & h2 & _ & Hfirst).
      apply ret_ok in Hfirst as [_ Hfirst]. congruence. }
  subst d. cbv zeta in Hrun. simpl fst in Hrun. simpl snd in Hrun.
  apply bind_ok in Hrun as (t & h2 & _ & Hrun).
  destruct (is_empty (strip t)).
  - apply bind_ok in Hrun as (u & h3 & _ & Hrun). apply ret_ok in Hrun. easy.
  - apply bind_ok in Hrun as (sentences & h3 & _ & Hrun).
    apply bind_ok in Hrun as (base & h4 & _ & Hrun).
    apply bind_ok in Hrun as (u & h5 & _ & Hrun).
    apply bind_ok in Hrun as (url & h6 & _ & Hrun).
    apply ret_ok in Hrun. easy.
Qed.

(** The loop of [batch_process], for any [process_content] that hands
    back the record it was given. *)
Lemma batch_loop_run (process_content : loc -> M loc) :
  (forall content r h h', process_content content h = (h', Ok r) -> r = content) ->
  forall content_list processed h,
    batch_loop process_content content_list processed h =
      (processed_store process_content content_list h, Ok (processed ++ content_list)).
Proof.
  intros Hsame. induction content_list as [|content rest IH]; intros processed h.
  - simpl. unfold ret. now rewrite List.app_nil_r.
  - simpl. unfold bind, try_except, get, ret.
    destruct (process_content content h) as [h1 [r|e]] eqn:Erun.
    + apply Hsame in Erun as Hr. subst r.
      rewrite IH. unfold processed_store. simpl.
      rewrite ?Erun. now rewrite <- List.app_assoc.
    + rewrite IH. unfold processed_store. simpl.
      rewrite ?Erun. now rewrite <- List.app_assoc.
Qed.

Lemma bind_raise {A B} (m : M A) (f : A -> M B) (h h' : heap) (e : exn) :
  bind m f h = (h', Raise e) ->
  m h = (h', Raise e) \/ exists a h1, m h = (h1, Ok a) /\ f a h1 = (h', Raise e).
Proof.
  unfold bind. destruct (m h) as [h1 [a|e1]]; [eauto|].
  intros [= <- <-]. now left.
Qed.

Lemma getitem_run (l : loc) (key : string) (h h' : heap) (r : result pyval) :
  getitem l key h = (h', r) -> h' = h.
Proof. unfold getitem. destruct (deref l h !! key); now intros [= <- _]. Qed.

Lemma as_str_run (e : exn) (v : pyval) (h h' : heap) (r : result str) :
  as_str e v h = (h', r) -> h' = h.
Proof. destruct v; simpl; unfold ret, raise; now intros [= <- _]. Qed.

Lemma run_sent_tokenize_run `{NLTK} (text : str) (h h' : heap) (r : result (list str)) :
  run_sent_tokenize text h = (h', r) -> h' = h.
Proof.
  unfold run_sent_tokenize. destruct (sent_tokenize text); unfold ret, raise;
    now intros [= <- _].
Qed.

(** A run of processor.py's [process_content] that raises has either
    written nothing, or has stored its four fields and then missed the
    [url] its log line reads. *)
Lemma process_content_raise `{PyUnicode} `{NLTK} (content_dict : loc) (h h' : heap) (e : exn) :
  Processor.process_content content_dict h = (h', Raise e) ->
  h' = h \/
  (e = KeyError "url" /\
   exists kvs,
     List.map fst kvs = ["keywords"; "themes"; "sentiment"; "category"]%string /\
     h' = <[content_dict := update_dict kvs (deref content_dict h)]> h).
Proof.
  unfold Processor.process_content. intros Hrun.
  apply bind_raise in Hrun as [Hrun | (v & h1 & Hv & Hrun)];
    [apply getitem_run in Hrun; now left|].
  apply getitem_run in Hv. subst h1.
  apply bind_raise in Hrun as [Hrun | (text & h1 & Ht & Hrun)];
    [apply as_str_run in Hrun; now left|].
  apply as_str_run in Ht. subst h1.
  apply bind_raise in Hrun as [Hrun | (sentences & h1 & Hs & Hrun)];
    [apply run_sent_tokenize_run in Hrun; now left|].
  apply run_sent_tokenize_run in Hs. subst h1. cbv zeta in Hrun.
  apply bind_raise in Hrun as [Hrun | (base & h1 & Hb & Hrun)];
    [apply getitem_run in Hrun; now left|].
  apply getitem_run in Hb. subst h1.
  apply bind_raise in Hrun as [Hrun | (u & h1 & Hu & Hrun)]; [discriminate Hrun|].
  apply update_ok in Hu.
  match type of Hu with
  | _ = <[_ := update_dict ?k _]> _ => set (kvs := k) in Hu
  end.
  apply bind_raise in Hrun as [Hrun | (url & h2 & _ & Hrun)]; [|discriminate Hrun].
  right. pose proof (getitem_run _ _ _ _ _ Hrun) as ->.
  unfold getitem in Hrun.
  destruct (deref content_dict h1 !! "url"%string); [discriminate|].
  injection Hrun as <-. split; [reflexivity|]. exists kvs. split; [reflexivity | exact Hu].
Qed.

(** A run of the cleaner either raises and writes nothing, or returns
    the record with its three fields stored. *)
Lemma clean_content_run `{LLM} (content_dict : loc) (sector : pyval) (h h' : heap)
    (r : result loc) :
  ProcessorLLM.clean_content content_dict sector h = (h', r) ->
  (h' = h /\ exists e, r = Raise e) \/
  (r = Ok content_dict /\
   exists kvs,
     List.map fst kvs = ["cleaned_content"; "key_insights"; "relevance_score"]%string /\
     h' = <[content_dict := update_dict kvs (deref content_dict h)]> h).
Proof.
  unfold ProcessorLLM.clean_content, bind, get, update, ret.
  destruct (as_str AttributeError _ h) as [h1 [raw|e1]] eqn:Eraw.
  - apply as_str_run in Eraw. subst h1.
    destruct (is_empty (strip raw)).
    + intros [= <- <-]. right. split; [reflexivity|].
      exists [("cleaned_content", VStr []); ("key_insights", VList []);
              ("relevance_score", VFloat 0 0)]%string.
      split; reflexivity.
    + destruct (as_str AttributeError sector h) as [h1 [sec|e1]] eqn:Esec.
      * apply as_str_run in Esec. subst h1.
        destruct (llm_reply _ raw sec) as [[[c k] s]|]; intros [= <- <-]; right;
          (split; [reflexivity|]).
        -- exists [("cleaned_content", c); ("key_insights", k);
                   ("relevance_score", s)]%string.
           split; reflexivity.
        -- exists [("cleaned_content", VStr raw); ("key_insights", VList []);
                   ("relevance_score", VFloat 1 (-1))]%string.
           split; reflexivity.
      * apply as_str_run in Esec. subst h1. intros [= <- <-]. left. eauto.
  - apply as_str_run in Eraw. subst h1. intros [= <- <-]. left. eauto.
Qed.

(** A run of processor_llm.py's [process_content] that raises has
    written nothing of its own: the record is as it was, or as the
    cleaner left it. *)
Lemma process_content_llm_raise `{PyUnicode} `{NLTK} `{LLM}
    (use_llm : bool) (content_dict : loc) (h h' : heap) (e : exn) :
  ProcessorLLM.process_content use_llm content_dict h = (h', Raise e) ->
  h' = h \/
  (use_llm = true /\
   exists kvs,
     List.map fst kvs = ["cleaned_content"; "key_insights"; "relevance_score"]%string /\
     h' = <[content_dict := update_dict kvs (deref content_dict h)]> h).
Proof.
  unfold ProcessorLLM.process_content. intros Hrun.
  assert (Hfirst : forall dt h1 r1,
             (if use_llm
              then sector <- get content_dict "category" (VStr (py "general")) ;;
                   content_dict <- ProcessorLLM.clean_content content_dict sector ;;
                   dflt <- get content_dict "content" (VStr []) ;;
                   text <- get content_dict "cleaned_content" dflt ;;
                   ret (content_dict, text)
              else text <- get content_dict "content" (VStr []) ;;
                   ret (content_dict, text)) h = (h1, r1) ->
             (r1 = Ok dt -> fst dt = content_dict) /\
             (h1 = h \/
              (use_llm = true /\ (exists dt', r1 = Ok dt') /\
               exists kvs,
                 List.map fst kvs
                   = ["cleaned_content"; "key_insights"; "relevance_score"]%string /\
                 h1 = <[content_dict := update_dict kvs (deref content_dict h)]> h))).
  { intros dt h1 r1. destruct use_llm.
    - unfold bind at 1. rewrite get_run.
      unfold bind at 1.
      destruct (ProcessorLLM.clean_content content_dict _ h) as [h2 r2] eqn:Eclean.
      apply clean_content_run in Eclean as [[-> (e2 & ->)] | [-> (kvs & Hk & ->)]].
      + intros [= <- <-]. split; [discriminate | now left].
      + unfold bind, get, ret. intros [= <- <-]. split.
        * now intros [= <-].
        * right. split; [reflexivity|]. split; [eauto|]. eauto.
    - unfold bind, get, ret. intros [= <- <-]. split; [now intros [= <-] | now left]. }
  apply bind_raise in Hrun as [Hrun | ([d text] & h1 & Hdt & Hrun)].
  - destruct (Hfirst (content_dict, VNone) _ _ Hrun) as [_ [-> | (_ & (dt' & Hdt') & _)]];
      [now left | discriminate Hdt'].
  - destruct (Hfirst (d, text) _ _ Hdt) as [Hd Hh1]. specialize (Hd eq_refl).
    simpl in Hd. subst d. cbv zeta in Hrun. simpl fst in Hrun. simpl snd in Hrun.
    assert (Hkeep : h' = h1).
    { apply bind_raise in Hrun as [Hrun | (t & h2 & Ht & Hrun)];
        [now apply as_str_run in Hrun|].
      apply as_str_run in Ht. subst h2.
      destruct (is_empty (strip t)).
      - apply bind_raise in Hrun as [Hrun | (u & h2 & _ & Hrun)]; discriminate Hrun.
      - apply bind_raise in Hrun as [Hrun | (sentences & h2 & Hs & Hrun)];
          [now apply run_sent_tokenize_run in Hrun|].
        apply bind_raise in Hrun as [Hrun | (base & h3 & _ & Hrun)]; [discriminate Hrun|].
        apply bind_raise in Hrun as [Hrun | (u & h4 & _ & Hrun)]; [discriminate Hrun|].
        apply bind_raise in Hrun as [Hrun | (url & h5 & _ & Hrun)]; discriminate Hrun. }
    subst h'. destruct Hh1 as [-> | (Hllm & _ & Hk)]; [now left | right; auto].
Qed.

Lemma processed_store_app (process_content : loc -> M loc)
    (pre post : list loc) (h : heap) :
  processed_store process_content (pre ++ post) h =
  processed_store process_content post (processed_store process_content pre h).
Proof. unfold processed_store. apply List.fold_left_app. Qed.

(** [C7] [batch_process] never raises and returns the records it was
    given, the same objects in the same order, hence as many.  The store
    it leaves is the one in which each record has been gone through with
    [process_content] in turn; where that raises, the exception is caught
    and the record stands in the output, at its place, in the state the
    failing stage found it in: untouched, or with the fields stored by the
    stages that had run (the four result fields when only the log line of
    processor.py failed, the cleaner's three fields in processor_llm.py). *)
Theorem C7_batch_process_keeps_records `{PyUnicode} `{NLTK} `{LLM}
    (use_llm : bool) (content_list : list loc) (h : heap) :
  (Processor.batch_process content_list h =
     (processed_store Processor.process_content content_list h, Ok content_list) /\
   ProcessorLLM.batch_process use_llm content_list h =
     (processed_store (ProcessorLLM.process_content use_llm) content_list h,
      Ok content_list)) /\
  (forall pre content post e h2,
     content_list = pre ++ content :: post ->
     Processor.process_content content (processed_store Processor.process_content pre h)
       = (h2, Raise e) ->
     Processor.batch_process (pre ++ [content]) h = (h2, Ok (pre ++ [content]))) /\
  (forall pre content post e h2,
     content_list = pre ++ content :: post ->
     ProcessorLLM.process_content use_llm content
       (processed_store (ProcessorLLM.process_content use_llm) pre h) = (h2, Raise e) ->
     ProcessorLLM.batch_process use_llm (pre ++ [content]) h
       = (h2, Ok (pre ++ [content]))) /\
  (forall content h1 h2 e,
     Processor.process_content content h1 = (h2, Raise e) ->
     h2 = h1 \/
     (e = KeyError "url" /\
      exists kvs,
        List.map fst kvs = ["keywords"; "themes"; "sentiment"; "category"]%string /\
        h2 = <[content := update_dict kvs (deref content h1)]> h1)) /\
  (forall content h1 h2 e,
     ProcessorLLM.process_content use_llm content h1 = (h2, Raise e) ->
     h2 = h1 \/
     (use_llm = true /\
      exists kvs,
        List.map fst kvs = ["cleaned_content"; "key_insights"; "relevance_score"]%string /\
        h2 = <[content := update_dict kvs (deref content h1)]> h1)).
Proof.
  refine (conj (conj _ _) (conj _ (conj _ (conj _ _)))).
  - unfold Processor.batch_process.
    rewrite (batch_loop_run _ process_content_same). reflexivity.
  - unfold ProcessorLLM.batch_process.
    rewrite (batch_loop_run _ (process_content_llm_same use_llm)). reflexivity.
  - intros pre content post e h2 _ Hraise. unfold Processor.batch_process.
    rewrite (batch_loop_run _ process_content_same). simpl.
    rewrite processed_store_app. unfold processed_store at 1. simpl.
    now rewrite Hraise.
  - intros pre content post e h2 _ Hraise. unfold ProcessorLLM.batch_process.
    rewrite (batch_loop_run _ (process_content_llm_same use_llm)). simpl.
    rewrite processed_store_app. unfold processed_store at 1. simpl.
    now rewrite Hraise.
  - intros content h1 h2 e. apply process_content_raise.
  - intros content h1 h2 e. apply process_content_llm_raise.
Qed.

Lemma C7_batch_process_keeps_records_witness :
  let h := store_from 0
             [ [("content", VStr (py "The cat sat on the mat."));
                ("category", VStr (py "general")); ("url", VStr (py "u0"))];
               [("title", VStr (py "No content here")); ("url", VStr (py "u1"))];
               [("content", VStr (py "A battery is on the mat."));
                ("category", VStr (py "general")); ("url", VStr (py "u2"))] ]%string in
  @Processor.batch_process ascii_unicode demo_nltk [0; 1] h =
    (processed_store (@Processor.process_content ascii_unicode demo_nltk) [0] h, Ok [0; 1]) /\
  @ProcessorLLM.batch_process ascii_unicode raising_nltk offline_llm true [0; 1; 2] h =
    (processed_store (@ProcessorLLM.process_content ascii_unicode raising_nltk offline_llm true)
       [0; 1; 2] h,
     Ok [0; 1; 2]).
Proof.
  intros h. split.
  - apply (proj1 (proj2 (@C7_batch_process_keeps_records ascii_unicode demo_nltk offline_llm
                           false [0; 1; 2] h))
             [0] 1 [2] (KeyError "content")).
    + reflexivity.
    + vm_compute. reflexivity.
  - apply (proj1 (proj2 (proj2 (@C7_batch_process_keeps_records ascii_unicode raising_nltk
                                  offline_llm true [0; 1; 2] h)))
             [0; 1] 2 [] NLTKError).
    + reflexivity.
    + vm_compute. reflexivity.
Defined.

(** ** The Text Normalizer *)

(** [C8] The Text Normalizer is meant to be idempotent.  Its apostrophe
    line replaces the fifteen characters from a comma to an opening
    parenthesis by an apostrophe, and a replacement can complete a new
    occurrence: on the text below the first pass leaves exactly those
    fifteen characters, and a second pass turns them into an apostrophe. *)
Theorem C8_normalizer_second_pass_differs `{PyUnicode} :
  let old := py ", " ++ dquote ++ py "'" ++ dquote ++ py ").replace(" in
  let x := py ", " ++ dquote ++ old ++ dquote ++ py ").replace(" in
  _basic_text_cleaning x = old /\
  _basic_text_cleaning (_basic_text_cleaning x) = py "'" /\
  _basic_text_cleaning (_basic_text_cleaning x) <> _basic_text_cleaning x.
Proof.
  vm_compute. repeat split. discriminate.
Qed.

(** ** Counting and ranking *)

Section Sorting.

Context {A : Type}.

Lemma StronglySorted_weaken (R R' : A -> A -> Prop) (l : list A) :
  (forall a b, In a l -> In b l -> R a b -> R' a b) ->
  StronglySorted R l -> StronglySorted R' l.
Proof.
  induction l as [|x l IH]; intros Hsub Hs; [constructor|].
  apply StronglySorted_inv in Hs as [Hs Hx]. constructor.
  - apply IH; [|assumption]. intros a b Ha Hb. apply Hsub; now right.
  - apply List.Forall_forall. intros b Hb. apply Hsub; [now left | now right |].
    eapply (proj1 (List.Forall_forall _ _) Hx). exact Hb.
Qed.

Lemma StronglySorted_snoc (R : A -> A -> Prop) (l : list A) (x : A) :
  StronglySorted R l -> Forall (fun a => R a x) l -> StronglySorted R (l ++ [x]).
Proof.
  induction l as [|y l IH]; intros Hs Hx; simpl.
  - constructor; constructor.
  - apply StronglySorted_inv in Hs as [Hs Hy].
    apply Forall_cons_inv in Hx as [Hyx Hx]. constructor.
    + now apply IH.
    + apply List.Forall_app. split; [assumption | now constructor].
Qed.

Lemma StronglySorted_app_cross (R : A -> A -> Prop) (l1 l2 : list A) (a b : A) :
  StronglySorted R (l1 ++ l2) -> In a l1 -> In b l2 -> R a b.
Proof.
  induction l1 as [|x l1 IH]; simpl; intros Hs Ha Hb; [destruct Ha|].
  apply StronglySorted_inv in Hs as [Hs Hx]. destruct Ha as [-> | Ha].
  - eapply (proj1 (List.Forall_forall _ _) Hx). apply List.in_or_app. now right.
  - now apply IH.
Qed.

Lemma StronglySorted_app_l (R : A -> A -> Prop) (l1 l2 : list A) :
  StronglySorted R (l1 ++ l2) -> StronglySorted R l1.
Proof.
  induction l1 as [|x l1 IH]; simpl; intros Hs; [constructor|].
  apply StronglySorted_inv in Hs as [Hs Hx]. constructor; [now apply IH|].
  apply List.Forall_app in Hx. tauto.
Qed.

Lemma StronglySorted_NoDup (R : A -> A -> Prop) (l : list A) :
  (forall a, ~ R a a) -> StronglySorted R l -> List.NoDup l.
Proof.
  intros Hirr. induction l as [|x l IH]; intros Hs; [constructor|].
  apply StronglySorted_inv in Hs as [Hs Hx]. constructor; [|now apply IH].
  intros Hin. apply (Hirr x). eapply (proj1 (List.Forall_forall _ _) Hx). exact Hin.
Qed.

Lemma StronglySorted_map {B} (f : A -> B) (R : B -> B -> Prop) (l : list A) :
  StronglySorted (fun p q => R (f p) (f q)) l <-> StronglySorted R (List.map f l).
Proof.
  induction l as [|x l IH]; simpl; [split; constructor|].
  split; intros Hs; apply StronglySorted_inv in Hs as [Hs Hx]; constructor.
  - now apply IH.
  - rewrite List.Forall_map. exact Hx.
  - now apply IH.
  - rewrite List.Forall_map in Hx. exact Hx.
Qed.

End Sorting.

(** *** The stable sort by decreasing count *)

Lemma insert_desc_In (x p : str * nat) (l : list (str * nat)) :
  In p (insert_desc x l) <-> p = x \/ In p l.
Proof.
  induction l as [|y l IH]; simpl.
  - intuition.
  - destruct (snd y <=? snd x); simpl; [intuition|]. rewrite IH. intuition.
Qed.

Lemma sort_desc_In (p : str * nat) (c : list (str * nat)) :
  In p (sort_desc c) <-> In p c.
Proof.
  induction c as [|x c IH]; simpl; [reflexivity|].
  rewrite insert_desc_In, IH. intuition.
Qed.

Section StableSort.

(** [earlier] is the order of the items before sorting. *)
Variable earlier : str * nat -> str * nat -> Prop.

Lemma insert_desc_sorted (x : str * nat) (l : list (str * nat)) :
  Forall (earlier x) l ->
  StronglySorted (sorted_before earlier) l ->
  StronglySorted (sorted_before earlier) (insert_desc x l).
Proof.
  induction l as [|y l IH]; intros He Hs; simpl.
  - constructor; constructor.
  - apply Forall_cons_inv in He as [Hey He].
    pose proof Hs as Hs0.
    apply StronglySorted_inv in Hs as [Hs Hy].
    destruct (snd y <=? snd x) eqn:Ecmp.
    + apply Nat.leb_le in Ecmp. constructor; [assumption|].
      constructor.
      * unfold sorted_before. destruct (Nat.eq_dec (snd x) (snd y)); [right | left]; auto; lia.
      * apply List.Forall_forall. intros z Hz.
        assert (Hyz : sorted_before earlier y z)
          by (eapply (proj1 (List.Forall_forall _ _) Hy); exact Hz).
        assert (Hxz : earlier x z)
          by (eapply (proj1 (List.Forall_forall _ _) He); exact Hz).
        unfold sorted_before in *.
        destruct (Nat.eq_dec (snd x) (snd z)); [right | left]; auto; lia.
    + apply Nat.leb_gt in Ecmp. constructor; [now apply IH|].
      apply List.Forall_forall. intros z Hz. apply insert_desc_In in Hz as [-> | Hz].
      * left. assumption.
      * eapply (proj1 (List.Forall_forall _ _) Hy). exact Hz.
Qed.

Lemma sort_desc_sorted (c : list (str * nat)) :
  StronglySorted earlier c -> StronglySorted (sorted_before earlier) (sort_desc c).
Proof.
  induction c as [|x c IH]; intros Hs; simpl; [constructor|].
  apply StronglySorted_inv in Hs as [Hs Hx].
  apply insert_desc_sorted; [|now apply IH].
  apply List.Forall_forall. intros z Hz. apply (proj1 (sort_desc_In _ _)) in Hz.
  eapply (proj1 (List.Forall_forall _ _) Hx). exact Hz.
Qed.

End StableSort.

(** *** Counting *)

Lemma count_app (x : str) (l m : list str) : count x (l ++ m) = count x l + count x m.
Proof. unfold count. now rewrite List.filter_app, List.length_app. Qed.

Lemma count_absent (x : str) (l : list str) : ~ In x l -> count x l = 0.
Proof.
  unfold count. induction l as [|y l IH]; simpl; intros Hn; [reflexivity|].
  destruct (str_eqb x y) eqn:E.
  - apply str_eqb_eq in E. subst. exfalso. apply Hn. now left.
  - apply IH. intros Hin. apply Hn. now right.
Qed.

Lemma first_index_lt (x : str) (l : list str) : In x l -> first_index x l < length l.
Proof.
  induction l as [|y l IH]; simpl; intros Hin; [destruct Hin|].
  destruct (str_eqb x y) eqn:E; [lia|].
  destruct Hin as [-> | Hin]; [rewrite str_eqb_refl in E; discriminate|].
  specialize (IH Hin). lia.
Qed.

Lemma first_index_app_l (x : str) (l m : list str) :
  In x l -> first_index x (l ++ m) = first_index x l.
Proof.
  induction l as [|y l IH]; simpl; intros Hin; [destruct Hin|].
  destruct (str_eqb x y) eqn:E; [reflexivity|].
  destruct Hin as [-> | Hin]; [rewrite str_eqb_refl in E; discriminate|].
  now rewrite IH.
Qed.

Lemma first_index_app_r (x : str) (l m : list str) :
  ~ In x l -> first_index x (l ++ m) = length l + first_index x m.
Proof.
  induction l as [|y l IH]; simpl; intros Hn; [reflexivity|].
  destruct (str_eqb x y) eqn:E.
  - apply str_eqb_eq in E. subst. exfalso. apply Hn. now left.
  - rewrite IH; [reflexivity|]. intros Hin. apply Hn. now right.
Qed.

Lemma counter_add_keys (x : str) (c : list (str * nat)) :
  List.map fst (counter_add x c) =
  if mem x (List.map fst c) then List.map fst c else List.map fst c ++ [x].
Proof.
  induction c as [|[y n] c IH]; simpl; [reflexivity|].
  destruct (str_eqb x y) eqn:E; simpl; [reflexivity|].
  rewrite IH. unfold mem. now destruct (existsb (str_eqb x) (List.map fst c)).
Qed.

Lemma counter_add_assoc (x y : str) (c : list (str * nat)) :
  assoc_count y (counter_add x c) =
  if str_eqb y x then S (assoc_count y c) else assoc_count y c.
Proof.
  induction c as [|[z n] c IH]; simpl.
  - now destruct (str_eqb y x).
  - destruct (str_eqb x z) eqn:Exz; simpl.
    + apply str_eqb_eq in Exz. subst z. now destruct (str_eqb y x).
    + destruct (str_eqb y z) eqn:Eyz; [|exact IH].
      apply str_eqb_eq in Eyz. subst z.
      destruct (str_eqb y x) eqn:Eyx; [|reflexivity].
      apply str_eqb_eq in Eyx. subst. rewrite str_eqb_refl in Exz. discriminate.
Qed.

Lemma Counter_snoc (l : list str) (x : str) :
  Counter (l ++ [x]) = counter_add x (Counter l).
Proof. unfold Counter. now rewrite List.fold_left_app. Qed.

(** The keys of a counter are the elements of the list, in the order in
    which they first appear. *)
Lemma Counter_keys (l : list str) :
  (forall y, In y (List.map fst (Counter l)) <-> In y l) /\
  StronglySorted (fun a b => first_index a l < first_index b l)
                 (List.map fst (Counter l)).
Proof.
  induction l as [|x l [IHin IHs]] using List.rev_ind.
  - split; [reflexivity | constructor].
  - rewrite Counter_snoc, counter_add_keys.
    assert (Hkeep : StronglySorted
                      (fun a b => first_index a (l ++ [x]) < first_index b (l ++ [x]))
                      (List.map fst (Counter l))).
    { eapply StronglySorted_weaken; [|exact IHs]. intros a b Ha Hb Hab.
      apply IHin in Ha, Hb. now rewrite !first_index_app_l. }
    destruct (mem x (List.map fst (Counter l))) eqn:Ex.
    + apply mem_In, IHin in Ex. split; [|exact Hkeep].
      intros y. rewrite IHin, List.in_app_iff. simpl. intuition. now subst.
    + assert (Hx : ~ In x l).
      { intros Hin. apply IHin, mem_In in Hin. congruence. }
      split.
      * intros y. rewrite !List.in_app_iff, IHin. reflexivity.
      * apply StronglySorted_snoc; [exact Hkeep|].
        apply List.Forall_forall. intros a Ha. apply IHin in Ha.
        rewrite first_index_app_l by assumption.
        rewrite first_index_app_r by assumption.
        pose proof (first_index_lt _ _ Ha). lia.
Qed.

Lemma Counter_assoc (l : list str) (y : str) : assoc_count y (Counter l) = count y l.
Proof.
  induction l as [|x l IH] using List.rev_ind; [reflexivity|].
  rewrite Counter_snoc, counter_add_assoc, IH, count_app.
  unfold count. simpl. destruct (str_eqb y x); simpl; lia.
Qed.

Lemma assoc_count_In (c : list (str * nat)) (y : str) (n : nat) :
  List.NoDup (List.map fst c) -> In (y, n) c -> assoc_count y c = n.
Proof.
  induction c as [|[z m] c IH]; simpl; intros Hnd Hin; [destruct Hin|].
  apply List.NoDup_cons_iff in Hnd as [Hz Hnd].
  destruct Hin as [[= -> ->] | Hin].
  - now rewrite str_eqb_refl.
  - destruct (str_eqb y z) eqn:E; [|now apply IH].
    apply str_eqb_eq in E. subst z. exfalso. apply Hz.
    apply (List.in_map fst) in Hin. exact Hin.
Qed.

Lemma Counter_items (l : list str) (y : str) (n : nat) :
  In (y, n) (Counter l) -> In y l /\ n = count y l.
Proof.
  intros Hin. destruct (Counter_keys l) as [Hkeys Hs]. split.
  - apply Hkeys. apply (List.in_map fst) in Hin. exact Hin.
  - rewrite <- Counter_assoc. symmetry. apply assoc_count_In; [|exact Hin].
    eapply StronglySorted_NoDup; [|exact Hs]. intros a. cbv beta. lia.
Qed.

(** [most_common n] of a counter is the ranking of the stream cut at [n]. *)
Lemma most_common_ranked (stream : list str) (n : nat) :
  ranked stream n (List.map fst (most_common n (Counter stream))).
Proof.
  set (earlier := fun p q : str * nat =>
                    first_index (fst p) stream < first_index (fst q) stream).
  set (s := sort_desc (Counter stream)).
  assert (Hitem : forall p, In p s -> In (fst p) stream /\ snd p = count (fst p) stream).
  { intros [y k] Hp. apply (proj1 (sort_desc_In _ _)) in Hp. simpl.
    now apply Counter_items. }
  assert (Hs : StronglySorted (fun p q => ranks_before stream (fst p) (fst q)) s).
  { apply (StronglySorted_weaken (sorted_before earlier)).
    - intros p q Hp Hq Hpq. destruct (Hitem p Hp) as [_ Ep], (Hitem q Hq) as [_ Eq].
      unfold sorted_before, earlier in Hpq. unfold ranks_before. lia.
    - apply sort_desc_sorted.
      apply (proj2 (StronglySorted_map fst
                      (fun a b => first_index a stream < first_index b stream) _)).
      apply Counter_keys. }
  unfold most_common. fold s.
  pose proof (List.firstn_skipn n s) as Hsplit.
  assert (Hfirst : forall p, In p (firstn n s) -> In p s).
  { intros p Hp. rewrite <- Hsplit. apply List.in_or_app. now left. }
  rewrite <- Hsplit in Hs.
  refine (conj _ (conj _ (conj _ (conj _ _)))).
  - rewrite List.length_map. apply List.firstn_le_length.
  - apply (StronglySorted_NoDup (ranks_before stream)).
    + intros a. unfold ranks_before. lia.
    + apply (proj1 (StronglySorted_map fst _ _)). eapply StronglySorted_app_l. exact Hs.
  - intros x Hx. apply List.in_map_iff in Hx as (p & <- & Hp).
    apply Hitem. now apply Hfirst.
  - apply (proj1 (StronglySorted_map fst _ _)). eapply StronglySorted_app_l. exact Hs.
  - intros x Hx Hout.
    assert (Hp : exists k, In (x, k) s).
    { apply (Counter_keys stream) in Hx. apply List.in_map_iff in Hx as ([y k] & Hy & Hp).
      simpl in Hy. subst y. exists k. now apply (proj2 (sort_desc_In _ _)). }
    destruct Hp as (k & Hp).
    assert (Hskip : In (x, k) (skipn n s)).
    { rewrite <- Hsplit in Hp. apply List.in_app_or in Hp as [Hp | Hp]; [|exact Hp].
      exfalso. apply Hout. apply (List.in_map fst) in Hp. exact Hp. }
    split.
    + rewrite List.length_map. apply List.firstn_length_le.
      destruct (Nat.le_gt_cases n (length s)) as [Hle | Hgt]; [exact Hle|].
      rewrite List.skipn_all2 in Hskip by lia. destruct Hskip.
    + apply List.Forall_forall. intros a Ha. apply List.in_map_iff in Ha as (q & <- & Hq).
      apply (StronglySorted_app_cross _ _ _ q (x, k) Hs Hq Hskip).
Qed.

(** *** What the processors store *)

Ltac stored_field :=
  rewrite deref_insert; unfold update_dict; simpl;
  repeat (rewrite lookup_insert_ne by discriminate);
  apply lookup_insert_eq.

Lemma top_keywords_length `{PyUnicode} `{NLTK} (text : str) :
  length (top_keywords text) <= 10.
Proof. apply (most_common_ranked (filtered_words text) 10). Qed.

Lemma top_themes_length `{PyUnicode} `{NLTK} (sentences : list str) :
  length (top_themes sentences) <= 5.
Proof. apply (most_common_ranked (themes sentences) 5). Qed.

Ltac kept_field :=
  rewrite deref_insert; unfold update_dict; simpl;
  repeat (rewrite lookup_insert_ne by discriminate).

Lemma process_content_holds `{PyUnicode} `{NLTK} (content_dict r : loc) (h h' : heap) :
  Processor.process_content content_dict h = (h', Ok r) ->
  exists text sentences,
    deref content_dict h' !! "content"%string = Some (VStr text) /\
    sent_tokenize text = Some sentences /\
    holds_rankings text sentences h' content_dict.
Proof.
  unfold Processor.process_content. intros Hrun.
  apply bind_ok in Hrun as (v & h1 & Hv & Hrun). apply getitem_ok in Hv as [-> Hv].
  apply bind_ok in Hrun as (text & h2 & Ht & Hrun). apply as_str_ok in Ht as [-> ->].
  apply bind_ok in Hrun as (sentences & h3 & Hs & Hrun).
  apply run_sent_tokenize_ok in Hs as [-> Hs].
  cbv zeta in Hrun.
  apply bind_ok in Hrun as (base & h4 & Hb & Hrun). apply getitem_ok in Hb as [-> Hb].
  apply bind_ok in Hrun as (u & h5 & Hu & Hrun). apply update_ok in Hu. subst h5.
  apply bind_ok in Hrun as (url & h6 & Hurl & Hrun). apply getitem_ok in Hurl as [-> _].
  apply ret_ok in Hrun as [-> _].
  exists text, sentences. refine (conj _ (conj Hs (conj _ _))).
  - kept_field. exact Hv.
  - stored_field.
  - stored_field.
Qed.

Lemma process_content_llm_holds `{PyUnicode} `{NLTK} `{LLM}
    (use_llm : bool) (content_dict r : loc) (h h' : heap) :
  ProcessorLLM.process_content use_llm content_dict h = (h', Ok r) ->
  exists text,
    processed_text use_llm h' content_dict = VStr text /\
    if is_empty (strip text)
    then deref content_dict h' !! "keywords"%string = Some (VList []) /\
         deref content_dict h' !! "themes"%string = Some (VList [])
    else exists sentences,
           sent_tokenize text = Some sentences /\
           holds_rankings text sentences h' content_dict.
Proof.
  unfold ProcessorLLM.process_content. intros Hrun.
  apply bind_ok in Hrun as ([d tv] & h1 & Hfirst & Hrun).
  assert (Hd : d = content_dict /\ tv = processed_text use_llm h1 content_dict).
  { destruct use_llm.
    - apply bind_ok in Hfirst as (sector & h2 & _ & Hfirst).
      apply bind_ok in Hfirst as (d' & h3 & Hclean & Hfirst).
      apply clean_content_same in Hclean. subst d'.
      apply bind_ok in Hfirst as (dflt & h4 & Hdflt & Hfirst).
      unfold get in Hdflt. injection Hdflt as <- <-.
      apply bind_ok in Hfirst as (t & h5 & Ht & Hfirst).
      unfold get in Ht. injection Ht as <- <-.
      apply ret_ok in Hfirst as [-> Hfirst]. injection Hfirst as -> ->. now split.
    - apply bind_ok in Hfirst as (t & h2 & Ht & Hfirst).
      unfold get in Ht. injection Ht as <- <-.
      apply ret_ok in Hfirst as [-> Hfirst]. injection Hfirst as -> ->. now split. }
  destruct Hd as [-> ->]. clear Hfirst. cbv zeta in Hrun. simpl fst in Hrun. simpl snd in Hrun.
  apply bind_ok in Hrun as (t & h2 & Ht & Hrun). apply as_str_ok in Ht as [-> Ht].
  exists t.
  destruct (is_empty (strip t)).
  - apply bind_ok in Hrun as (u & h3 & Hu & Hrun). apply update_ok in Hu. subst h3.
    apply ret_ok in Hrun as [-> _].
    refine (conj _ (conj _ _)).
    + rewrite <- Ht. unfold processed_text. cbv zeta.
      destruct use_llm; kept_field; reflexivity.
    + stored_field.
    + stored_field.
  - apply bind_ok in Hrun as (sentences & h3 & Hs & Hrun).
    apply run_sent_tokenize_ok in Hs as [-> Hs].
    apply bind_ok in Hrun as (base & h4 & Hb & Hrun). apply get_ok in Hb. subst h4.
    apply bind_ok in Hrun as (u & h5 & Hu & Hrun). apply update_ok in Hu. subst h5.
    apply bind_ok in Hrun as (url & h6 & Hurl & Hrun). apply get_ok in Hurl. subst h6.
    apply ret_ok in Hrun as [-> _].
    split.
    + rewrite <- Ht. unfold processed_text. cbv zeta.
      destruct use_llm; kept_field; reflexivity.
    + exists sentences. refine (conj Hs (conj _ _)); stored_field.
Qed.

(** [C9] A processed record holds at most 10 keywords and at most 5
    themes, and they are rankings of its own text.  The keywords are
    the ranking of the token stream of the text cut at 10, the themes
    the ranking of the bigram stream of its sentences cut at 5: in each
    list an entry is more frequent in its stream than the next, or as
    frequent and first seen earlier, and the same holds against every
    element of the stream that was left out.  The text is the record's
    content (in processor_llm.py with the cleaner on, what the cleaner
    stored as [cleaned_content]); for a blank text processor_llm.py
    stores two empty lists. *)
Theorem C9_keywords_and_themes_ranked `{PyUnicode} `{NLTK} `{LLM} :
  (forall text,
     length (top_keywords text) <= 10 /\
     ranked (filtered_words text) 10 (top_keywords text)) /\
  (forall sentences,
     length (top_themes sentences) <= 5 /\
     ranked (themes sentences) 5 (top_themes sentences)) /\
  (forall content_dict r h h',
     Processor.process_content content_dict h = (h', Ok r) ->
     exists text sentences,
       deref content_dict h' !! "content"%string = Some (VStr text) /\
       sent_tokenize text = Some sentences /\
       holds_rankings text sentences h' content_dict) /\
  (forall use_llm content_dict r h h',
     ProcessorLLM.process_content use_llm content_dict h = (h', Ok r) ->
     exists text,
       processed_text use_llm h' content_dict = VStr text /\
       if is_empty (strip text)
       then deref content_dict h' !! "keywords"%string = Some (VList []) /\
            deref content_dict h' !! "themes"%string = Some (VList [])
       else exists sentences,
              sent_tokenize text = Some sentences /\
              holds_rankings text sentences h' content_dict).
Proof.
  refine (conj _ (conj _ (conj _ _))).
  - intros text. split; [apply top_keywords_length|].
    apply (most_common_ranked (filtered_words text) 10).
  - intros sentences. split; [apply top_themes_length|].
    apply (most_common_ranked (themes sentences) 5).
  - intros content_dict r h h'. apply process_content_holds.
  - intros use_llm content_dict r h h'. apply process_content_llm_holds.
Qed.

Lemma C9_keywords_and_themes_ranked_witness :
  let content := py "The dog saw the cat. The dog sat on the electric mat." in
  let h := record [("content", VStr content);
                   ("category", VStr (py "general")); ("url", VStr (py "u0"))]%string in
  let h1 := fst (@Processor.process_content ascii_unicode demo_nltk 0 h) in
  let h2 := fst (@ProcessorLLM.process_content ascii_unicode demo_nltk offline_llm true 0 h) in
  (@top_keywords ascii_unicode demo_nltk content
   = List.map py ["dog"; "saw"; "cat"; "sat"; "electric"; "mat"]%string) /\
  (exists text sentences,
     deref 0 h1 !! "content"%string = Some (VStr text) /\
     @sent_tokenize demo_nltk text = Some sentences /\
     @holds_rankings ascii_unicode demo_nltk text sentences h1 0) /\
  (exists text,
     processed_text true h2 0 = VStr text /\
     if is_empty (strip text)
     then deref 0 h2 !! "keywords"%string = Some (VList []) /\
          deref 0 h2 !! "themes"%string = Some (VList [])
     else exists sentences,
            @sent_tokenize demo_nltk text = Some sentences /\
            @holds_rankings ascii_unicode demo_nltk text sentences h2 0).
Proof.
  intros content h h1 h2. refine (conj _ (conj _ _)).
  - vm_compute. reflexivity.
  - apply (proj1 (proj2 (proj2 (@C9_keywords_and_themes_ranked
                                  ascii_unicode demo_nltk offline_llm))) 0 0 h).
    vm_compute. reflexivity.
  - apply (proj2 (proj2 (proj2 (@C9_keywords_and_themes_ranked
                                  ascii_unicode demo_nltk offline_llm))) true 0 0 h).
    vm_compute. reflexivity.
Defined.

(** ** The Noise Filter *)

(** A pattern without a match leaves the text as it is. *)
Lemma re_sub_go_no_match (w : char -> bool) (r : regex) (repl : str)
    (prev : option char) (s : str) :
  re_search_go w r prev s = false -> re_sub_go w r repl 0 prev s = s.
Proof.
  revert prev. induction s as [|c s IH]; intros prev; simpl.
  - destruct (match_at w r prev []); [discriminate | reflexivity].
  - destruct (match_at w r prev (c :: s)); [discriminate|].
    intros Hs. now rewrite IH.
Qed.

Lemma re_sub_no_match `{PyUnicode} (r : regex) (repl s : str) :
  re_search r s = false -> re_sub r repl s = s.
Proof. apply re_sub_go_no_match. Qed.

Lemma fold_re_sub_no_match `{PyUnicode} (patterns : list regex) (content : str) :
  Forall (fun pattern => re_search pattern content = false) patterns ->
  fold_left (fun content pattern => re_sub pattern [] content) patterns content = content.
Proof.
  induction patterns as [|p patterns IH]; simpl; intros Hall; [reflexivity|].
  apply Forall_cons_inv in Hall as [Hp Hall].
  rewrite (re_sub_no_match _ _ _ Hp). now apply IH.
Qed.

Lemma join_cons_head (sep : str) (c : char) (w : str) (ws : list str) :
  join sep ((c :: w) :: ws) = c :: join sep (w :: ws).
Proof. simpl. now destruct ws. Qed.

Lemma nonspace_app (a b : str) : nonspace (a ++ b) = nonspace a ++ nonspace b.
Proof. apply List.filter_app. Qed.

(** Collapsing white space keeps every other character, in order. *)
Lemma nonspace_join_split (s : str) : nonspace (join (py " ") (split s)) = nonspace s.
Proof.
  induction s as [|c s IH]; [reflexivity|].
  simpl split. destruct (isspace c) eqn:Ec.
  - rewrite IH. unfold nonspace. simpl. now rewrite Ec.
  - assert (Hc : nonspace (c :: s) = c :: nonspace s).
    { unfold nonspace. simpl. now rewrite Ec. }
    rewrite Hc. destruct s as [|d s'].
    + simpl. unfold nonspace. simpl. now rewrite Ec.
    + destruct (isspace d) eqn:Ed.
      * rewrite <- IH.
        destruct (split (d :: s')) as [|w ws] eqn:Es.
        -- simpl. unfold nonspace. simpl. now rewrite Ec.
        -- change (join (py " ") ([c] :: w :: ws))
             with ([c] ++ py " " ++ join (py " ") (w :: ws)).
           rewrite !nonspace_app. unfold nonspace at 1 2. simpl. now rewrite Ec.
      * rewrite <- IH. destruct (split (d :: s')) as [|w ws] eqn:Es.
        -- simpl. unfold nonspace. simpl. now rewrite Ec.
        -- rewrite join_cons_head. unfold nonspace. simpl. now rewrite Ec.
Qed.

(** [C10] On a text in which neither a boilerplate pattern nor the URL,
    e-mail or telephone pattern has a match, the Noise Filter changes
    white space only: its result is the text with its runs of white
    space collapsed, and the characters that are not white space are
    the same, in the same order. *)
Theorem C10_noise_filter_changes_whitespace_only `{PyUnicode} (content : str) :
  Forall (fun pattern => re_search pattern content = false) irrelevant_patterns ->
  re_search url_pattern content = false ->
  re_search email_pattern content = false ->
  re_search phone_pattern content = false ->
  _remove_irrelevant_content content = join (py " ") (split content) /\
  nonspace (_remove_irrelevant_content content) = nonspace content.
Proof.
  intros Hboiler Hurl Hemail Hphone.
  assert (Hrun : _remove_irrelevant_content content = join (py " ") (split content)).
  { unfold _remove_irrelevant_content. cbv zeta.
    rewrite (fold_re_sub_no_match _ _ Hboiler).
    rewrite (re_sub_no_match _ _ _ Hurl).
    rewrite (re_sub_no_match _ _ _ Hemail).
    rewrite (re_sub_no_match _ _ _ Hphone). reflexivity. }
  split; [exact Hrun|]. rewrite Hrun. apply nonspace_join_split.
Qed.

Lemma C10_noise_filter_changes_whitespace_only_witness :
  @_remove_irrelevant_content ascii_unicode (py "  Battery prices   are  falling. ")
    = join (py " ") (split (py "  Battery prices   are  falling. ")) /\
  nonspace (@_remove_irrelevant_content ascii_unicode (py "  Battery prices   are  falling. "))
    = nonspace (py "  Battery prices   are  falling. ").
Proof.
  apply (@C10_noise_filter_changes_whitespace_only ascii_unicode
           (py "  Battery prices   are  falling. ")).
  - unfold irrelevant_patterns. repeat (constructor; [vm_compute; reflexivity|]). constructor.
  - vm_compute. reflexivity.
  - vm_compute. reflexivity.
  - vm_compute. reflexivity.
Defined.

Lemma C10_counterexample :
  let content := py "The menu is good today" in
  @re_search ascii_unicode url_pattern content = false /\
  @re_search ascii_unicode email_pattern content = false /\
  @re_search ascii_unicode (@phone_pattern ascii_unicode) content = false /\
  @_remove_irrelevant_content ascii_unicode content = py "The is good today" /\
  nonspace (@_remove_irrelevant_content ascii_unicode content) <> nonspace content.
Proof.
  vm_compute. repeat split. discriminate.
Qed.

(* ================================================================== *)
(** * Further properties of the code *)
(* ================================================================== *)

(** ** What a match consumes *)

(** If what follows [r] leaves at most the text it is given less [m]
    characters, the whole match leaves at most the text less [m] and the
    least length of [r]. *)
Lemma rmatch_consumes (w : char -> bool) (r : regex) :
  forall (prev : option char) (s : str) (k : option char -> str -> option str)
         (m : nat) (rest : str),
    (forall p' s' rest', k p' s' = Some rest' -> length rest' + m <= length s') ->
    rmatch w r prev s k = Some rest ->
    length rest + m + min_len r <= length s.
Proof.
  induction r as [|p|r1 IH1 r2 IH2|r1 IH1 r2 IH2|r IH|]; intros prev s k m rest Hk Hm.
  - simpl in *. apply Hk in Hm. lia.
  - simpl in *. destruct s as [|c s']; [discriminate|].
    destruct (p c); [|discriminate]. apply Hk in Hm. simpl. lia.
  - simpl in *. apply (IH1 _ _ _ (m + min_len r2)) in Hm; [lia|].
    intros p' s' rest' Hr. apply (IH2 _ _ _ m) in Hr; [lia | exact Hk].
  - simpl in *. destruct (rmatch w r1 prev s k) as [x|] eqn:E1.
    + injection Hm as ->. apply (IH1 _ _ _ m) in E1; [lia | exact Hk].
    + apply (IH2 _ _ _ m) in Hm; [lia | exact Hk].
  - assert (Hstar : forall n prev s rest,
               (fix star (n : nat) (prev : option char) (s : str) {struct n}
                  : option str :=
                  match n with
                  | O => k prev s
                  | S n' =>
                      match rmatch w r prev s
                              (fun p' s' =>
                                 if length s' <? length s then star n' p' s' else None) with
                      | Some x => Some x
                      | None => k prev s
                      end
                  end) n prev s = Some rest ->
               length rest + m <= length s).
    { clear prev s rest Hm. induction n as [|n IHn]; intros prev s rest Hm.
      - apply Hk in Hm. lia.
      - match type of Hm with
        | match ?e with _ => _ end = _ => destruct e as [x|] eqn:E
        end.
        + injection Hm as ->. apply (IH _ _ _ m) in E; [lia|].
          intros p' s' rest' Hr. destruct (length s' <? length s); [|discriminate].
          apply IHn in Hr. lia.
        + apply Hk in Hm. lia. }
    simpl min_len. pose proof (Hstar (S (length s)) prev s rest Hm). lia.
  - simpl in *. destruct (xorb _ _); [|discriminate]. apply Hk in Hm. lia.
Qed.

Lemma match_at_bounds (w : char -> bool) (r : regex) (prev : option char) (s : str) (n : nat) :
  match_at w r prev s = Some n -> min_len r <= n /\ n <= length s.
Proof.
  unfold match_at. destruct (rmatch w r prev s _) as [rest|] eqn:E; [|discriminate].
  intros [= <-]. apply (rmatch_consumes _ _ _ _ _ 0) in E.
  - lia.
  - intros p' s' rest' [= ->]. lia.
Qed.

(** [re.sub] with a replacement no longer than the shortest match does
    not lengthen the text. *)
Lemma re_sub_go_length (w : char -> bool) (r : regex) (repl : str) :
  length repl <= min_len r ->
  forall (s : str) (skip : nat) (prev : option char),
    skip <= length s ->
    length (re_sub_go w r repl skip prev s) + skip <= length s.
Proof.
  intros Hrepl. induction s as [|c s IH]; intros skip prev Hskip; simpl in *.
  - destruct skip; [|lia].
    destruct (match_at w r prev []) as [n|] eqn:E; simpl; [|lia].
    apply match_at_bounds in E. simpl in E. lia.
  - destruct skip as [|k].
    + destruct (match_at w r prev (c :: s)) as [[|n]|] eqn:E.
      * apply match_at_bounds in E. rewrite List.length_app. simpl.
        specialize (IH 0 (Some c)). lia.
      * apply match_at_bounds in E. simpl in E. rewrite List.length_app.
        specialize (IH n (Some c)). lia.
      * simpl. specialize (IH 0 (Some c)). lia.
    + specialize (IH k (Some c)). lia.
Qed.

Lemma re_sub_length `{PyUnicode} (r : regex) (repl s : str) :
  length repl <= min_len r -> length (re_sub r repl s) <= length s.
Proof.
  intros Hrepl. unfold re_sub.
  pose proof (re_sub_go_length re_word r repl Hrepl s 0 None). lia.
Qed.

(** ** White space *)

Lemma startswith_length (p s : str) : startswith p s = true -> length p <= length s.
Proof.
  revert s. induction p as [|x p IH]; intros [|y s]; simpl; try lia; try discriminate.
  intros Hs. apply andb_prop in Hs as [_ Hs]. apply IH in Hs. lia.
Qed.

Lemma replace_go_length (old new : str) :
  length new <= length old ->
  forall (s : str) (skip : nat),
    skip <= length s -> length (replace_go old new skip s) + skip <= length s.
Proof.
  intros Hnew. induction s as [|c s IH]; intros skip Hskip; simpl in *; [lia|].
  destruct skip as [|k].
  - destruct (startswith old (c :: s)) eqn:E.
    + apply startswith_length in E. simpl in E. rewrite List.length_app.
      destruct old as [|o old'].
      * simpl in *. specialize (IH 0). lia.
      * simpl in *. rewrite Nat.sub_0_r. specialize (IH (length old')). lia.
    + simpl. specialize (IH 0). lia.
  - specialize (IH k). lia.
Qed.

Lemma replace_length (old new s : str) :
  length new <= length old -> length (replace old new s) <= length s.
Proof.
  intros Hnew. unfold replace. pose proof (replace_go_length old new Hnew s 0). lia.
Qed.

Lemma join_length_cons (sep w : list N) (ws : list (list N)) :
  length (join sep (w :: ws)) <= length w + length sep + length (join sep ws).
Proof.
  simpl. destruct ws; [simpl; lia|]. rewrite !List.length_app. lia.
Qed.

Lemma split_space (c : N) (s : list N) : isspace c = true -> split (c :: s) = split s.
Proof. intros Hc. simpl. now rewrite Hc. Qed.

Lemma split_last (c : N) : isspace c = false -> split [c] = [[c]].
Proof. intros Hc. simpl. now rewrite Hc. Qed.

Lemma split_before_space (c d : N) (s : list N) :
  isspace c = false -> isspace d = true -> split (c :: d :: s) = [c] :: split (d :: s).
Proof.
  intros Hc Hd. change (split (c :: d :: s))
    with (if isspace c then split (d :: s)
          else if isspace d then [c] :: split (d :: s)
               else match split (d :: s) with
                    | w :: ws => (c :: w) :: ws
                    | [] => [[c]]
                    end).
  now rewrite Hc, Hd.
Qed.

Lemma split_extend (c d : N) (s : list N) :
  isspace c = false -> isspace d = false ->
  split (c :: d :: s) = match split (d :: s) with
                        | w :: ws => (c :: w) :: ws
                        | [] => [[c]]
                        end.
Proof.
  intros Hc Hd. change (split (c :: d :: s))
    with (if isspace c then split (d :: s)
          else if isspace d then [c] :: split (d :: s)
               else match split (d :: s) with
                    | w :: ws => (c :: w) :: ws
                    | [] => [[c]]
                    end).
  now rewrite Hc, Hd.
Qed.

Lemma join_two (sep w w' : list N) (ws : list (list N)) :
  join sep (w :: w' :: ws) = w ++ sep ++ join sep (w' :: ws).
Proof. reflexivity. Qed.

Lemma collapse_length_lead (s : str) :
  length (join (py " ") (split s))
  + (match s with c :: _ => if isspace c then 1 else 0 | [] => 0 end)
  <= length s.
Proof.
  induction s as [|c s IH]; [simpl; lia|].
  destruct (isspace c) eqn:Ec.
  - rewrite (split_space _ _ Ec). change (length (c :: s)) with (S (length s)).
    lia.
  - destruct s as [|d s']; [rewrite (split_last _ Ec); simpl; lia|].
    change (length (c :: d :: s')) with (S (length (d :: s'))).
    destruct (isspace d) eqn:Ed.
    + rewrite (split_before_space _ _ _ Ec Ed).
      pose proof (join_length_cons (py " ") [c] (split (d :: s'))) as Hj.
      change (length (py " ")) with 1 in Hj. change (length [c]) with 1 in Hj. lia.
    + rewrite (split_extend _ _ _ Ec Ed).
      destruct (split (d :: s')) as [|w ws] eqn:Es.
      * change (length (join (py " ") [[c]])) with 1. lia.
      * rewrite join_cons_head.
        change (length (c :: join (py " ") (w :: ws)))
          with (S (length (join (py " ") (w :: ws)))). lia.
Qed.

Lemma collapse_length (s : str) : length (join (py " ") (split s)) <= length s.
Proof. pose proof (collapse_length_lead s). lia. Qed.

Lemma split_word_app (w t : list N) :
  is_word w ->
  match t with [] => True | d :: _ => isspace d = true end ->
  split (w ++ t) = w :: split t.
Proof.
  intros [Hne Hw]. induction w as [|c w IH]; [congruence|]. intros Ht.
  simpl in Hw. apply andb_prop in Hw as [Hc Hw]. apply negb_true_iff in Hc.
  destruct w as [|c' w'].
  - simpl app. destruct t as [|d t'].
    + now rewrite (split_last _ Hc).
    + now rewrite (split_before_space _ _ _ Hc Ht).
  - assert (Hc' : isspace c' = false).
    { simpl in Hw. apply andb_prop in Hw as [Hc' _]. now apply negb_true_iff in Hc'. }
    change ((c :: c' :: w') ++ t) with (c :: c' :: (w' ++ t)).
    rewrite (split_extend _ _ _ Hc Hc').
    change (c' :: w' ++ t) with ((c' :: w') ++ t).
    rewrite IH; [reflexivity | discriminate | exact Hw | exact Ht].
Qed.

(** Splitting what was joined with single spaces gives the words back. *)
Lemma split_join_words (ws : list (list N)) :
  Forall is_word ws -> split (join (py " ") ws) = ws.
Proof.
  induction ws as [|w ws IH]; intros Hall; [reflexivity|].
  apply Forall_cons_inv in Hall as [Hw Hall].
  destruct ws as [|w' ws'].
  - change (join (py " ") [w]) with w. rewrite <- (List.app_nil_r w) at 1.
    now rewrite (split_word_app w [] Hw I).
  - rewrite join_two. rewrite (split_word_app w _ Hw); [|reflexivity].
    change (py " " ++ join (py " ") (w' :: ws')) with (32%N :: join (py " ") (w' :: ws')).
    rewrite split_space by reflexivity. now rewrite IH.
Qed.

(** [split] returns words. *)
Lemma split_words (s : list N) : Forall is_word (split s).
Proof.
  induction s as [|c s IH]; [constructor|].
  destruct (isspace c) eqn:Ec; [now rewrite (split_space _ _ Ec)|].
  assert (Hc : negb (isspace c) = true) by now rewrite Ec.
  destruct s as [|d s'].
  - rewrite (split_last _ Ec). constructor; [|constructor].
    split; [discriminate | simpl; now rewrite Hc].
  - destruct (isspace d) eqn:Ed.
    + rewrite (split_before_space _ _ _ Ec Ed). constructor; [|exact IH].
      split; [discriminate | simpl; now rewrite Hc].
    + rewrite (split_extend _ _ _ Ec Ed).
      destruct (split (d :: s')) as [|w ws]; constructor.
      * split; [discriminate | simpl; now rewrite Hc].
      * constructor.
      * apply Forall_cons_inv in IH as [[_ Hw] _].
        split; [discriminate | simpl; now rewrite Hc, Hw].
      * now apply Forall_cons_inv in IH.
Qed.

Lemma collapse_idempotent (s : list N) :
  join (py " ") (split (join (py " ") (split s))) = join (py " ") (split s).
Proof. now rewrite (split_join_words _ (split_words s)). Qed.

(** ** Deleting matches *)

Lemma re_sub_go_delete_sublist (w : char -> bool) (r : regex) :
  forall (s : list N) (skip : nat) (prev : option char),
    sublist (re_sub_go w r [] skip prev s) s.
Proof.
  induction s as [|c s IH]; intros skip prev; simpl.
  - destruct skip; [|constructor]. destruct (match_at w r prev []); constructor.
  - destruct skip as [|k]; [|apply sublist_cons, IH].
    destruct (match_at w r prev (c :: s)) as [[|n]|]; simpl.
    + apply sublist_skip, IH.
    + apply sublist_cons, IH.
    + apply sublist_skip, IH.
Qed.

Lemma sublist_filter_bool {A} (f : A -> bool) (l1 l2 : list A) :
  sublist l1 l2 -> sublist (List.filter f l1) (List.filter f l2).
Proof.
  induction 1 as [|x l1 l2 _ IH|x l1 l2 _ IH]; simpl.
  - constructor.
  - destruct (f x); [now apply sublist_skip | exact IH].
  - destruct (f x); [now apply sublist_cons | exact IH].
Qed.

Lemma fold_re_sub_delete_sublist `{PyUnicode} (patterns : list regex) (content : list N) :
  sublist (fold_left (fun content pattern => re_sub pattern [] content) patterns content)
          content.
Proof.
  revert content. induction patterns as [|p patterns IH]; intros content; simpl.
  - reflexivity.
  - etransitivity; [apply IH|]. apply re_sub_go_delete_sublist.
Qed.

Lemma fold_re_sub_delete_length `{PyUnicode} (patterns : list regex) (content : list N) :
  length (fold_left (fun content pattern => re_sub pattern [] content) patterns content)
  <= length content.
Proof. apply sublist_length, fold_re_sub_delete_sublist. Qed.

(** ** The Text Normalizer and the Noise Filter never add text *)

(** [_basic_text_cleaning] never returns a longer text than it was
    given: collapsing white space, the replacements and the three
    punctuation patterns each keep or shorten it. *)
Theorem basic_text_cleaning_never_longer `{PyUnicode} (content : str) :
  length (_basic_text_cleaning content) <= length content.
Proof.
  unfold _basic_text_cleaning. cbv zeta.
  repeat (etransitivity; [apply re_sub_length; vm_compute; lia|]).
  etransitivity; [apply replace_length; vm_compute; lia|].
  etransitivity; [apply replace_length; vm_compute; lia|].
  etransitivity; [apply replace_length; vm_compute; lia|].
  apply collapse_length.
Qed.

(** [_remove_irrelevant_content] only deletes: the characters of its
    result that are not white space are characters of the text, in their
    order, and the result is no longer than the text. *)
Theorem remove_irrelevant_content_only_deletes `{PyUnicode} (content : str) :
  sublist (nonspace (_remove_irrelevant_content content)) (nonspace content) /\
  length (_remove_irrelevant_content content) <= length content.
Proof.
  unfold _remove_irrelevant_content. cbv zeta.
  set (c1 := fold_left _ irrelevant_patterns content).
  assert (H1 : sublist c1 content) by apply fold_re_sub_delete_sublist.
  assert (H4 : sublist (re_sub phone_pattern [] (re_sub email_pattern []
                          (re_sub url_pattern [] c1))) content).
  { etransitivity; [apply re_sub_go_delete_sublist|].
    etransitivity; [apply re_sub_go_delete_sublist|].
    etransitivity; [apply re_sub_go_delete_sublist|]. exact H1. }
  split.
  - rewrite nonspace_join_split. now apply sublist_filter_bool.
  - etransitivity; [apply collapse_length|]. now apply sublist_length.
Qed.

(** The result of [_remove_irrelevant_content] is in collapsed form:
    words free of white space with single spaces between them, so that
    collapsing it again changes nothing. *)
Theorem remove_irrelevant_content_collapsed `{PyUnicode} (content : str) :
  let out := _remove_irrelevant_content content in
  out = join (py " ") (split out) /\ Forall is_word (split out).
Proof.
  cbv zeta. split; [|apply split_words].
  unfold _remove_irrelevant_content. cbv zeta. symmetry. apply collapse_idempotent.
Qed.

(** ** The Deduplicator *)

Lemma unique_go_sublist `{PyUnicode} (sentences seen : list str) :
  sublist (unique_go seen sentences) sentences.
Proof.
  revert seen. induction sentences as [|x l IH]; intros seen; simpl; [constructor|].
  destruct (negb (mem (strip (str_lower x)) seen) && (10 <? length (strip (str_lower x))))%bool.
  - apply sublist_skip, IH.
  - apply sublist_cons, IH.
Qed.

Lemma unique_go_kept `{PyUnicode} (sentences seen : list str) (x : str) :
  In x (unique_go seen sentences) ->
  10 < length (normalized x) /\ ~ In (normalized x) seen.
Proof.
  revert seen. induction sentences as [|y l IH]; intros seen; simpl; [easy|].
  destruct (negb (mem (strip (str_lower y)) seen) && (10 <? length (strip (str_lower y))))%bool
    eqn:E.
  - apply andb_prop in E as [Hseen Hlen]. apply Nat.ltb_lt in Hlen.
    apply negb_true_iff in Hseen.
    intros [<- | Hin].
    + split; [exact Hlen|]. intros Hm. apply mem_In in Hm. unfold normalized in Hm. congruence.
    + apply IH in Hin as [Hl Hn]. split; [exact Hl|]. intros Hm. apply Hn. now right.
  - apply IH.
Qed.

Lemma unique_go_NoDup `{PyUnicode} (sentences seen : list str) :
  List.NoDup (List.map normalized (unique_go seen sentences)).
Proof.
  revert seen. induction sentences as [|y l IH]; intros seen; simpl; [constructor|].
  destruct (negb (mem (strip (str_lower y)) seen) && (10 <? length (strip (str_lower y))))%bool.
  - simpl. constructor; [|apply IH].
    intros Hin. apply List.in_map_iff in Hin as (x & Hx & Hin).
    apply unique_go_kept in Hin as [_ Hn]. apply Hn. rewrite Hx. now left.
  - apply IH.
Qed.

Lemma unique_go_complete `{PyUnicode} (sentences seen : list str) (x : str) :
  In x sentences -> 10 < length (normalized x) ->
  In (normalized x) seen \/ In (normalized x) (List.map normalized (unique_go seen sentences)).
Proof.
  revert seen. induction sentences as [|y l IH]; intros seen; simpl; [easy|].
  intros [-> | Hin] Hlen.
  - destruct (mem (strip (str_lower x)) seen) eqn:Em.
    + left. now apply mem_In.
    + apply Nat.ltb_lt in Hlen. unfold normalized in Hlen. rewrite Hlen. simpl.
      right. now left.
  - destruct (negb (mem (strip (str_lower y)) seen) && (10 <? length (strip (str_lower y))))%bool.
    + destruct (IH (strip (str_lower y) :: seen) Hin Hlen) as [[Hy | Hs] | Hk].
      * right. simpl. left. exact Hy.
      * now left.
      * right. simpl. now right.
    + now apply IH.
Qed.

Lemma unique_go_app `{PyUnicode} (pre post : list str) :
  forall seen,
    unique_go seen (pre ++ post) =
    unique_go seen pre
      ++ unique_go (rev (List.map normalized (unique_go seen pre)) ++ seen) post.
Proof.
  induction pre as [|y l IH]; intros seen; [reflexivity|].
  cbn [app unique_go]. cbv zeta. fold (normalized y).
  destruct (negb (mem (normalized y) seen) && (10 <? length (normalized y)))%bool.
  - rewrite IH. cbn [app List.map rev]. rewrite <- List.app_assoc. reflexivity.
  - apply IH.
Qed.

(** A form is among those of the kept sentences exactly when it is
    the form, longer than 10, of some sentence. *)
Lemma unique_go_forms `{PyUnicode} (sentences : list str) (form : str) :
  10 < length form ->
  (In form (List.map normalized (unique_go [] sentences))
   <-> In form (List.map normalized sentences)).
Proof.
  intros Hlen. split.
  - intros Hin. apply List.in_map_iff in Hin as (x & <- & Hx).
    apply List.in_map. revert Hx. generalize (unique_go_sublist sentences []).
    generalize (unique_go [] sentences). intros kept Hsub Hx.
    induction Hsub as [|a k l Hsub IHs|a k l Hsub IHs].
    + destruct Hx.
    + destruct Hx as [-> | Hx]; [now left | right; now apply IHs].
    + right. now apply IHs.
  - intros Hin. apply List.in_map_iff in Hin as (x & <- & Hx).
    destruct (unique_go_complete sentences [] x Hx Hlen) as [[] | Hk]. exact Hk.
Qed.

(** The sentences the Deduplicator of [_final_polish] keeps are
    sentences of the text in their order; each is longer than 10
    characters once lower-cased and stripped; no two of them have the same
    lower-cased, stripped form; and every sentence of the text that is
    long enough has its form among them.  Of the sentences with one
    form it is the first that is kept: wherever the text is cut, the
    sentences kept before the cut are those the part before it gives
    alone, and the sentence at the cut is kept exactly when its form is
    longer than 10 and is the form of no sentence before it. *)
Theorem final_polish_keeps_first_of_each `{PyUnicode} (sentences : list str) :
  let kept := unique_go [] sentences in
  sublist kept sentences /\
  Forall (fun x => 10 < length (normalized x)) kept /\
  List.NoDup (List.map normalized kept) /\
  (forall x, In x sentences -> 10 < length (normalized x) ->
             In (normalized x) (List.map normalized kept)) /\
  (forall pre x post,
     sentences = pre ++ x :: post ->
     exists kept_post,
       sublist kept_post post /\
       kept = unique_go [] pre
              ++ (if ((10 <? length (normalized x))
                      && negb (mem (normalized x) (List.map normalized pre)))%bool
                  then [x] else [])
              ++ kept_post).
Proof.
  cbv zeta.
  refine (conj (unique_go_sublist _ _) (conj _ (conj (unique_go_NoDup _ _) (conj _ _)))).
  - apply List.Forall_forall. intros x Hx. now apply unique_go_kept in Hx.
  - intros x Hx Hlen. destruct (unique_go_complete sentences [] x Hx Hlen) as [[] | Hk].
    exact Hk.
  - intros pre x post ->. rewrite unique_go_app, List.app_nil_r.
    cbn [unique_go]. cbv zeta. fold (normalized x).
    set (seen := rev (List.map normalized (unique_go [] pre))).
    assert (Hmem : 10 < length (normalized x) ->
                   mem (normalized x) seen = mem (normalized x) (List.map normalized pre)).
    { intros Hlen.
      destruct (mem (normalized x) seen) eqn:E1,
               (mem (normalized x) (List.map normalized pre)) eqn:E2; try reflexivity.
      - apply mem_In in E1. unfold seen in E1. apply List.in_rev in E1.
        apply (unique_go_forms pre _ Hlen), mem_In in E1. congruence.
      - apply mem_In, (unique_go_forms pre _ Hlen), List.in_rev, mem_In in E2.
        fold seen in E2. congruence. }
    destruct (10 <? length (normalized x)) eqn:Elen.
    + apply Nat.ltb_lt in Elen. rewrite (Hmem Elen). rewrite andb_true_r. cbn [andb].
      destruct (mem (normalized x) (List.map normalized pre)); cbn [negb].
      * eexists. split; [apply unique_go_sublist | reflexivity].
      * eexists. split; [apply unique_go_sublist | reflexivity].
    + rewrite andb_false_r. cbn [andb].
      eexists. split; [apply unique_go_sublist | reflexivity].
Qed.

Lemma startswith_app (p s : list N) : startswith p (p ++ s) = true.
Proof.
  induction p as [|x p IH]; simpl; [reflexivity|].
  unfold char_eqb. now rewrite N.eqb_refl.
Qed.

Lemma endswith_app (p s : list N) : endswith p (s ++ p) = true.
Proof. unfold endswith. rewrite List.rev_app_distr. apply startswith_app. Qed.

Lemma ensure_period_ends (s : list N) :
  ensure_period s = [] \/ endswith (py ".") (ensure_period s) = true.
Proof.
  unfold ensure_period. destruct s as [|c s]; [now left|]. right.
  simpl is_empty. simpl negb. rewrite andb_true_l.
  destruct (endswith (py ".") (c :: s)) eqn:E; simpl;
    [exact E | apply (endswith_app (py ".") (c :: s))].
Qed.

(** [_final_polish] returns the empty string or a text that ends in a
    full stop, and the empty string for the empty text. *)
Theorem final_polish_ends_in_period `{PyUnicode} `{NLTK} (content : str) :
  _final_polish [] = [] /\
  (_final_polish content = [] \/ endswith (py ".") (_final_polish content) = true).
Proof.
  split; [reflexivity|]. unfold _final_polish.
  destruct (is_empty content); [now left|]. apply ensure_period_ends.
Qed.

(** ** The Sector Context Filter keeps a text a text *)

(** On a text that is not empty, [_sector_context_filter] returns the
    text as it is or a text that ends in a full stop; never the empty
    string. *)
Theorem sector_context_filter_never_empties `{PyUnicode} `{NLTK} (content title : str) :
  content <> [] ->
  _sector_context_filter content title <> [] /\
  (_sector_context_filter content title = content \/
   endswith (py ".") (_sector_context_filter content title) = true).
Proof.
  intros Hne. unfold _sector_context_filter.
  destruct content as [|c content']; [congruence|]. simpl is_empty. cbv iota.
  set (content := c :: content') in *.
  destruct (max_key _) as [[best score]|]; [|split; [exact Hne | now left]].
  destruct (negb (is_empty best) && (0 <? score))%bool; [|split; [exact Hne | now left]].
  destruct (sent_tokenize content) as [sentences|]; [|split; [exact Hne | now left]].
  destruct (List.filter _ sentences) as [|s1 rest]; [split; [exact Hne | now left]|].
  destruct (endswith (py ".") (join (py ". ") (s1 :: rest))) eqn:E.
  - split; [|now right]. intros Hj. rewrite Hj in E. discriminate E.
  - split.
    + intros Hj. apply List.app_eq_nil in Hj as [_ Hj]. discriminate Hj.
    + right. apply endswith_app.
Qed.

Lemma sector_context_filter_never_empties_witness :
  @_sector_context_filter ascii_unicode demo_nltk
    (py "Electric cars are green. The sky is blue today.") [] <> [] /\
  (@_sector_context_filter ascii_unicode demo_nltk
     (py "Electric cars are green. The sky is blue today.") []
   = py "Electric cars are green. The sky is blue today." \/
   endswith (py ".")
     (@_sector_context_filter ascii_unicode demo_nltk
        (py "Electric cars are green. The sky is blue today.") []) = true).
Proof.
  apply (@sector_context_filter_never_empties ascii_unicode demo_nltk
           (py "Electric cars are green. The sky is blue today.") []).
  vm_compute. discriminate.
Defined.

(** ** Records: what an update touches *)

Lemma update_dict_lookup_notin (kvs : list (string * pyval)) (d : gmap string pyval)
    (key : string) :
  ~ In key (List.map fst kvs) -> update_dict kvs d !! key = d !! key.
Proof.
  unfold update_dict. revert d. induction kvs as [|[k v] kvs IH]; intros d Hn; simpl.
  - reflexivity.
  - rewrite IH by (intros Hin; apply Hn; now right).
    apply lookup_insert_ne. intros ->. apply Hn. now left.
Qed.

Lemma update_dict_lookup_in (kvs : list (string * pyval)) (d : gmap string pyval)
    (key : string) (v : pyval) :
  List.NoDup (List.map fst kvs) -> In (key, v) kvs -> update_dict kvs d !! key = Some v.
Proof.
  unfold update_dict. revert d. induction kvs as [|[k w] kvs IH]; intros d Hnd Hin; simpl.
  - destruct Hin.
  - simpl in Hnd. apply List.NoDup_cons_iff in Hnd as [Hk Hnd].
    destruct Hin as [[= -> ->] | Hin].
    + change (fold_left _ kvs (<[key:=v]> d)) with (update_dict kvs (<[key:=v]> d)).
      rewrite update_dict_lookup_notin by exact Hk. apply lookup_insert_eq.
    + now apply IH.
Qed.

Lemma deref_update (h : gmap nat (gmap string pyval)) (l l' : nat)
    (kvs : list (string * pyval)) :
  deref l' (<[l := update_dict kvs (deref l h)]> h) =
  if decide (l = l') then update_dict kvs (deref l h) else deref l' h.
Proof.
  unfold deref. rewrite lookup_insert. repeat case_decide; try reflexivity; congruence.
Qed.

(** ** The Sector Scorer: failures, frame, repetition *)



Lemma categorize_content_run `{PyUnicode} (h : heap) (content_dict : loc)
    (content title category : str) :
  deref content_dict h !! "content"%string = Some (VStr content) ->
  default (VStr []) (deref content_dict h !! "title"%string) = VStr title ->
  choose_category (sector_scores (str_lower content ++ py " " ++ str_lower title))
    = Ok category ->
  categorize_content content_dict h =
    (<[content_dict := <["category"%string := VStr category]> (deref content_dict h)]> h,
     Ok content_dict).
Proof.
  intros Hc Ht Hch.
  unfold categorize_content, bind, getitem, get, as_str, setitem, update, ret.
  rewrite Hc. cbv beta iota zeta. rewrite Ht. cbv beta iota zeta.
  rewrite Hch. reflexivity.
Qed.

(** A run of [categorize_content] that returns has written the
    [category] of its record and nothing else, in no other record; run
    again on the result it changes nothing. *)
Theorem categorize_content_frame_and_repeat `{PyUnicode}
    (h h' : heap) (content_dict r : loc) :
  categorize_content content_dict h = (h', Ok r) ->
  r = content_dict /\
  (forall l, l <> content_dict -> h' !! l = h !! l) /\
  (forall key, key <> "category"%string ->
               deref content_dict h' !! key = deref content_dict h !! key) /\
  categorize_content content_dict h' = (h', Ok content_dict).
Proof.
  intros Hrun.
  destruct (categorize_content_ok _ _ _ _ Hrun)
    as (content & title & category & Hc & Ht & Hch & -> & ->).
  refine (conj eq_refl (conj _ (conj _ _))).
  - intros l Hl. now apply lookup_insert_ne.
  - intros key Hk. rewrite deref_insert. now apply lookup_insert_ne.
  - set (d' := <["category"%string := VStr category]> (deref content_dict h)).
    assert (Hd' : deref content_dict (<[content_dict := d']> h) = d') by apply deref_insert.
    assert (Hc' : d' !! "content"%string = Some (VStr content)).
    { unfold d'. rewrite lookup_insert_ne by discriminate. exact Hc. }
    assert (Ht' : default (VStr []) (d' !! "title"%string) = VStr title).
    { unfold d'. rewrite lookup_insert_ne by discriminate. exact Ht. }
    rewrite (categorize_content_run _ _ content title category); rewrite ?Hd'; try assumption.
    f_equal. unfold d'. now rewrite !insert_insert_eq.
Qed.

Lemma categorize_content_frame_and_repeat_witness :
  let h := record [("content", VStr (py "A startup story"))]%string in
  let h' := fst (@categorize_content ascii_unicode 0 h) in
  0 = 0 /\
  (forall l, l <> 0 -> h' !! l = h !! l) /\
  (forall key, key <> "category"%string -> deref 0 h' !! key = deref 0 h !! key) /\
  @categorize_content ascii_unicode 0 h' = (h', Ok 0).
Proof.
  apply (@categorize_content_frame_and_repeat ascii_unicode
           (record [("content", VStr (py "A startup story"))]%string) _ 0 0).
  vm_compute. reflexivity.
Defined.

(** ** processor.py: when [process_content] returns, and what it writes *)

Lemma process_content_run `{PyUnicode} `{NLTK} (h : heap) (content_dict : loc)
    (text : str) (sentences : list str) (base_category url : pyval) :
  deref content_dict h !! "content"%string = Some (VStr text) ->
  sent_tokenize text = Some sentences ->
  deref content_dict h !! "category"%string = Some base_category ->
  deref content_dict h !! "url"%string = Some url ->
  Processor.process_content content_dict h =
    (<[content_dict := update_dict (processed_fields text sentences base_category)
                         (deref content_dict h)]> h,
     Ok content_dict).
Proof.
  intros Hc Hs Hb Hu.
  unfold Processor.process_content, bind, getitem, as_str, run_sent_tokenize, update, ret.
  rewrite Hc. cbv beta iota zeta. rewrite Hs. cbv beta iota zeta.
  rewrite Hb. cbv beta iota zeta.
  rewrite deref_insert.
  rewrite update_dict_lookup_notin by (simpl; intuition discriminate).
  rewrite Hu. reflexivity.
Qed.

Lemma process_content_ok `{PyUnicode} `{NLTK} (h h' : heap) (content_dict r : loc) :
  Processor.process_content content_dict h = (h', Ok r) ->
  exists text sentences base_category url,
    deref content_dict h !! "content"%string = Some (VStr text) /\
    sent_tokenize text = Some sentences /\
    deref content_dict h !! "category"%string = Some base_category /\
    deref content_dict h !! "url"%string = Some url /\
    h' = <[content_dict := update_dict (processed_fields text sentences base_category)
                             (deref content_dict h)]> h /\
    r = content_dict.
Proof.
  unfold Processor.process_content. intros Hrun.
  apply bind_ok in Hrun as (v & h1 & Hv & Hrun). apply getitem_ok in Hv as [-> Hv].
  apply bind_ok in Hrun as (text & h2 & Ht & Hrun). apply as_str_ok in Ht as [-> ->].
  apply bind_ok in Hrun as (sentences & h3 & Hs & Hrun).
  apply run_sent_tokenize_ok in Hs as [-> Hs]. cbv zeta in Hrun.
  apply bind_ok in Hrun as (base & h4 & Hb & Hrun). apply getitem_ok in Hb as [-> Hb].
  apply bind_ok in Hrun as (u & h5 & Hu & Hrun). apply update_ok in Hu.
  apply bind_ok in Hrun as (url & h6 & Hurl & Hrun). apply getitem_ok in Hurl as [-> Hurl].
  apply ret_ok in Hrun as [-> ->].
  exists text, sentences, base, url.
  refine (conj Hv (conj Hs (conj Hb (conj _ (conj Hu eq_refl))))).
  rewrite Hu, deref_insert in Hurl.
  rewrite update_dict_lookup_notin in Hurl by (simpl; intuition discriminate). exact Hurl.
Qed.

(** processor.py's [process_content] returns exactly for the records
    that have a string [content] the sentence splitter accepts, a
    [category] and a [url]; a [title] is not needed. *)
Theorem process_content_returns_iff `{PyUnicode} `{NLTK} (h : heap) (content_dict : loc) :
  (exists h' r, Processor.process_content content_dict h = (h', Ok r)) <->
  (exists text sentences,
     deref content_dict h !! "content"%string = Some (VStr text) /\
     sent_tokenize text = Some sentences /\
     is_Some (deref content_dict h !! "category"%string) /\
     is_Some (deref content_dict h !! "url"%string)).
Proof.
  split.
  - intros (h' & r & Hrun).
    destruct (process_content_ok _ _ _ _ Hrun)
      as (text & sentences & base & url & Hc & Hs & Hb & Hu & _).
    exists text, sentences. rewrite Hb, Hu. eauto.
  - intros (text & sentences & Hc & Hs & [base Hb] & [url Hu]).
    eexists _, _. now apply (process_content_run _ _ text sentences base url).
Qed.

Lemma sentiment_of_label (positive_words negative_words words : list str) :
  In (sentiment_of positive_words negative_words words) sentiments.
Proof.
  unfold sentiment_of, sentiments. cbv zeta.
  destruct (_ <? _); [simpl; auto|]. destruct (_ <? _); simpl; auto.
Qed.

(** A run of processor.py's [process_content] that returns has written
    [keywords], [themes], [sentiment] and [category] of its record and
    nothing else, in no other record; the sentiment is one of [positive],
    [negative], [neutral], and the category is the refinement, by the
    stored keywords, of the category the record had.  What it has
    written comes from the content of the record: the keywords are the
    ranking of its tokens, the themes the ranking of the bigrams of its
    sentences, the sentiment that of its tokens. *)
Theorem process_content_writes_four_fields `{PyUnicode} `{NLTK}
    (h h' : heap) (content_dict r : loc) :
  Processor.process_content content_dict h = (h', Ok r) ->
  (forall l, l <> content_dict -> h' !! l = h !! l) /\
  (forall key, ~ In key ["keywords"; "themes"; "sentiment"; "category"]%string ->
               deref content_dict h' !! key = deref content_dict h !! key) /\
  (exists sentiment,
     deref content_dict h' !! "sentiment"%string = Some (VStr sentiment) /\
     In sentiment sentiments) /\
  (exists base_category keywords,
     deref content_dict h !! "category"%string = Some base_category /\
     deref content_dict h' !! "keywords"%string = Some (VList keywords) /\
     deref content_dict h' !! "category"%string
       = Some (Processor._enhance_category base_category keywords)) /\
  (exists text sentences,
     deref content_dict h !! "content"%string = Some (VStr text) /\
     sent_tokenize text = Some sentences /\
     deref content_dict h' !! "keywords"%string = Some (VList (top_keywords text)) /\
     deref content_dict h' !! "themes"%string = Some (VList (top_themes sentences)) /\
     deref content_dict h' !! "sentiment"%string
       = Some (VStr (sentiment_of Processor.positive_words Processor.negative_words
                       (filtered_words text)))).
Proof.
  intros Hrun.
  destruct (process_content_ok _ _ _ _ Hrun)
    as (text & sentences & base & url & Hc & Hs & Hb & Hu & -> & ->).
  assert (Hnd : List.NoDup (List.map fst (processed_fields text sentences base))).
  { simpl. repeat (constructor; [simpl; intuition discriminate|]). constructor. }
  refine (conj _ (conj _ (conj _ (conj _ _)))).
  5:{ exists text, sentences. refine (conj Hc (conj Hs (conj _ (conj _ _))));
        rewrite deref_insert; (apply update_dict_lookup_in; [exact Hnd | simpl; auto]). }
  - intros l Hl. now apply lookup_insert_ne.
  - intros key Hk. rewrite deref_insert. now apply update_dict_lookup_notin.
  - eexists. split; [|apply sentiment_of_label].
    rewrite deref_insert. apply update_dict_lookup_in; [exact Hnd|]. simpl. auto.
  - exists base, (top_keywords text). split; [exact Hb|]. split.
    + rewrite deref_insert. apply update_dict_lookup_in; [exact Hnd|]. simpl. auto.
    + rewrite deref_insert. apply update_dict_lookup_in; [exact Hnd|]. simpl. auto 10.
Qed.

Lemma process_content_writes_four_fields_witness :
  let h := record [("content", VStr (py "The cat sat on the mat. The cat sat on the electric mat."));
                   ("category", VStr (py "general")); ("url", VStr (py "u0"))]%string in
  let h' := fst (@Processor.process_content ascii_unicode demo_nltk 0 h) in
  (forall l, l <> 0 -> h' !! l = h !! l) /\
  (forall key, ~ In key ["keywords"; "themes"; "sentiment"; "category"]%string ->
               deref 0 h' !! key = deref 0 h !! key) /\
  (exists sentiment,
     deref 0 h' !! "sentiment"%string = Some (VStr sentiment) /\ In sentiment sentiments) /\
  (exists base_category keywords,
     deref 0 h !! "category"%string = Some base_category /\
     deref 0 h' !! "keywords"%string = Some (VList keywords) /\
     deref 0 h' !! "category"%string
       = Some (@Processor._enhance_category ascii_unicode base_category keywords)) /\
  (exists text sentences,
     deref 0 h !! "content"%string = Some (VStr text) /\
     @sent_tokenize demo_nltk text = Some sentences /\
     deref 0 h' !! "keywords"%string
       = Some (VList (@top_keywords ascii_unicode demo_nltk text)) /\
     deref 0 h' !! "themes"%string
       = Some (VList (@top_themes ascii_unicode demo_nltk sentences)) /\
     deref 0 h' !! "sentiment"%string
       = Some (VStr (sentiment_of Processor.positive_words Processor.negative_words
                       (@filtered_words ascii_unicode demo_nltk text)))).
Proof.
  apply (@process_content_writes_four_fields ascii_unicode demo_nltk
           (record [("content", VStr (py "The cat sat on the mat. The cat sat on the electric mat."));
                    ("category", VStr (py "general")); ("url", VStr (py "u0"))]%string)
           _ 0 0).
  vm_compute. reflexivity.
Defined.

(** ** The Sentiment Heuristic *)

Lemma lexicon_count_ext (lexicon words words' : list str) :
  (forall w, In w lexicon -> (In w words <-> In w words')) ->
  lexicon_count lexicon words = lexicon_count lexicon words'.
Proof.
  intros Hsame. unfold lexicon_count. f_equal. apply List.filter_ext_in.
  intros w Hw. specialize (Hsame w Hw).
  destruct (mem w words) eqn:E1, (mem w words') eqn:E2; try reflexivity.
  - apply mem_In, Hsame, mem_In in E1. congruence.
  - apply mem_In, Hsame, mem_In in E2. congruence.
Qed.

(** The sentiment counts each lexicon word once, however often it
    occurs: two token lists in which the same lexicon words occur get the
    same sentiment.  A token list with no lexicon word is [neutral], and
    the sentiment is always one of the three labels. *)
Theorem sentiment_counts_words_once (positive_words negative_words words words' : list str) :
  (forall w, In w (positive_words ++ negative_words) -> (In w words <-> In w words')) ->
  sentiment_of positive_words negative_words words
    = sentiment_of positive_words negative_words words' /\
  ((forall w, In w (positive_words ++ negative_words) -> ~ In w words) ->
   sentiment_of positive_words negative_words words = py "neutral") /\
  In (sentiment_of positive_words negative_words words) sentiments.
Proof.
  intros Hsame.
  assert (Heq : forall ws ws',
             (forall w, In w (positive_words ++ negative_words) -> (In w ws <-> In w ws')) ->
             sentiment_of positive_words negative_words ws
             = sentiment_of positive_words negative_words ws').
  { intros ws ws' Hs. unfold sentiment_of.
    rewrite (lexicon_count_ext positive_words ws ws'),
            (lexicon_count_ext negative_words ws ws'); [reflexivity| |];
      intros w Hw; apply Hs, List.in_or_app; auto. }
  refine (conj (Heq _ _ Hsame) (conj _ (sentiment_of_label _ _ _))).
  intros Hnone. rewrite (Heq words []).
  - unfold sentiment_of, lexicon_count.
    rewrite !(filter_none (fun w => mem w [])) by reflexivity. reflexivity.
  - intros w Hw. split; [intros Hin; now apply Hnone in Hin | intros []].
Qed.

Lemma sentiment_counts_words_once_witness :
  sentiment_of Processor.positive_words Processor.negative_words
    (List.map py ["good"; "good"; "great"; "good"; "bad"; "cat"]%string)
  = sentiment_of Processor.positive_words Processor.negative_words
      (List.map py ["bad"; "great"; "good"]%string) /\
  ((forall w, In w (Processor.positive_words ++ Processor.negative_words) ->
              ~ In w (List.map py ["good"; "good"; "great"; "good"; "bad"; "cat"]%string)) ->
   sentiment_of Processor.positive_words Processor.negative_words
     (List.map py ["good"; "good"; "great"; "good"; "bad"; "cat"]%string) = py "neutral") /\
  In (sentiment_of Processor.positive_words Processor.negative_words
        (List.map py ["good"; "good"; "great"; "good"; "bad"; "cat"]%string)) sentiments.
Proof.
  apply (sentiment_counts_words_once Processor.positive_words Processor.negative_words
           (List.map py ["good"; "good"; "great"; "good"; "bad"; "cat"]%string)
           (List.map py ["bad"; "great"; "good"]%string)).
  intros w Hw.
  assert (Hm : mem w (List.map py ["good"; "good"; "great"; "good"; "bad"; "cat"]%string)
               = mem w (List.map py ["bad"; "great"; "good"]%string)).
  { apply List.in_app_or in Hw.
    unfold Processor.positive_words, Processor.negative_words in Hw. simpl in Hw.
    repeat (destruct Hw as [Hw | Hw]; [try (subst w; vm_compute; reflexivity)|]);
      try destruct Hw. }
  split; intros Hin; apply mem_In; apply mem_In in Hin; congruence.
Defined.

(** ** processor_llm.py: failures and the blank text *)

Lemma clean_content_raise_kind `{LLM} (content_dict : loc) (sector : pyval)
    (h h' : heap) (e : exn) :
  ProcessorLLM.clean_content content_dict sector h = (h', Raise e) -> e = AttributeError.
Proof.
  unfold ProcessorLLM.clean_content. intros Hrun.
  apply bind_raise in Hrun as [Hrun | (title & h1 & _ & Hrun)]; [discriminate Hrun|].
  apply bind_raise in Hrun as [Hrun | (v & h2 & _ & Hrun)]; [discriminate Hrun|].
  apply bind_raise in Hrun as [Hrun | (raw & h3 & _ & Hrun)].
  { destruct v; simpl in Hrun; unfold ret, raise in Hrun; congruence. }
  destruct (is_empty (strip raw)).
  - apply bind_raise in Hrun as [Hrun | (u & h4 & _ & Hrun)]; discriminate Hrun.
  - apply bind_raise in Hrun as [Hrun | (s & h4 & _ & Hrun)].
    { destruct sector; simpl in Hrun; unfold ret, raise in Hrun; congruence. }
    apply bind_raise in Hrun as [Hrun | (u & h5 & _ & Hrun)]; [|discriminate Hrun].
    destruct (llm_reply title raw s) as [[[c k] r]|]; discriminate Hrun.
Qed.

(** processor_llm.py's [process_content] never raises [KeyError]: a
    record may lack [content], [category] and [url].  What it can raise is
    [AttributeError], for a text or sector that is not a string, and what
    the sentence splitter raises. *)
Theorem process_content_llm_raises_only `{PyUnicode} `{NLTK} `{LLM}
    (use_llm : bool) (content_dict : loc) (h h' : heap) (e : exn) :
  ProcessorLLM.process_content use_llm content_dict h = (h', Raise e) ->
  e = AttributeError \/ e = NLTKError.
Proof.
  unfold ProcessorLLM.process_content. intros Hrun.
  apply bind_raise in Hrun as [Hrun | (dt & h1 & _ & Hrun)].
  - destruct use_llm.
    + apply bind_raise in Hrun as [Hrun | (sector & h2 & _ & Hrun)]; [discriminate Hrun|].
      apply bind_raise in Hrun as [Hrun | (d & h3 & _ & Hrun)].
      { left. eapply clean_content_raise_kind. exact Hrun. }
      apply bind_raise in Hrun as [Hrun | (dflt & h4 & _ & Hrun)]; [discriminate Hrun|].
      apply bind_raise in Hrun as [Hrun | (t & h5 & _ & Hrun)]; discriminate Hrun.
    + apply bind_raise in Hrun as [Hrun | (t & h2 & _ & Hrun)]; discriminate Hrun.
  - cbv zeta in Hrun.
    apply bind_raise in Hrun as [Hrun | (text & h2 & _ & Hrun)].
    { left. destruct (snd dt); simpl in Hrun; unfold ret, raise in Hrun; congruence. }
    destruct (is_empty (strip text)).
    + apply bind_raise in Hrun as [Hrun | (u & h3 & _ & Hrun)]; discriminate Hrun.
    + apply bind_raise in Hrun as [Hrun | (sentences & h3 & _ & Hrun)].
      { right. unfold run_sent_tokenize in Hrun.
        destruct (sent_tokenize text); unfold ret, raise in Hrun; congruence. }
      apply bind_raise in Hrun as [Hrun | (base & h4 & _ & Hrun)]; [discriminate Hrun|].
      apply bind_raise in Hrun as [Hrun | (u & h5 & _ & Hrun)]; [discriminate Hrun|].
      apply bind_raise in Hrun as [Hrun | (url & h6 & _ & Hrun)]; discriminate Hrun.
Qed.

Lemma process_content_llm_raises_only_witness :
  NLTKError = AttributeError \/ NLTKError = NLTKError.
Proof.
  apply (@process_content_llm_raises_only ascii_unicode raising_nltk offline_llm false 0
           (record [("content", VStr (py "The cat sat on the mat."))]%string)
           (record [("content", VStr (py "The cat sat on the mat."))]%string)
           NLTKError).
  vm_compute. reflexivity.
Defined.

Lemma process_content_llm_blank_run `{PyUnicode} `{NLTK} `{LLM}
    (use_llm : bool) (content_dict : loc) (h : heap) (text : str) :
  default (VStr []) (deref content_dict h !! "content"%string) = VStr text ->
  is_empty (strip text) = true ->
  ProcessorLLM.process_content use_llm content_dict h =
    (let h1 := if use_llm
               then <[content_dict :=
                        update_dict [("cleaned_content", VStr []); ("key_insights", VList []);
                                     ("relevance_score", VFloat 0 0)]%string
                          (deref content_dict h)]> h
               else h in
     <[content_dict := update_dict blank_fields (deref content_dict h1)]> h1,
     Ok content_dict).
Proof.
  intros Hc Hb. destruct use_llm.
  - unfold ProcessorLLM.process_content, ProcessorLLM.clean_content, bind, get, update, ret.
    rewrite Hc. cbv beta iota zeta. unfold as_str at 1, ret. cbv beta iota zeta.
    rewrite Hb. cbv beta iota zeta.
    rewrite deref_insert.
    rewrite (update_dict_lookup_in _ _ "cleaned_content"%string (VStr []));
      [|simpl; repeat (constructor; [simpl; intuition discriminate|]); constructor
       |simpl; auto].
    change (default ?a (Some ?b)) with b. cbn [fst snd].
    unfold as_str, ret. cbv beta iota zeta.
    change (is_empty (strip [])) with true. cbv beta iota zeta.
    rewrite deref_insert. reflexivity.
  - unfold ProcessorLLM.process_content, bind, get, update, ret.
    rewrite Hc. cbn [fst snd]. unfold as_str, ret. cbv beta iota zeta.
    rewrite Hb. reflexivity.
Qed.

(** In processor_llm.py a record whose content is blank, or that has no
    content, is no error: the run returns the record with empty keywords
    and themes and sentiment [neutral], and the category is left as it
    was.  With the cleaner on, the only other fields written are the
    cleaner's. *)
Theorem process_content_llm_blank `{PyUnicode} `{NLTK} `{LLM}
    (use_llm : bool) (content_dict : loc) (h : heap) (text : str) :
  default (VStr []) (deref content_dict h !! "content"%string) = VStr text ->
  is_empty (strip text) = true ->
  exists h',
    ProcessorLLM.process_content use_llm content_dict h = (h', Ok content_dict) /\
    (forall l, l <> content_dict -> h' !! l = h !! l) /\
    deref content_dict h' !! "keywords"%string = Some (VList []) /\
    deref content_dict h' !! "themes"%string = Some (VList []) /\
    deref content_dict h' !! "sentiment"%string = Some (VStr (py "neutral")) /\
    (forall key,
       ~ In key (["keywords"; "themes"; "sentiment"]%string
                   ++ if use_llm then cleaner_keys else []) ->
       deref content_dict h' !! key = deref content_dict h !! key).
Proof.
  intros Hc Hb. eexists. split; [apply (process_content_llm_blank_run _ _ _ _ Hc Hb)|].
  cbv zeta.
  assert (Hnd : List.NoDup (List.map fst blank_fields)).
  { simpl. repeat (constructor; [simpl; intuition discriminate|]). constructor. }
  refine (conj _ (conj _ (conj _ (conj _ _)))).
  - intros l Hl. rewrite lookup_insert_ne by congruence.
    destruct use_llm; [now rewrite lookup_insert_ne by congruence | reflexivity].
  - rewrite deref_insert. apply update_dict_lookup_in; [exact Hnd | simpl; auto].
  - rewrite deref_insert. apply update_dict_lookup_in; [exact Hnd | simpl; auto].
  - rewrite deref_insert. apply update_dict_lookup_in; [exact Hnd | simpl; auto].
  - intros key Hk. rewrite deref_insert.
    rewrite update_dict_lookup_notin
      by (intros Hin; apply Hk, List.in_or_app; left; exact Hin).
    destruct use_llm; [|reflexivity].
    rewrite deref_insert. apply update_dict_lookup_notin.
    intros Hin. apply Hk, List.in_or_app. right. exact Hin.
Qed.

Lemma process_content_llm_blank_witness :
  exists h',
    @ProcessorLLM.process_content ascii_unicode demo_nltk offline_llm true 0
      (record [("title", VStr (py "T")); ("category", VStr (py "e-mobility"))]%string)
    = (h', Ok 0) /\
    (forall l, l <> 0 ->
       h' !! l = record [("title", VStr (py "T")); ("category", VStr (py "e-mobility"))]%string !! l) /\
    deref 0 h' !! "keywords"%string = Some (VList []) /\
    deref 0 h' !! "themes"%string = Some (VList []) /\
    deref 0 h' !! "sentiment"%string = Some (VStr (py "neutral")) /\
    (forall key,
       ~ In key (["keywords"; "themes"; "sentiment"]%string ++ cleaner_keys) ->
       deref 0 h' !! key
       = deref 0 (record [("title", VStr (py "T")); ("category", VStr (py "e-mobility"))]%string)
           !! key).
Proof.
  apply (@process_content_llm_blank ascii_unicode demo_nltk offline_llm true 0
           (record [("title", VStr (py "T")); ("category", VStr (py "e-mobility"))]%string) []).
  - vm_compute. reflexivity.
  - reflexivity.
Defined.

(** ** The cleaner's fallback *)

Lemma process_content_llm_plain_run `{PyUnicode} `{NLTK} `{LLM}
    (content_dict : loc) (h : heap) (text : str) :
  default (VStr []) (deref content_dict h !! "content"%string) = VStr text ->
  is_empty (strip text) = false ->
  ProcessorLLM.process_content false content_dict h =
    match sent_tokenize text with
    | Some sentences =>
        (<[content_dict :=
             update_dict
               (processed_fields_llm text sentences
                  (default (VStr (py "general")) (deref content_dict h !! "category"%string)))
               (deref content_dict h)]> h,
         Ok content_dict)
    | None => (h, Raise NLTKError)
    end.
Proof.
  intros Hc Hb.
  unfold ProcessorLLM.process_content, bind, get, update, ret.
  rewrite Hc. cbn [fst snd]. unfold as_str, ret. cbv beta iota zeta.
  rewrite Hb. cbv beta iota zeta. unfold run_sent_tokenize.
  destruct (sent_tokenize text); reflexivity.
Qed.

Lemma process_content_llm_fallback_run `{PyUnicode} `{NLTK} `{LLM}
    (content_dict : loc) (h : heap) (text sector : str) :
  default (VStr []) (deref content_dict h !! "content"%string) = VStr text ->
  is_empty (strip text) = false ->
  default (VStr (py "general")) (deref content_dict h !! "category"%string) = VStr sector ->
  llm_reply (default (VStr []) (deref content_dict h !! "title"%string)) text sector = None ->
  ProcessorLLM.process_content true content_dict h =
    let h1 := <[content_dict := update_dict (fallback_fields text) (deref content_dict h)]> h in
    match sent_tokenize text with
    | Some sentences =>
        (<[content_dict :=
             update_dict (processed_fields_llm text sentences (VStr sector))
               (deref content_dict h1)]> h1,
         Ok content_dict)
    | None => (h1, Raise NLTKError)
    end.
Proof.
  intros Hc Hb Hs Hl.
  assert (Hnd : List.NoDup (List.map fst (fallback_fields text))).
  { simpl. repeat (constructor; [simpl; intuition discriminate|]). constructor. }
  unfold ProcessorLLM.process_content, ProcessorLLM.clean_content, bind, get, update, ret.
  rewrite Hc, Hs. cbv beta iota zeta. unfold as_str at 1 2, ret. cbv beta iota zeta.
  rewrite Hb. cbv beta iota zeta. rewrite Hl. cbv beta iota zeta.
  change [("cleaned_content"%string, VStr text); ("key_insights"%string, VList []);
          ("relevance_score"%string, VFloat 1 (-1))] with (fallback_fields text).
  rewrite !deref_insert.
  rewrite (update_dict_lookup_in _ _ "cleaned_content"%string (VStr text));
    [|exact Hnd | simpl; auto].
  change (default ?a (Some ?b)) with b. cbn [fst snd].
  cbv beta iota zeta. unfold as_str, ret. cbv beta iota zeta. rewrite Hb.
  cbv beta iota zeta. unfold run_sent_tokenize.
  destruct (sent_tokenize text) as [sentences|]; [|reflexivity].
  unfold ret. cbv beta iota zeta. rewrite !deref_insert.
  rewrite (update_dict_lookup_notin (fallback_fields text) _ "category"%string)
    by (simpl; intuition discriminate).
  rewrite Hs. reflexivity.
Qed.

(** When the request to the language model fails, the cleaner falls back
    to the raw content, and processor_llm.py's [process_content] with the
    cleaner on ends as it does with the cleaner off: the same outcome,
    the same fields in the record apart from the cleaner's three, the
    other records untouched.  The cleaner's fields then hold the raw
    content, no insight and the score one half. *)
Theorem llm_failure_falls_back_to_plain `{PyUnicode} `{NLTK} `{LLM}
    (content_dict : loc) (h : heap) (text sector : str) :
  default (VStr []) (deref content_dict h !! "content"%string) = VStr text ->
  is_empty (strip text) = false ->
  default (VStr (py "general")) (deref content_dict h !! "category"%string) = VStr sector ->
  llm_reply (default (VStr []) (deref content_dict h !! "title"%string)) text sector = None ->
  let with_llm := ProcessorLLM.process_content true content_dict h in
  let plain := ProcessorLLM.process_content false content_dict h in
  snd with_llm = snd plain /\
  (forall key, ~ In key cleaner_keys ->
     deref content_dict (fst with_llm) !! key = deref content_dict (fst plain) !! key) /\
  (forall l, l <> content_dict -> fst with_llm !! l = fst plain !! l) /\
  (forall key v, In (key, v) (fallback_fields text) ->
     deref content_dict (fst with_llm) !! key = Some v).
Proof.
  intros Hc Hb Hs Hl. cbv zeta.
  rewrite (process_content_llm_fallback_run _ _ _ _ Hc Hb Hs Hl),
          (process_content_llm_plain_run _ _ _ Hc Hb), Hs.
  cbv zeta.
  assert (Hnd : List.NoDup (List.map fst (fallback_fields text))).
  { simpl. repeat (constructor; [simpl; intuition discriminate|]). constructor. }
  assert (Hdisj : forall key, In key cleaner_keys ->
                    ~ In key ["keywords"; "themes"; "sentiment"; "category"]%string).
  { intros key Hk. simpl in Hk. simpl.
    intuition (subst; discriminate). }
  destruct (sent_tokenize text) as [sentences|]; cbn [fst snd].
  - refine (conj eq_refl (conj _ (conj _ _))).
    + intros key Hk. rewrite !deref_insert.
      destruct (List.in_dec string_dec key
                  ["keywords"; "themes"; "sentiment"; "category"]%string) as [Hin | Hout].
      * assert (Hnd4 : List.NoDup (List.map fst (processed_fields_llm text sentences (VStr sector)))).
        { simpl. repeat (constructor; [simpl; intuition discriminate|]). constructor. }
        assert (Hv : exists v, In (key, v) (processed_fields_llm text sentences (VStr sector))).
        { simpl in Hin. unfold processed_fields_llm.
          destruct Hin as [<- | [<- | [<- | [<- | []]]]]; eexists; simpl; eauto 10. }
        destruct Hv as [v Hv].
        now rewrite !(update_dict_lookup_in _ _ key v Hnd4 Hv).
      * rewrite !(update_dict_lookup_notin (processed_fields_llm text sentences (VStr sector)))
          by exact Hout.
        now apply update_dict_lookup_notin.
    + intros l Hl'. now rewrite !lookup_insert_ne by congruence.
    + intros key v Hin. rewrite !deref_insert.
      rewrite update_dict_lookup_notin.
      * now apply update_dict_lookup_in.
      * apply Hdisj. apply (List.in_map fst) in Hin. exact Hin.
  - refine (conj eq_refl (conj _ (conj _ _))).
    + intros key Hk. rewrite deref_insert. now apply update_dict_lookup_notin.
    + intros l Hl'. now rewrite lookup_insert_ne by congruence.
    + intros key v Hin. rewrite deref_insert. now apply update_dict_lookup_in.
Qed.

Lemma llm_failure_falls_back_to_plain_witness :
  let h := record [("title", VStr (py "Mats"));
                   ("content", VStr (py "The cat sat on the electric mat. The mat is good."));
                   ("category", VStr (py "general"))]%string in
  let with_llm := @ProcessorLLM.process_content ascii_unicode demo_nltk offline_llm true 0 h in
  let plain := @ProcessorLLM.process_content ascii_unicode demo_nltk offline_llm false 0 h in
  snd with_llm = snd plain /\
  (forall key, ~ In key cleaner_keys ->
     deref 0 (fst with_llm) !! key = deref 0 (fst plain) !! key) /\
  (forall l, l <> 0 -> fst with_llm !! l = fst plain !! l) /\
  (forall key v,
     In (key, v) (fallback_fields (py "The cat sat on the electric mat. The mat is good.")) ->
     deref 0 (fst with_llm) !! key = Some v).
Proof.
  apply (@llm_failure_falls_back_to_plain ascii_unicode demo_nltk offline_llm 0
           (record [("title", VStr (py "Mats"));
                    ("content", VStr (py "The cat sat on the electric mat. The mat is good."));
                    ("category", VStr (py "general"))]%string)
           (py "The cat sat on the electric mat. The mat is good.") (py "general"));
    vm_compute; reflexivity.
Defined.

(** ** The scraping loop *)

(** The record of a page holds no content: whenever the cleaning
    returns, it is the url, the title of the page and the empty
    string. *)
Lemma page_record_run `{PyUnicode} `{NLTK} (url : str) (page : soup)
    (r : list (string * pyval)) :
  page_record url page = Some r -> r = empty_record url (page_title page).
Proof.
  unfold page_record, page_title, empty_record. cbv zeta.
  destruct (_clean_and_filter_content _ _) as [content|] eqn:E; [|discriminate].
  apply _clean_and_filter_content_empty in E. subst content. now intros [= <-].
Qed.

Lemma scrape_attempts_run `{PyUnicode} `{NLTK} `{Web} (url : str) (max_retries delay : nat) :
  forall todo attempt s,
    attempt + todo = max_retries ->
    exists n,
      let run := scrape_attempts url max_retries delay todo attempt s in
      requests (fst run) = requests s + n /\
      n <= todo /\
      (0 < todo -> 0 < n) /\
      (forall i, i + 1 < n -> http_get (requests s + i) url = RequestException) /\
      2 * slept (fst run) = 2 * slept s + delay * ((n - 1) * (2 * attempt + n)) /\
      match snd run with
      | Some r =>
          exists page, http_get (requests s + n - 1) url = Parsed page /\
                       page_record url page = Some r
      | None =>
          todo = 0 \/
          http_get (requests s + n - 1) url = OtherException \/
          (n = todo /\ http_get (requests s + n - 1) url = RequestException) \/
          (exists page, http_get (requests s + n - 1) url = Parsed page /\
                        page_record url page = None)
      end.
Proof.
  induction todo as [|todo IH]; intros attempt s Hsum.
  - exists 0. cbn [scrape_attempts fst snd].
    refine (conj _ (conj _ (conj _ (conj _ (conj _ _))))); lia.
  - cbn [scrape_attempts]. cbv zeta.
    destruct (http_get (requests s) url) as [| |page] eqn:Eget.
    + destruct (attempt <? max_retries - 1) eqn:Elt.
      * apply Nat.ltb_lt in Elt.
        destruct (IH (S attempt)
                    {| requests := S (requests s);
                       slept := slept s + delay * (attempt + 1) |}) as (n & Hn); [lia|].
        cbv zeta in Hn. cbn [requests slept] in Hn.
        destruct Hn as (Hreq & Hle & Hpos & Hfail & Hslept & Hres).
        assert (0 < n) by (apply Hpos; lia).
        exists (S n). cbv zeta.
        refine (conj _ (conj _ (conj _ (conj _ (conj _ _))))); try lia.
        -- intros [|i] Hi; [now rewrite Nat.add_0_r|].
           replace (requests s + S i) with (S (requests s) + i) by lia.
           apply Hfail. lia.
        -- rewrite Hslept. destruct n as [|m]; [lia|].
           replace (S m - 1) with m by lia. replace (S (S m) - 1) with (S m) by lia.
           ring.
        -- replace (requests s + S n - 1) with (S (requests s) + n - 1) by lia.
           destruct (snd _) as [r|]; [exact Hres|].
           destruct Hres as [-> | [Ho | [[-> Hr] | Hp]]]; [lia | auto | auto | auto].
      * apply Nat.ltb_ge in Elt. exists 1. cbn [fst snd requests slept].
        refine (conj _ (conj _ (conj _ (conj _ (conj _ _))))); try lia.
        right. right. left. replace (requests s + 1 - 1) with (requests s) by lia.
        split; [lia | exact Eget].
    + exists 1. cbn [fst snd requests slept].
      refine (conj _ (conj _ (conj _ (conj _ (conj _ _))))); try lia.
      right. left. now replace (requests s + 1 - 1) with (requests s) by lia.
    + exists 1. cbn [fst snd requests slept].
      refine (conj _ (conj _ (conj _ (conj _ (conj _ _))))); try lia.
      replace (requests s + 1 - 1) with (requests s) by lia.
      destruct (page_record url page) as [r|] eqn:Er.
      * exists page. now split.
      * right. right. right. exists page. now split.
Qed.

(** [scrape_url] makes at most [max_retries] requests, and at least one
    when [max_retries] is not 0.  Every request but the last has raised a
    [RequestException], and after the k-th of these it has slept
    [delay * k] seconds.  It returns a record when its last request gets
    a page and the cleaning of that page returns, the record of that
    page; it returns [None] when [max_retries] is 0, when something
    other than a [RequestException] is raised, be it in the cleaning of
    the page, or when the last of the [max_retries] requests raises
    one. *)
Theorem scrape_url_retries `{PyUnicode} `{NLTK} `{Web} (url : str) (max_retries delay : nat)
    (s : session) :
  exists n,
    let run := scrape_url url max_retries delay s in
    requests (fst run) = requests s + n /\
    n <= max_retries /\
    (0 < max_retries -> 0 < n) /\
    (forall i, i + 1 < n -> http_get (requests s + i) url = RequestException) /\
    2 * slept (fst run) = 2 * slept s + delay * ((n - 1) * n) /\
    match snd run with
    | Some r =>
        exists page, http_get (requests s + n - 1) url = Parsed page /\
                     page_record url page = Some r
    | None =>
        max_retries = 0 \/
        http_get (requests s + n - 1) url = OtherException \/
        (n = max_retries /\ http_get (requests s + n - 1) url = RequestException) \/
        (exists page, http_get (requests s + n - 1) url = Parsed page /\
                      page_record url page = None)
    end.
Proof.
  destruct (scrape_attempts_run url max_retries delay max_retries 0 s eq_refl) as (n & Hn).
  exists n. unfold scrape_url. cbv zeta in *.
  replace (2 * 0 + n) with n in Hn by lia. exact Hn.
Qed.

(** No record [scrape_url] returns carries any content: it holds the
    [url] asked for, the title of the page its last request got, which
    is the stripped text of the page's [title] element or [No title]
    without one, and the empty string as [content], whatever the page
    held. *)
Theorem scrape_url_yields_no_content `{PyUnicode} `{NLTK} `{Web}
    (url : str) (max_retries delay : nat) (s : session) (r : list (string * pyval)) :
  snd (scrape_url url max_retries delay s) = Some r ->
  exists n page,
    n < max_retries /\
    requests (fst (scrape_url url max_retries delay s)) = requests s + S n /\
    http_get (requests s + n) url = Parsed page /\
    r = empty_record url (page_title page) /\
    page_title page = match soup_title page with
                      | Some title => strip title
                      | None => py "No title"
                      end.
Proof.
  intros Hr.
  destruct (scrape_attempts_run url max_retries delay max_retries 0 s eq_refl) as (n & Hn).
  cbv zeta in Hn. fold (scrape_url url max_retries delay s) in Hn.
  rewrite Hr in Hn. destruct Hn as (Hreq & Hle & _ & _ & _ & page & Hpage & Hrec).
  destruct n as [|n].
  { (* no request: [scrape_attempts] has returned [None] *)
    exfalso. unfold scrape_url in Hr, Hreq.
    destruct max_retries as [|m]; [discriminate Hr|].
    cbn [scrape_attempts] in Hreq. cbv zeta in Hreq.
    destruct (http_get (requests s) url); try (cbn [fst requests] in Hreq; lia).
    destruct (0 <? S m - 1).
    - destruct (scrape_attempts_run url (S m) delay m 1
                  {| requests := S (requests s); slept := slept s + delay * (0 + 1) |})
        as (k & Hk); [lia|].
      cbv zeta in Hk. destruct Hk as (Hk & _). cbn [requests] in Hk. lia.
    - cbn [fst requests] in Hreq. lia. }
  exists n, page. replace (requests s + S n - 1) with (requests s + n) in Hpage by lia.
  refine (conj _ (conj Hreq (conj Hpage (conj (page_record_run _ _ _ Hrec) eq_refl)))). lia.
Qed.

Lemma scrape_url_yields_no_content_witness :
  exists n page,
    n < 3 /\
    requests (fst (@scrape_url ascii_unicode demo_nltk
                     (demo_web (py "The cat sat on the electric mat. The mat is good."))
                     (py "https://example.com") 3 1 {| requests := 0; slept := 0 |}))
    = 0 + S n /\
    @http_get (demo_web (py "The cat sat on the electric mat. The mat is good."))
      (0 + n) (py "https://example.com") = Parsed page /\
    [("url", VStr (py "https://example.com")); ("title", VStr (py "Electric mats"));
     ("content", VStr [])]%string
    = empty_record (py "https://example.com") (page_title page) /\
    page_title page = match soup_title page with
                      | Some title => strip title
                      | None => py "No title"
                      end.
Proof.
  apply (@scrape_url_yields_no_content ascii_unicode demo_nltk
           (demo_web (py "The cat sat on the electric mat. The mat is good."))
           (py "https://example.com") 3 1 {| requests := 0; slept := 0 |}).
  vm_compute. reflexivity.
Defined.

(** The list built so far is only added to. *)
Lemma scrape_loop_results `{PyUnicode} `{NLTK} `{Web} (delay_between : nat) :
  forall urls results s,
    scrape_loop urls delay_between results s =
    (fst (scrape_loop urls delay_between [] s),
     results ++ snd (scrape_loop urls delay_between [] s)).
Proof.
  induction urls as [|url rest IH]; intros results s.
  - cbn [scrape_loop fst snd]. now rewrite List.app_nil_r.
  - cbn [scrape_loop]. destruct (scrape_url url 3 1 s) as [s1 [r|]].
    + rewrite (IH (results ++ [r])), (IH ([] ++ [r])). cbn [fst snd app].
      now rewrite <- List.app_assoc.
    + apply IH.
Qed.

Lemma scrape_loop_run `{PyUnicode} `{NLTK} `{Web} (delay_between : nat) :
  forall urls results s,
    exists found : list (str * str),
      let run := scrape_loop urls delay_between results s in
      snd run = results ++ List.map (fun ut => empty_record (fst ut) (snd ut)) found /\
      sublist (List.map fst found) urls /\
      requests s <= requests (fst run) <= requests s + 3 * length urls /\
      slept s + delay_between * length urls <= slept (fst run)
        <= slept s + (3 + delay_between) * length urls.
Proof.
  induction urls as [|url rest IH]; intros results s.
  - exists []. cbn [scrape_loop fst snd List.map length].
    rewrite List.app_nil_r. repeat split; try lia. constructor.
  - cbn [scrape_loop].
    destruct (scrape_attempts_run url 3 1 3 0 s eq_refl) as (n & Hn).
    cbv zeta in Hn. fold (scrape_url url 3 1 s) in Hn.
    destruct (scrape_url url 3 1 s) as [s1 result] eqn:Erun. cbn [fst snd] in Hn.
    destruct Hn as (Hreq & Hle & _ & _ & Hslept & Hres).
    assert (Hs1 : slept s <= slept s1 <= slept s + 3) by nia.
    match goal with
    | |- context [scrape_loop rest delay_between ?rs ?s2] =>
        destruct (IH rs s2) as (found & Hfound)
    end.
    cbv zeta in Hfound. cbn [requests slept] in Hfound.
    destruct Hfound as (Hsnd & Hsub & Hrq & Hsl).
    cbn [length]. destruct result as [r|].
    + destruct Hres as (page & _ & Hrec). apply page_record_run in Hrec. subst r.
      exists ((url, page_title page) :: found).
      cbv zeta. rewrite Hsnd. cbn [List.map fst snd].
      refine (conj _ (conj _ (conj _ _))); try lia.
      * rewrite <- List.app_assoc. reflexivity.
      * now constructor.
    + exists found. cbv zeta. rewrite Hsnd.
      refine (conj eq_refl (conj _ (conj _ _))); try lia.
      now constructor.
Qed.

(** [scrape_multiple_urls] scrapes the urls one after the other and
    returns the records of those whose scrape gave one, in the order of
    the urls: for no url nothing, and for a first url and the rest what
    [scrape_url] gave for the first, if it gave a record, followed by
    what the rest gives in the session as the first scrape and the
    sleep of [delay_between] seconds leave it.  Each record has empty
    content; there are at most three requests for a url, and on top of
    the sleep after each url at most three seconds of retries. *)
Theorem scrape_multiple_urls_results `{PyUnicode} `{NLTK} `{Web}
    (urls : list str) (delay_between : nat) (s : session) :
  let run := scrape_multiple_urls urls delay_between s in
  (urls = [] -> run = (s, [])) /\
  (forall url rest,
     urls = url :: rest ->
     let first := scrape_url url 3 1 s in
     let others := scrape_multiple_urls rest delay_between
                     {| requests := requests (fst first);
                        slept := slept (fst first) + delay_between |} in
     fst run = fst others /\
     snd run = match snd first with
               | Some r => r :: snd others
               | None => snd others
               end) /\
  exists found : list (str * str),
    snd run = List.map (fun ut => empty_record (fst ut) (snd ut)) found /\
    sublist (List.map fst found) urls /\
    requests s <= requests (fst run) <= requests s + 3 * length urls /\
    slept s + delay_between * length urls <= slept (fst run)
      <= slept s + (3 + delay_between) * length urls.
Proof.
  cbv zeta. refine (conj _ (conj _ _)).
  - now intros ->.
  - intros url rest ->. unfold scrape_multiple_urls. cbn [scrape_loop].
    destruct (scrape_url url 3 1 s) as [s1 [r|]]; cbn [fst snd app].
    + rewrite scrape_loop_results. cbn [fst snd app]. now split.
    + now split.
  - destruct (scrape_loop_run delay_between urls [] s) as (found & Hfound).
    exists found. exact Hfound.
Qed.

(** ** Records are processed independently *)

Lemma local_ret {A} (l : loc) (a : A) : local l (ret a).
Proof. intros h. split; [reflexivity|]. intros h0 Hd. now split. Qed.

Lemma local_raise {A} (l : loc) (e : exn) : local l (@raise A e).
Proof. intros h. split; [reflexivity|]. intros h0 Hd. now split. Qed.

Lemma local_get (l : loc) (key : string) (dflt : pyval) : local l (get l key dflt).
Proof.
  intros h. split; [reflexivity|]. intros h0 Hd. unfold get. cbn [fst snd].
  now rewrite Hd.
Qed.

Lemma local_getitem (l : loc) (key : string) : local l (getitem l key).
Proof.
  intros h. unfold getitem. split.
  - intros l' _. now destruct (deref l h !! key).
  - intros h0 Hd. rewrite <- Hd. now destruct (deref l h !! key).
Qed.

Lemma local_update (l : loc) (kvs : list (string * pyval)) : local l (update l kvs).
Proof.
  intros h. unfold update. cbn [fst snd]. split.
  - intros l' Hl. now apply lookup_insert_ne.
  - intros h0 Hd. rewrite !deref_insert, Hd. now split.
Qed.

Lemma local_as_str (l : loc) (e : exn) (v : pyval) : local l (as_str e v).
Proof. destruct v; simpl; first [apply local_ret | apply local_raise]. Qed.

Lemma local_run_sent_tokenize `{NLTK} (l : loc) (text : str) :
  local l (run_sent_tokenize text).
Proof.
  unfold run_sent_tokenize.
  destruct (sent_tokenize text); [apply local_ret | apply local_raise].
Qed.

Lemma local_bind {A B} (l : loc) (m : M A) (f : A -> M B) :
  local l m ->
  (forall a h h', m h = (h', Ok a) -> local l (f a)) ->
  local l (bind m f).
Proof.
  intros Hm Hf h. unfold bind. split.
  - intros l' Hl. destruct (Hm h) as [Hframe _]. specialize (Hframe l' Hl).
    destruct (m h) as [h1 [a|e]] eqn:Erun; cbn [fst] in *.
    + destruct (Hf a h h1 Erun h1) as [Hframe' _]. now rewrite Hframe'.
    + exact Hframe.
  - intros h0 Hd. destruct (Hm h) as [_ Hdep]. destruct (Hdep h0 Hd) as [Hres Hrec].
    destruct (m h) as [h1 [a|e]] eqn:Erun, (m h0) as [h2 [a0|e0]] eqn:Erun0;
      cbn [fst snd] in *; try discriminate Hres.
    + injection Hres as <-. destruct (Hf a h h1 Erun h1) as [_ Hdep'].
      now apply Hdep'.
    + injection Hres as <-. split; [reflexivity | exact Hrec].
Qed.

Lemma local_try_except {A} (l : loc) (m : M A) (handler : exn -> M A) :
  local l m -> (forall e, local l (handler e)) -> local l (try_except m handler).
Proof.
  intros Hm Hh h. unfold try_except. split.
  - intros l' Hl. destruct (Hm h) as [Hframe _]. specialize (Hframe l' Hl).
    destruct (m h) as [h1 [a|e]]; cbn [fst] in *; [exact Hframe|].
    destruct (Hh e h1) as [Hframe' _]. now rewrite Hframe'.
  - intros h0 Hd. destruct (Hm h) as [_ Hdep]. destruct (Hdep h0 Hd) as [Hres Hrec].
    destruct (m h) as [h1 [a|e]], (m h0) as [h2 [a0|e0]];
      cbn [fst snd] in *; try discriminate Hres.
    + split; [exact Hres | exact Hrec].
    + injection Hres as <-. destruct (Hh e h1) as [_ Hdep']. now apply Hdep'.
Qed.

Ltac local_steps :=
  repeat first
    [ apply local_ret | apply local_raise | apply local_get | apply local_getitem
    | apply local_update | apply local_as_str | apply local_run_sent_tokenize
    | apply local_bind; [|intros ? ? ? ?] ].

Lemma local_categorize_content `{PyUnicode} (l : loc) : local l (categorize_content l).
Proof.
  unfold categorize_content. local_steps. cbv zeta.
  destruct (choose_category _); unfold setitem; local_steps.
Qed.

Lemma local_process_content `{PyUnicode} `{NLTK} (l : loc) :
  local l (Processor.process_content l).
Proof. unfold Processor.process_content. local_steps. Qed.

Lemma local_clean_content `{LLM} (l : loc) (sector : pyval) :
  local l (ProcessorLLM.clean_content l sector).
Proof.
  unfold ProcessorLLM.clean_content. local_steps.
  destruct (is_empty _); local_steps.
  destruct (llm_reply _ _ _) as [[[c k] r]|]; local_steps.
Qed.

Lemma local_process_content_llm `{PyUnicode} `{NLTK} `{LLM} (use_llm : bool) (l : loc) :
  local l (ProcessorLLM.process_content use_llm l).
Proof.
  unfold ProcessorLLM.process_content. apply local_bind.
  - destruct use_llm; [|local_steps].
    apply local_bind; [apply local_get|]. intros sector h1 h2 _.
    apply local_bind; [apply local_clean_content|]. intros d h3 h4 Hclean.
    apply clean_content_same in Hclean. subst d. local_steps.
  - intros [d text] h1 h2 Hfirst.
    assert (Hd : d = l).
    { destruct use_llm.
      - apply bind_ok in Hfirst as (sector & h3 & _ & Hfirst).
        apply bind_ok in Hfirst as (d' & h4 & Hclean & Hfirst).
        apply clean_content_same in Hclean. subst d'.
        apply bind_ok in Hfirst as (dflt & h5 & _ & Hfirst).
        apply bind_ok in Hfirst as (t & h6 & _ & Hfirst).
        apply ret_ok in Hfirst as [_ Hfirst]. congruence.
      - apply bind_ok in Hfirst as (t & h3 & _ & Hfirst).
        apply ret_ok in Hfirst as [_ Hfirst]. congruence. }
    subst d. cbv zeta. cbn [fst snd]. local_steps.
    destruct (is_empty _); local_steps.
Qed.

Lemma processed_store_frame (process_content : loc -> M loc) :
  (forall l, local l (process_content l)) ->
  forall content_list h l,
    ~ In l content_list -> processed_store process_content content_list h !! l = h !! l.
Proof.
  intros Hlocal. unfold processed_store.
  induction content_list as [|content rest IH]; intros h l Hl; [reflexivity|].
  cbn [fold_left]. rewrite IH by (intros Hin; apply Hl; now right).
  apply (Hlocal content h). intros ->. apply Hl. now left.
Qed.

Lemma processed_store_independent (process_content : loc -> M loc) :
  (forall l, local l (process_content l)) ->
  forall content_list h content,
    List.NoDup content_list -> In content content_list ->
    deref content (processed_store process_content content_list h)
    = deref content (fst (process_content content h)).
Proof.
  intros Hlocal.
  induction content_list as [|first rest IH]; intros h content Hnd Hin; [destruct Hin|].
  apply List.NoDup_cons_iff in Hnd as [Hfirst Hnd].
  change (processed_store process_content (first :: rest) h)
    with (processed_store process_content rest (fst (process_content first h))).
  destruct Hin as [-> | Hin].
  - unfold deref at 1. now rewrite (processed_store_frame _ Hlocal rest _ content Hfirst).
  - rewrite (IH _ content Hnd Hin).
    assert (Hne : content <> first) by (intros ->; contradiction).
    apply (Hlocal content (fst (process_content first h))).
    unfold deref. now rewrite (proj1 (Hlocal first h) content Hne).
Qed.

(** [batch_process] of both processors and [batch_clean] handle the
    records of a list independently.  When no record stands in the list
    twice, each record ends as a run of [process_content] (of
    [clean_content]) on it alone would leave it, wherever it stands in
    the list and whatever happens to the others, and no record outside
    the list is touched. *)
Theorem batch_records_independent `{PyUnicode} `{NLTK} `{LLM}
    (use_llm : bool) (sector : pyval) (content_list : list loc) (h : heap) :
  List.NoDup content_list ->
  (forall content, In content content_list ->
     deref content (fst (Processor.batch_process content_list h))
       = deref content (fst (Processor.process_content content h)) /\
     deref content (fst (ProcessorLLM.batch_process use_llm content_list h))
       = deref content (fst (ProcessorLLM.process_content use_llm content h)) /\
     deref content (fst (batch_clean content_list sector h))
       = deref content (fst (ProcessorLLM.clean_content content sector h))) /\
  (forall l, ~ In l content_list ->
     fst (Processor.batch_process content_list h) !! l = h !! l /\
     fst (ProcessorLLM.batch_process use_llm content_list h) !! l = h !! l /\
     fst (batch_clean content_list sector h) !! l = h !! l) /\
  snd (batch_clean content_list sector h) = Ok content_list.
Proof.
  intros Hnd.
  unfold Processor.batch_process, ProcessorLLM.batch_process, batch_clean.
  rewrite (batch_loop_run _ process_content_same),
          (batch_loop_run _ (process_content_llm_same use_llm)),
          (batch_loop_run (fun content => ProcessorLLM.clean_content content sector)
             (fun content r h1 h2 => clean_content_same content r sector h1 h2)).
  cbn [fst snd app].
  refine (conj _ (conj _ eq_refl)).
  - intros content Hin. refine (conj _ (conj _ _)).
    + exact (processed_store_independent _ local_process_content _ _ _ Hnd Hin).
    + exact (processed_store_independent _ (local_process_content_llm use_llm) _ _ _ Hnd Hin).
    + exact (processed_store_independent _ (fun l => local_clean_content l sector)
               _ _ _ Hnd Hin).
  - intros l Hl. refine (conj _ (conj _ _)).
    + exact (processed_store_frame _ local_process_content _ _ _ Hl).
    + exact (processed_store_frame _ (local_process_content_llm use_llm) _ _ _ Hl).
    + exact (processed_store_frame _ (fun l => local_clean_content l sector) _ _ _ Hl).
Qed.

Lemma batch_records_independent_witness :
  let h := store_from 0
             [ [("content", VStr (py "The cat sat on the mat."));
                ("category", VStr (py "general")); ("url", VStr (py "u0"))];
               [("title", VStr (py "No content here")); ("url", VStr (py "u1"))] ]%string in
  (forall content, In content [1; 0] ->
     deref content (fst (@Processor.batch_process ascii_unicode demo_nltk [1; 0] h))
       = deref content (fst (@Processor.process_content ascii_unicode demo_nltk content h)) /\
     deref content
       (fst (@ProcessorLLM.batch_process ascii_unicode demo_nltk offline_llm true [1; 0] h))
       = deref content
           (fst (@ProcessorLLM.process_content ascii_unicode demo_nltk offline_llm true
                   content h)) /\
     deref content (fst (@batch_clean offline_llm [1; 0] (VStr (py "general")) h))
       = deref content
           (fst (@ProcessorLLM.clean_content offline_llm content (VStr (py "general")) h))) /\
  (forall l, ~ In l [1; 0] ->
     fst (@Processor.batch_process ascii_unicode demo_nltk [1; 0] h) !! l = h !! l /\
     fst (@ProcessorLLM.batch_process ascii_unicode demo_nltk offline_llm true [1; 0] h) !! l
       = h !! l /\
     fst (@batch_clean offline_llm [1; 0] (VStr (py "general")) h) !! l = h !! l) /\
  snd (@batch_clean offline_llm [1; 0] (VStr (py "general")) h) = Ok [1; 0].
Proof.
  apply (@batch_records_independent ascii_unicode demo_nltk offline_llm true
           (VStr (py "general")) [1; 0]).
  constructor; [simpl; intros [H | []]; discriminate H|].
  constructor; [simpl; tauto | constructor].
Defined.

(** ** The workflow *)

Lemma deref_store_from (records : list (list (string * pyval))) :
  forall (k i : nat) fields,
    records !! i = Some fields ->
    deref (k + i) (store_from k records) = update_dict fields ∅.
Proof.
  induction records as [|first rest IH]; intros k i fields Hi; [discriminate Hi|].
  cbn [store_from]. destruct i as [|i].
  - injection Hi as ->. rewrite Nat.add_0_r. apply deref_insert.
  - rewrite deref_insert_ne by lia.
    replace (k + S i) with (S k + i) by lia. now apply IH.
Qed.

Lemma categorize_all_run `{PyUnicode} :
  forall (scraped_content : list loc) (h : heap),
    List.NoDup scraped_content ->
    (forall content, In content scraped_content ->
                     exists r, snd (categorize_content content h) = Ok r) ->
    categorize_all scraped_content h
    = (processed_store categorize_content scraped_content h, Ok scraped_content).
Proof.
  induction scraped_content as [|content rest IH]; intros h Hnd Hok; [reflexivity|].
  apply List.NoDup_cons_iff in Hnd as [Hfirst Hnd].
  cbn [categorize_all]. unfold bind at 1.
  destruct (Hok content (or_introl eq_refl)) as [r Hr].
  destruct (categorize_content content h) as [h1 res] eqn:Erun. cbn [snd] in Hr. subst res.
  assert (r = content) as ->.
  { now destruct (categorize_content_ok _ _ _ _ Erun) as (? & ? & ? & _ & _ & _ & _ & ->). }
  unfold bind. rewrite (IH h1 Hnd).
  - unfold ret, processed_store. cbn [fold_left]. now rewrite Erun.
  - intros l Hl. destruct (Hok l (or_intror Hl)) as [r' Hr'].
    exists r'. rewrite <- Hr'.
    assert (Hne : l <> content) by (intros ->; contradiction).
    apply (local_categorize_content l h1).
    unfold deref.
    pose proof (proj1 (local_categorize_content content h) l Hne) as Hframe.
    rewrite Erun in Hframe. cbn [fst] in Hframe. now rewrite Hframe.
Qed.

Lemma seq_NoDup_In (n : nat) : List.NoDup (seq 0 n) /\ forall i, In i (seq 0 n) <-> i < n.
Proof.
  split; [apply List.seq_NoDup|]. intros i. rewrite List.in_seq. lia.
Qed.

(** The record the workflow makes of a page: the record [scrape_url]
    returned for it, categorized and processed. *)
Lemma processed_empty_record `{PyUnicode} `{NLTK} `{LLM}
    (use_llm : bool) (l : loc) (h : heap) (url title : str) :
  deref l h = update_dict (empty_record url title) ∅ ->
  exists category h1 h2,
    choose_category (sector_scores (str_lower [] ++ py " " ++ str_lower title)) = Ok category /\
    categorize_content l h = (h1, Ok l) /\
    ProcessorLLM.process_content use_llm l h1 = (h2, Ok l) /\
    deref l h2 !! "url"%string = Some (VStr url) /\
    deref l h2 !! "title"%string = Some (VStr title) /\
    deref l h2 !! "content"%string = Some (VStr []) /\
    deref l h2 !! "category"%string = Some (VStr category) /\
    deref l h2 !! "keywords"%string = Some (VList []) /\
    deref l h2 !! "themes"%string = Some (VList []) /\
    deref l h2 !! "sentiment"%string = Some (VStr (py "neutral")).
Proof.
  intros Hd.
  destruct (choose_category_cases
              (sector_scores (str_lower [] ++ py " " ++ str_lower title)))
    as (category & Hch & _).
  assert (Hc : deref l h !! "content"%string = Some (VStr [])) by (now rewrite Hd).
  assert (Ht : deref l h !! "title"%string = Some (VStr title)) by (now rewrite Hd).
  assert (Hu : deref l h !! "url"%string = Some (VStr url)) by (now rewrite Hd).
  pose proof (categorize_content_run h l [] title category Hc) as Hcat.
  rewrite Ht in Hcat. specialize (Hcat eq_refl Hch).
  set (h1 := <[l := <["category"%string := VStr category]> (deref l h)]> h) in *.
  assert (Hc1 : default (VStr []) (deref l h1 !! "content"%string) = VStr []).
  { unfold h1. rewrite deref_insert, lookup_insert_ne by discriminate. now rewrite Hc. }
  pose proof (process_content_llm_blank_run use_llm l h1 [] Hc1 eq_refl) as Hrun.
  cbv zeta in Hrun.
  eexists category, h1, _. refine (conj Hch (conj Hcat (conj Hrun _))).
  assert (Hkeep : forall key v,
            ~ In key ["category"; "keywords"; "themes"; "sentiment";
                      "cleaned_content"; "key_insights"; "relevance_score"]%string ->
            deref l h !! key = Some v ->
            deref l (<[l := update_dict blank_fields
                              (deref l (if use_llm
                                        then <[l := update_dict
                                                      [("cleaned_content", VStr []);
                                                       ("key_insights", VList []);
                                                       ("relevance_score", VFloat 0 0)]%string
                                                      (deref l h1)]> h1
                                        else h1))]>
                       (if use_llm
                        then <[l := update_dict
                                      [("cleaned_content", VStr []);
                                       ("key_insights", VList []);
                                       ("relevance_score", VFloat 0 0)]%string
                                      (deref l h1)]> h1
                        else h1)) !! key = Some v).
  { intros key v Hk Hv. rewrite deref_insert.
    rewrite update_dict_lookup_notin by (simpl in *; tauto).
    assert (Hh1 : deref l h1 !! key = Some v).
    { unfold h1. rewrite deref_insert, lookup_insert_ne; [exact Hv|].
      intros <-. apply Hk. now left. }
    destruct use_llm; [|exact Hh1].
    rewrite deref_insert, update_dict_lookup_notin by (simpl in *; tauto). exact Hh1. }
  assert (Hnd : List.NoDup (List.map fst blank_fields)).
  { simpl. repeat (constructor; [simpl; intuition discriminate|]). constructor. }
  refine (conj _ (conj _ (conj _ (conj _ (conj _ (conj _ _)))))).
  - apply Hkeep; [simpl; intuition discriminate | exact Hu].
  - apply Hkeep; [simpl; intuition discriminate | exact Ht].
  - apply Hkeep; [simpl; intuition discriminate | exact Hc].
  - rewrite deref_insert.
    rewrite update_dict_lookup_notin by (simpl; intuition discriminate).
    assert (Hh1 : deref l h1 !! "category"%string = Some (VStr category)).
    { unfold h1. now rewrite deref_insert, lookup_insert_eq. }
    destruct use_llm; [|exact Hh1].
    rewrite deref_insert, update_dict_lookup_notin by (simpl; intuition discriminate).
    exact Hh1.
  - rewrite deref_insert. apply update_dict_lookup_in; [exact Hnd | simpl; auto].
  - rewrite deref_insert. apply update_dict_lookup_in; [exact Hnd | simpl; auto].
  - rewrite deref_insert. apply update_dict_lookup_in; [exact Hnd | simpl; auto].
Qed.

(** Whatever the pages hold, the workflow of main_llm.py processes no
    content.  It scrapes the urls with [scrape_multiple_urls] and stops
    early exactly when that returns no record.  Otherwise categorizing
    and processing raise nothing and hand on the scraped records, one
    for one and in their order; each is a record of a url and a title
    with the empty string as content, and ends with no keywords, no
    themes, the sentiment [neutral], and as category the one the Sector
    Scorer chooses for the title alone. *)
Theorem workflow_processes_no_content `{PyUnicode} `{NLTK} `{LLM} `{Web}
    (use_llm : bool) (urls : list str) (s : session) :
  let scraped := scrape_multiple_urls urls 2 s in
  fst (scrape_and_process use_llm urls s) = fst scraped /\
  match snd (scrape_and_process use_llm urls s) with
  | None => snd scraped = []
  | Some (h, processed_content) =>
      snd scraped <> [] /\
      processed_content = Ok (seq 0 (length (snd scraped))) /\
      forall i scraped_record,
        snd scraped !! i = Some scraped_record ->
        exists url title,
          scraped_record = empty_record url title /\
          deref i h !! "url"%string = Some (VStr url) /\
          deref i h !! "title"%string = Some (VStr title) /\
          deref i h !! "content"%string = Some (VStr []) /\
          deref i h !! "keywords"%string = Some (VList []) /\
          deref i h !! "themes"%string = Some (VList []) /\
          deref i h !! "sentiment"%string = Some (VStr (py "neutral")) /\
          exists category,
            deref i h !! "category"%string = Some (VStr category) /\
            choose_category (sector_scores (str_lower [] ++ py " " ++ str_lower title))
              = Ok category
  end.
Proof.
  cbv zeta.
  destruct (scrape_loop_run 2 urls [] s) as (found & Hsnd & _).
  unfold scrape_and_process, scrape_multiple_urls in *.
  destruct (scrape_loop urls 2 [] s) as [s' scraped_content]. cbn [fst snd app] in *.
  subst scraped_content.
  destruct found as [|first found']; [split; reflexivity|].
  set (found := first :: found') in *.
  change (List.map (fun ut => empty_record (fst ut) (snd ut)) found)
    with (empty_record (fst first) (snd first)
            :: List.map (fun ut => empty_record (fst ut) (snd ut)) found') at 1.
  cbv beta iota. cbn [fst snd]. split; [reflexivity|].
  change (empty_record (fst first) (snd first)
            :: List.map (fun ut => empty_record (fst ut) (snd ut)) found')
    with (List.map (fun ut => empty_record (fst ut) (snd ut)) found).
  set (scraped_content := List.map (fun ut => empty_record (fst ut) (snd ut)) found).
  set (h0 := store_from 0 scraped_content).
  set (locs := seq 0 (length scraped_content)).
  assert (Hlen : length scraped_content = length found) by apply List.length_map.
  destruct (seq_NoDup_In (length scraped_content)) as [Hnd Hin]. fold locs in Hnd, Hin.
  assert (Hrec : forall i url title,
             found !! i = Some (url, title) ->
             In i locs /\ deref i h0 = update_dict (empty_record url title) ∅).
  { intros i url title Hi. split.
    - apply Hin. rewrite Hlen. apply lookup_lt_Some in Hi. exact Hi.
    - apply (deref_store_from scraped_content 0 i).
      unfold scraped_content.
      change (List.map ?f ?l) with (f <$> l). rewrite list_lookup_fmap, Hi. reflexivity. }
  assert (Hfound : forall i, In i locs -> exists url title, found !! i = Some (url, title)).
  { intros i Hi. apply Hin in Hi. rewrite Hlen in Hi.
    apply lookup_lt_is_Some_2 in Hi as [[url title] Hi]. eauto. }
  assert (Hcat : categorize_all locs h0
                 = (processed_store categorize_content locs h0, Ok locs)).
  { apply categorize_all_run; [exact Hnd|]. intros i Hi.
    destruct (Hfound i Hi) as (url & title & Hf).
    destruct (Hrec i url title Hf) as [_ Hd].
    destruct (processed_empty_record use_llm i h0 url title Hd)
      as (c & h1 & h2 & _ & Hrun & _).
    exists i. now rewrite Hrun. }
  unfold bind. rewrite Hcat. unfold ProcessorLLM.batch_process.
  rewrite (batch_loop_run _ (process_content_llm_same use_llm)). cbn [app].
  split; [discriminate|]. split; [reflexivity|].
  intros i scraped_record Hi.
  unfold scraped_content in Hi.
  change (List.map ?f ?l) with (f <$> l) in Hi.
  apply list_lookup_fmap_Some in Hi as ([url title] & -> & Ei).
  cbn [fst snd]. exists url, title.
  destruct (Hrec i url title Ei) as [Hloc Hd].
  destruct (processed_empty_record use_llm i h0 url title Hd)
    as (c & h1 & h2 & Hch & Hrun1 & Hrun2 & Hu & Ht & Hc & Hcg & Hk & Hth & Hs).
  assert (Hfinal : deref i (processed_store (ProcessorLLM.process_content use_llm) locs
                              (processed_store categorize_content locs h0))
                   = deref i h2).
  { rewrite (processed_store_independent _ (local_process_content_llm use_llm)
               locs _ i Hnd Hloc).
    replace h2 with (fst (ProcessorLLM.process_content use_llm i h1))
      by (now rewrite Hrun2).
    apply (local_process_content_llm use_llm i).
    rewrite (processed_store_independent _ local_categorize_content locs h0 i Hnd Hloc).
    now rewrite Hrun1. }
  rewrite Hfinal. split; [reflexivity|]. eauto 10.
Qed.

(** ** generator.py: the character limit *)

Lemma lstrip_length (s : list N) : length (lstrip s) <= length s.
Proof.
  induction s as [|c s IH]; [reflexivity|]. cbn [lstrip].
  destruct (isspace c); cbn [length]; lia.
Qed.

Lemma rstrip_length (s : list N) : length (rstrip s) <= length s.
Proof.
  unfold rstrip. rewrite List.length_rev.
  etransitivity; [apply lstrip_length|]. now rewrite List.length_rev.
Qed.

Lemma strip_length (s : list N) : length (strip s) <= length s.
Proof.
  unfold strip. rewrite List.length_rev.
  etransitivity; [apply lstrip_length|]. rewrite List.length_rev. apply lstrip_length.
Qed.

Lemma max_chars_room : 53 <= max_chars.
Proof. apply Nat.leb_le. vm_compute. reflexivity. Qed.

Lemma take_paragraphs_length (paragraphs : list str) :
  forall polished_draft,
    length polished_draft <= max_chars - 50 ->
    length (take_paragraphs polished_draft paragraphs) <= max_chars - 50.
Proof.
  induction paragraphs as [|para rest IH]; intros polished_draft Hlen; [exact Hlen|].
  cbn [take_paragraphs].
  destruct (max_chars - 50 <? length (polished_draft ++ paragraph_break ++ para)) eqn:E;
    [exact Hlen|].
  apply Nat.ltb_ge in E. apply IH.
  rewrite !List.length_app in *. change (length paragraph_break) with 2 in *.
  destruct (is_empty polished_draft); change (length paragraph_break) with 2 in *;
    cbn [length] in *; lia.
Qed.

(** [_polish_draft] enforces the character limit: no draft it returns
    is longer than [max_chars]. *)
Theorem polish_draft_within_limit `{PyUnicode} (draft : str) :
  length (_polish_draft draft) <= max_chars.
Proof.
  unfold _polish_draft. cbv zeta.
  etransitivity; [apply strip_length|].
  etransitivity; [apply re_sub_length; vm_compute; lia|].
  destruct (max_chars <? length draft) eqn:E.
  - rewrite List.length_app.
    pose proof (rstrip_length (take_paragraphs [] (split_str paragraph_break draft))).
    pose proof (take_paragraphs_length (split_str paragraph_break draft) []) as Hlen.
    cbn [length] in Hlen. specialize (Hlen (Nat.le_0_l _)).
    pose proof max_chars_room.
    change (length (py "...")) with 3. lia.
  - apply Nat.ltb_ge in E. etransitivity; [apply rstrip_length | exact E].
Qed.

(** A draft over the limit whose first paragraph alone does not fit
    into the [max_chars - 50] characters kept is lost altogether:
    [_polish_draft] returns just the three full stops. *)
Theorem polish_draft_loses_long_paragraph `{PyUnicode} (draft : str) :
  max_chars < length draft ->
  max_chars - 52 < length (hd [] (split_str paragraph_break draft)) ->
  _polish_draft draft = py "...".
Proof.
  intros Hlong Hfirst. unfold _polish_draft. cbv zeta.
  apply Nat.ltb_lt in Hlong. rewrite Hlong.
  destruct (split_str paragraph_break draft) as [|para rest].
  - reflexivity.
  - cbn [hd] in Hfirst. cbn [take_paragraphs].
    assert (E : (max_chars - 50 <? length ([] ++ paragraph_break ++ para)) = true).
    { apply Nat.ltb_lt. cbn [app]. rewrite List.length_app.
      change (length paragraph_break) with 2. lia. }
    rewrite E. reflexivity.
Qed.

Lemma polish_draft_loses_long_paragraph_witness :
  @_polish_draft ascii_unicode (repeat 97%N 3001) = py "...".
Proof.
  apply (@polish_draft_loses_long_paragraph ascii_unicode (repeat 97%N 3001)).
  - apply Nat.ltb_lt. vm_compute. reflexivity.
  - apply Nat.ltb_lt. vm_compute. reflexivity.
Defined.

(** ** generator.py: the hashtags *)

Lemma fold_append_new (candidates : list (option str)) :
  forall hashtags : list str,
    exists added,
      fold_left append_new candidates hashtags = hashtags ++ added /\
      length added <= length candidates /\
      (List.NoDup hashtags -> List.NoDup (hashtags ++ added)) /\
      (forall hashtag, In hashtag added -> In (Some hashtag) candidates) /\
      (forall hashtag, In (Some hashtag) candidates -> In hashtag (hashtags ++ added)).
Proof.
  induction candidates as [|candidate rest IH]; intros hashtags.
  - exists []. cbn [fold_left length]. rewrite List.app_nil_r.
    refine (conj eq_refl (conj (le_n _) (conj (fun H => H) (conj _ _)))); intros ? [].
  - cbn [fold_left].
    destruct (IH (append_new hashtags candidate)) as (added & Hrun & Hlen & Hnd & Hin & Hall).
    destruct candidate as [hashtag|]; cbn [append_new] in *.
    + destruct (mem hashtag hashtags) eqn:Emem.
      * exists added. cbn [length].
        refine (conj Hrun (conj _ (conj Hnd (conj _ _)))); [lia | |].
        -- intros t Ht. right. now apply Hin.
        -- intros t [[= ->] | Ht]; [|now apply Hall].
           apply List.in_or_app. left. now apply mem_In.
      * exists (hashtag :: added). cbn [length].
        rewrite <- List.app_assoc in Hrun, Hnd, Hall. cbn [app] in Hrun, Hnd, Hall.
        refine (conj Hrun (conj _ (conj _ (conj _ _)))); [lia | | |].
        -- intros Hno. apply Hnd. apply List.NoDup_app.
           ++ exact Hno.
           ++ repeat constructor. intros [].
           ++ intros x Hx [<- | []]. apply mem_In in Hx. congruence.
        -- intros t [<- | Ht]; [now left | right; now apply Hin].
        -- intros t [[= ->] | Ht]; [|now apply Hall].
           apply List.in_or_app. right. now left.
    + exists added. cbn [length].
      refine (conj Hrun (conj _ (conj Hnd (conj _ _)))); [lia | |].
      * intros t Ht. right. now apply Hin.
      * intros t [Hd | Ht]; [discriminate Hd | now apply Hall].
Qed.

Lemma fold_left_map_step {A B C} (f : C -> A -> C) (g : C -> B -> C) (enc : A -> B) :
  (forall c a, f c a = g c (enc a)) ->
  forall l c, fold_left f l c = fold_left g (List.map enc l) c.
Proof.
  intros Hstep. induction l as [|a l IH]; intros c; [reflexivity|].
  cbn [fold_left List.map]. now rewrite Hstep, IH.
Qed.

Lemma category_tags_cases (category : str) :
  In (category_tags category) (List.map snd category_hashtags).
Proof.
  unfold category_tags.
  replace (default [] (table_get (py "general") category_hashtags))
    with (List.map py ["#Business"; "#Technology"; "#News"; "#Insights";
                       "#ProfessionalDevelopment"]%string)
    by (vm_compute; reflexivity).
  unfold category_hashtags. cbn [table_get].
  repeat match goal with
         | |- context [if ?b then _ else _] => destruct b
         end; cbn [List.map snd In default]; auto 10.
Qed.

Lemma category_tags_shape (category : str) :
  length (category_tags category) = 5 /\
  List.NoDup (category_tags category) /\
  Forall (fun tag => startswith (py "#") tag = true) (category_tags category).
Proof.
  pose proof (category_tags_cases category) as Hin.
  cbn [category_hashtags List.map snd In] in Hin.
  assert (Hne : forall a b : string, str_eqb (py a) (py b) = false -> py a <> py b).
  { intros a b Hab Heq. rewrite Heq, str_eqb_refl in Hab. discriminate. }
  repeat (destruct Hin as [<- | Hin]);
    [ | | | | destruct Hin];
    (refine (conj eq_refl (conj _ _));
     [ repeat (constructor;
               [cbn [In]; intros Hd;
                repeat (destruct Hd as [Hd | Hd];
                        [revert Hd; apply Hne; vm_compute; reflexivity|]);
                exact Hd|]);
       constructor
     | repeat (constructor; [vm_compute; reflexivity|]); constructor ]).
Qed.

(** The hashtags of [_generate_curated_hashtags] are the five of the
    category (those of [general] for a category without an entry)
    followed by at most three new ones, no hashtag twice, each
    beginning with [#].  The final cut to eight never removes any:
    every keyword or theme hashtag that passes the tests of the loops is
    in the result. *)
Theorem curated_hashtags_never_cut `{PyCase} (category : str) (keywords themes : list str) :
  let hashtags := _generate_curated_hashtags category keywords themes in
  (exists added, hashtags = category_tags category ++ added /\ length added <= 3) /\
  length hashtags <= 8 /\
  List.NoDup hashtags /\
  Forall (fun tag => startswith (py "#") tag = true) hashtags /\
  (forall kw, In kw (firstn 2 keywords) ->
              3 < length kw -> 4 < length (keyword_hashtag kw) ->
              In (keyword_hashtag kw) hashtags) /\
  (forall theme, In theme (firstn 1 themes) ->
                 1 < length (firstn 2 (split theme)) ->
                 In (theme_hashtag theme) hashtags).
Proof.
  cbv zeta. unfold _generate_curated_hashtags. cbv zeta.
  set (kw_candidate := fun kw : str =>
         if ((3 <? length kw) && (4 <? length (keyword_hashtag kw)))%bool
         then Some (keyword_hashtag kw) else None).
  set (theme_candidate := fun theme : str =>
         if 1 <? length (firstn 2 (split theme)) then Some (theme_hashtag theme) else None).
  rewrite (fold_left_map_step add_keyword_hashtag append_new kw_candidate).
  2:{ intros tags kw. unfold add_keyword_hashtag, kw_candidate, append_new. cbv zeta.
      destruct (3 <? length kw), (4 <? length (keyword_hashtag kw));
        cbn [andb]; try reflexivity;
        destruct (mem (keyword_hashtag kw) tags); reflexivity. }
  rewrite (fold_left_map_step add_theme_hashtag append_new theme_candidate).
  2:{ intros tags theme. unfold add_theme_hashtag, theme_candidate, append_new. cbv zeta.
      destruct (1 <? length (firstn 2 (split theme))); try reflexivity;
        destruct (mem (theme_hashtag theme) tags); reflexivity. }
  destruct (category_tags_shape category) as (Hlen0 & Hnd0 & Hsharp0).
  destruct (fold_append_new (List.map kw_candidate (firstn 2 keywords))
              (category_tags category)) as (added1 & -> & Hlen1 & Hnd1 & Hin1 & Hall1).
  destruct (fold_append_new (List.map theme_candidate (firstn 1 themes))
              (category_tags category ++ added1))
    as (added2 & -> & Hlen2 & Hnd2 & Hin2 & Hall2).
  rewrite List.length_map in Hlen1, Hlen2.
  pose proof (List.firstn_le_length 2 keywords) as Hk.
  pose proof (List.firstn_le_length 1 themes) as Ht.
  assert (Hlen : length ((category_tags category ++ added1) ++ added2) <= 8).
  { rewrite !List.length_app. lia. }
  rewrite List.firstn_all2 by exact Hlen.
  refine (conj _ (conj Hlen (conj (Hnd2 (Hnd1 Hnd0)) (conj _ (conj _ _))))).
  - exists (added1 ++ added2). rewrite List.app_assoc. split; [reflexivity|].
    rewrite List.length_app. lia.
  - apply List.Forall_app. split; [apply List.Forall_app; split|].
    + exact Hsharp0.
    + apply List.Forall_forall. intros tag Htag. apply Hin1 in Htag.
      apply List.in_map_iff in Htag as (kw & Hkw & _). unfold kw_candidate in Hkw.
      destruct (_ && _)%bool; [|discriminate]. now injection Hkw as <-.
    + apply List.Forall_forall. intros tag Htag. apply Hin2 in Htag.
      apply List.in_map_iff in Htag as (theme & Hth & _). unfold theme_candidate in Hth.
      destruct (_ <? _); [|discriminate]. now injection Hth as <-.
  - intros kw Hkw H3 H4. apply List.in_or_app. left. apply Hall1.
    apply List.in_map_iff. exists kw. split; [|exact Hkw]. unfold kw_candidate.
    apply Nat.ltb_lt in H3, H4. now rewrite H3, H4.
  - intros theme Hth H1. apply Hall2.
    apply List.in_map_iff. exists theme. split; [|exact Hth]. unfold theme_candidate.
    apply Nat.ltb_lt in H1. now rewrite H1.
Qed.

(** ** The aggregated insights *)

Lemma tally_add_total (k : pyval) (c : list (pyval * nat)) :
  list_sum (List.map snd (tally_add k c)) = S (list_sum (List.map snd c)).
Proof.
  induction c as [|[y n] c IH]; [reflexivity|]. cbn [tally_add].
  destruct (pyval_eqb k y); cbn [List.map snd];
    change (list_sum (?a :: ?l)) with (a + list_sum l); lia.
Qed.

Lemma pyval_eqb_str (s : str) (v : pyval) : pyval_eqb (VStr s) v = true <-> v = VStr s.
Proof.
  destruct v as [t| | |]; cbn [pyval_eqb]; split; try discriminate.
  - intros E. apply str_eqb_eq in E. now subst.
  - intros [= ->]. apply str_eqb_refl.
Qed.

Lemma tally_add_count (s : str) (k : pyval) (c : list (pyval * nat)) :
  tally_count (VStr s) (tally_add k c) =
  if pyval_eqb (VStr s) k then S (tally_count (VStr s) c) else tally_count (VStr s) c.
Proof.
  induction c as [|[y n] c IH]; cbn [tally_add tally_count].
  - now destruct (pyval_eqb (VStr s) k).
  - destruct (pyval_eqb k y) eqn:Eky; cbn [tally_count].
    + destruct (pyval_eqb (VStr s) y) eqn:Esy.
      * apply pyval_eqb_str in Esy. subst y.
        assert (Hk : k = VStr s).
        { destruct k; cbn [pyval_eqb] in Eky; try discriminate.
          apply str_eqb_eq in Eky. now subst. }
        subst k. now rewrite (proj2 (pyval_eqb_str s (VStr s)) eq_refl).
      * destruct (pyval_eqb (VStr s) k) eqn:Esk; [|reflexivity].
        apply pyval_eqb_str in Esk. subst k. congruence.
    + destruct (pyval_eqb (VStr s) y) eqn:Esy; [|exact IH].
      apply pyval_eqb_str in Esy. subst y.
      destruct (pyval_eqb (VStr s) k) eqn:Esk; [|reflexivity].
      apply pyval_eqb_str in Esk. subst k.
      rewrite (proj2 (pyval_eqb_str s (VStr s)) eq_refl) in Eky. discriminate.
Qed.

Lemma fold_tally_add_total (key : string) (dflt : pyval) (h : heap) (l : list loc) :
  forall c,
    list_sum (List.map snd
                (fold_left (fun c content => tally_add (default dflt (deref content h !! key)) c)
                           l c))
    = list_sum (List.map snd c) + length l.
Proof.
  induction l as [|content l IH]; intros c; cbn [fold_left length]; [lia|].
  rewrite IH, tally_add_total. lia.
Qed.

Lemma fold_tally_add_count (key : string) (dflt : pyval) (s : str) (h : heap) (l : list loc) :
  forall c,
    tally_count (VStr s)
      (fold_left (fun c content => tally_add (default dflt (deref content h !! key)) c) l c)
    = tally_count (VStr s) c + records_with key dflt s h l.
Proof.
  unfold records_with.
  induction l as [|content l IH]; intros c; cbn [fold_left List.filter length]; [lia|].
  rewrite IH, tally_add_count.
  destruct (pyval_eqb (VStr s) (default dflt (deref content h !! key)));
    cbn [length]; lia.
Qed.

Lemma insights_loop_run (h : heap) (l : list loc) :
  forall acc,
    insights_loop l acc h =
    (h, if forallb (aggregable h) l
        then Ok {| Tallies.all_keywords := Tallies.all_keywords acc ++ flat_map (strings_in "keywords" h) l;
                   Tallies.all_themes := Tallies.all_themes acc ++ flat_map (strings_in "themes" h) l;
                   Tallies.categories :=
                     fold_left (fun c content =>
                                  tally_add (default (VStr (py "unknown"))
                                               (deref content h !! "category"%string)) c)
                               l (Tallies.categories acc);
                   Tallies.sentiments :=
                     fold_left (fun c content =>
                                  tally_add (default (VStr (py "neutral"))
                                               (deref content h !! "sentiment"%string)) c)
                               l (Tallies.sentiments acc) |}
        else Raise TypeError).
Proof.
  induction l as [|content l IH]; intros acc.
  - cbn [insights_loop forallb flat_map fold_left]. unfold ret.
    rewrite !List.app_nil_r. now destruct acc.
  - cbn [insights_loop forallb flat_map fold_left].
    unfold bind, get, lift, aggregable, strings_in.
    destruct (default (VList []) (deref content h !! "keywords"%string)) as [kw|kws| |];
      cbn [iterate iterable andb]; try reflexivity;
      (destruct (default (VList []) (deref content h !! "themes"%string)) as [th|ths| |];
       cbn [iterate iterable andb]; try reflexivity;
       (destruct (default (VStr (py "unknown")) (deref content h !! "category"%string))
          as [c|c| |];
        cbn [tally hashable andb]; try reflexivity;
        (destruct (default (VStr (py "neutral")) (deref content h !! "sentiment"%string))
           as [s|s| |];
         cbn [tally hashable andb]; try reflexivity;
         rewrite IH; cbn [Tallies.all_keywords Tallies.all_themes Tallies.categories Tallies.sentiments];
         rewrite <- !List.app_assoc; reflexivity))).
Qed.

(** [extract_insights] returns exactly when every record has keywords
    and themes that can be iterated (a list or a string) and a category
    and a sentiment that can be a key (not a list); otherwise it raises
    [TypeError].  It writes nothing. *)
Theorem extract_insights_returns_iff (processed_content_list : list loc) (h : heap) :
  fst (extract_insights processed_content_list h) = h /\
  ((exists insights, snd (extract_insights processed_content_list h) = Ok insights)
   <-> forallb (aggregable h) processed_content_list = true) /\
  (forall e, snd (extract_insights processed_content_list h) = Raise e -> e = TypeError).
Proof.
  unfold extract_insights, bind. rewrite insights_loop_run.
  destruct (forallb (aggregable h) processed_content_list); cbn [fst snd].
  - unfold ret. cbn [fst snd]. refine (conj eq_refl (conj _ _)).
    + split; [reflexivity | eauto].
    + discriminate.
  - refine (conj eq_refl (conj _ _)).
    + split; [intros [? [=]] | discriminate].
    + now intros e [= <-].
Qed.

(** What [extract_insights] returns: the number of records; the
    keywords and the themes of all records ranked by frequency, cut at
    20 and 10, a keyword field that is a string counting by its
    characters; and the two distributions, whose counts add up to the
    number of records and which store for each string the number of
    records it is the category (the sentiment) of, a record without the
    field counting as [unknown] (as [neutral]). *)
Theorem extract_insights_aggregates (processed_content_list : list loc) (h h' : heap)
    (insights : Insights.t) :
  extract_insights processed_content_list h = (h', Ok insights) ->
  Insights.total_content insights = length processed_content_list /\
  ranked (flat_map (strings_in "keywords" h) processed_content_list) 20
         (Insights.top_keywords insights) /\
  ranked (flat_map (strings_in "themes" h) processed_content_list) 10
         (Insights.top_themes insights) /\
  list_sum (List.map snd (Insights.category_distribution insights))
    = length processed_content_list /\
  list_sum (List.map snd (Insights.sentiment_distribution insights))
    = length processed_content_list /\
  (forall category,
     tally_count (VStr category) (Insights.category_distribution insights)
     = records_with "category" (VStr (py "unknown")) category h processed_content_list) /\
  (forall sentiment,
     tally_count (VStr sentiment) (Insights.sentiment_distribution insights)
     = records_with "sentiment" (VStr (py "neutral")) sentiment h processed_content_list).
Proof.
  unfold extract_insights, bind. rewrite insights_loop_run.
  destruct (forallb (aggregable h) processed_content_list); [|discriminate].
  unfold ret. intros [= _ <-].
  cbn [Insights.total_content Insights.top_keywords Insights.top_themes
       Insights.category_distribution Insights.sentiment_distribution
       Tallies.all_keywords Tallies.all_themes Tallies.categories Tallies.sentiments app].
  refine (conj eq_refl (conj _ (conj _ (conj _ (conj _ (conj _ _)))))).
  - apply most_common_ranked.
  - apply most_common_ranked.
  - now rewrite fold_tally_add_total.
  - now rewrite fold_tally_add_total.
  - intros category. now rewrite fold_tally_add_count.
  - intros sentiment. now rewrite fold_tally_add_count.
Qed.

Lemma extract_insights_aggregates_witness :
  let h := store_from 0
             [ [("keywords", VList [py "battery"; py "mat"]); ("category", VStr (py "e-mobility"));
                ("sentiment", VStr (py "positive"))];
               [("keywords", VStr (py "mat")); ("themes", VList [py "cat sat"])];
               [("keywords", VList [py "mat"]); ("category", VStr (py "e-mobility"))] ]%string in
  let insights := {| Insights.total_content := 3;
                     Insights.top_keywords := [py "mat"; py "battery"; py "m"; py "a"; py "t"];
                     Insights.top_themes := [py "cat sat"];
                     Insights.category_distribution :=
                       [(VStr (py "e-mobility"), 2); (VStr (py "unknown"), 1)];
                     Insights.sentiment_distribution :=
                       [(VStr (py "positive"), 1); (VStr (py "neutral"), 2)] |} in
  Insights.total_content insights = length [0; 1; 2] /\
  ranked (flat_map (strings_in "keywords" h) [0; 1; 2]) 20 (Insights.top_keywords insights) /\
  ranked (flat_map (strings_in "themes" h) [0; 1; 2]) 10 (Insights.top_themes insights) /\
  list_sum (List.map snd (Insights.category_distribution insights)) = length [0; 1; 2] /\
  list_sum (List.map snd (Insights.sentiment_distribution insights)) = length [0; 1; 2] /\
  (forall category,
     tally_count (VStr category) (Insights.category_distribution insights)
     = records_with "category" (VStr (py "unknown")) category h [0; 1; 2]) /\
  (forall sentiment,
     tally_count (VStr sentiment) (Insights.sentiment_distribution insights)
     = records_with "sentiment" (VStr (py "neutral")) sentiment h [0; 1; 2]).
Proof.
  cbv zeta.
  eapply (extract_insights_aggregates [0; 1; 2]).
  vm_compute. reflexivity.
Defined.

(** ** queue_manager.py: the queue of drafts *)

Lemma draft_of_set_field (draft draft' : nat) (key : string) (v : jval)
    (st : QueueManager.state) :
  QueueManager.draft_of draft' (QueueManager.set_field draft key v st) =
  if decide (draft = draft') then <[key := v]> (QueueManager.draft_of draft st)
  else QueueManager.draft_of draft' st.
Proof.
  unfold QueueManager.draft_of, QueueManager.set_field. cbn [QueueManager.store].
  rewrite lookup_insert. repeat case_decide; try reflexivity; congruence.
Qed.

(** The state [add_draft] leaves, whatever it returns. *)
Lemma add_draft_state `{Clock} `{Disk} (draft_dict : nat) (st : QueueManager.state) :
  fst (QueueManager.add_draft draft_dict st) =
  let st1 := QueueManager.set_field draft_dict "status" (JStr (py "pending"))
               (QueueManager.set_field draft_dict "added_at"
                  (JStr (isoformat_now (QueueManager.ticks st)))
                  {| QueueManager.store := QueueManager.store st;
                     QueueManager.queue := QueueManager.queue st;
                     QueueManager.file := QueueManager.file st;
                     QueueManager.ticks := S (QueueManager.ticks st);
                     QueueManager.writes := QueueManager.writes st |}) in
  QueueManager.save_queue
    {| QueueManager.store := QueueManager.store st1;
       QueueManager.queue := QueueManager.queue st ++ [draft_dict];
       QueueManager.file := QueueManager.file st;
       QueueManager.ticks := S (QueueManager.ticks st);
       QueueManager.writes := QueueManager.writes st |}.
Proof.
  unfold QueueManager.add_draft. cbv zeta.
  match goal with
  | |- context [match ?x with Some _ => _ | None => _ end] =>
      destruct x as [v|]; [destruct (QueueManager.len v)|]
  end; reflexivity.
Qed.

Lemma add_draft_fields `{Clock} `{Disk} (draft_dict draft : nat) (key : string)
    (st : QueueManager.state) :
  QueueManager.draft_of draft (fst (QueueManager.add_draft draft_dict st)) !! key =
  if decide (draft_dict = draft) then
    if decide (key = "status"%string) then Some (JStr (py "pending"))
    else if decide (key = "added_at"%string)
         then Some (JStr (isoformat_now (QueueManager.ticks st)))
         else QueueManager.draft_of draft st !! key
  else QueueManager.draft_of draft st !! key.
Proof.
  rewrite add_draft_state. cbv zeta.
  match goal with
  | |- QueueManager.draft_of draft (QueueManager.save_queue ?s) !! key = _ =>
      change (QueueManager.draft_of draft (QueueManager.save_queue s))
        with (QueueManager.draft_of draft
                (QueueManager.set_field draft_dict "status" (JStr (py "pending"))
                   (QueueManager.set_field draft_dict "added_at"
                      (JStr (isoformat_now (QueueManager.ticks st)))
                      {| QueueManager.store := QueueManager.store st;
                         QueueManager.queue := QueueManager.queue st;
                         QueueManager.file := QueueManager.file st;
                         QueueManager.ticks := S (QueueManager.ticks st);
                         QueueManager.writes := QueueManager.writes st |})))
  end.
  rewrite draft_of_set_field.
  destruct (decide (draft_dict = draft)) as [->|Hne].
  - rewrite draft_of_set_field, decide_True by reflexivity.
    destruct (decide (key = "status"%string)) as [->|Hs]; [apply lookup_insert_eq|].
    rewrite lookup_insert_ne by congruence.
    destruct (decide (key = "added_at"%string)) as [->|Ha]; [apply lookup_insert_eq|].
    rewrite lookup_insert_ne by congruence. reflexivity.
  - rewrite draft_of_set_field, decide_False by exact Hne. reflexivity.
Qed.

Lemma add_draft_result `{Clock} `{Disk} (draft_dict : nat) (st : QueueManager.state) :
  snd (QueueManager.add_draft draft_dict st) =
  match QueueManager.draft_of draft_dict (fst (QueueManager.add_draft draft_dict st))
          !! "draft"%string with
  | None => Raise (KeyError "draft")
  | Some v => match QueueManager.len v with
              | Ok _ => Ok tt
              | Raise e => Raise e
              end
  end.
Proof.
  unfold QueueManager.add_draft. cbv zeta.
  match goal with
  | |- context [match ?x with Some _ => _ | None => _ end] =>
      destruct x as [v|] eqn:E; [destruct (QueueManager.len v) eqn:El|]
  end; cbn [fst snd]; rewrite E; try rewrite El; reflexivity.
Qed.

(** [add_draft] puts the draft at the end of the queue and stamps it
    before it looks at it: whatever it returns, the queue has grown by
    the draft, whose [status] is [pending] and whose [added_at] is the
    time read, no other field of any draft has changed, and a writing
    that went through has left the queue as it then was in the file.
    It raises [KeyError] for a draft without a [draft] field and
    [TypeError] for one whose [draft] has no length, with the draft
    in the queue all the same. *)
Theorem add_draft_enqueues_before_failing `{Clock} `{Disk}
    (draft_dict : nat) (st : QueueManager.state) :
  let run := QueueManager.add_draft draft_dict st in
  QueueManager.queue (fst run) = QueueManager.queue st ++ [draft_dict] /\
  QueueManager.draft_of draft_dict (fst run) !! "status"%string = Some (JStr (py "pending")) /\
  QueueManager.draft_of draft_dict (fst run) !! "added_at"%string
    = Some (JStr (isoformat_now (QueueManager.ticks st))) /\
  (forall draft key,
     draft <> draft_dict \/ (key <> "status"%string /\ key <> "added_at"%string) ->
     QueueManager.draft_of draft (fst run) !! key = QueueManager.draft_of draft st !! key) /\
  (write_queue_file (QueueManager.writes st) = Written ->
   QueueManager.file (fst run)
   = Saved (List.map (fun draft => QueueManager.draft_of draft (fst run))
              (QueueManager.queue (fst run)))) /\
  snd run = match QueueManager.draft_of draft_dict st !! "draft"%string with
            | None => Raise (KeyError "draft")
            | Some (JStr _) | Some (JList _) => Ok tt
            | Some _ => Raise TypeError
            end.
Proof.
  cbv zeta. refine (conj _ (conj _ (conj _ (conj _ (conj _ _))))).
  - now rewrite add_draft_state.
  - rewrite add_draft_fields. now rewrite !decide_True by reflexivity.
  - rewrite add_draft_fields. rewrite decide_True by reflexivity.
    rewrite decide_False by discriminate. now rewrite decide_True by reflexivity.
  - intros draft key Hother. rewrite add_draft_fields.
    destruct (decide (draft_dict = draft)) as [->|Hne]; [|reflexivity].
    destruct Hother as [Hd | [Hs Ha]]; [congruence|].
    now rewrite !decide_False by assumption.
  - intros Hw. rewrite add_draft_state. cbv zeta.
    unfold QueueManager.save_queue at 1. cbn [QueueManager.file QueueManager.writes].
    rewrite Hw. reflexivity.
  - rewrite add_draft_result, add_draft_fields.
    rewrite decide_True by reflexivity. rewrite !decide_False by discriminate.
    destruct (QueueManager.draft_of draft_dict st !! "draft"%string) as [[s|n|m e|l|]|];
      reflexivity.
Qed.

Lemma add_draft_frame `{Clock} `{Disk}
    (draft_dict : nat) (st : QueueManager.state) :
  let run := QueueManager.add_draft draft_dict st in
  QueueManager.queue (fst run) = QueueManager.queue st ++ [draft_dict] /\
  QueueManager.draft_of draft_dict (fst run) !! "status"%string = Some (JStr (py "pending")) /\
  (forall draft key,
     draft <> draft_dict \/ (key <> "status"%string /\ key <> "added_at"%string) ->
     QueueManager.draft_of draft (fst run) !! key = QueueManager.draft_of draft st !! key) /\
  snd run = match QueueManager.draft_of draft_dict st !! "draft"%string with
            | None => Raise (KeyError "draft")
            | Some (JStr _) | Some (JList _) => Ok tt
            | Some _ => Raise TypeError
            end.
Proof.
  cbv zeta. refine (conj _ (conj _ (conj _ _))).
  - now rewrite add_draft_state.
  - rewrite add_draft_fields. now rewrite !decide_True by reflexivity.
  - intros draft key Hother. rewrite add_draft_fields.
    destruct (decide (draft_dict = draft)) as [->|Hne]; [|reflexivity].
    destruct Hother as [Hd | [Hs Ha]]; [congruence|].
    now rewrite !decide_False by assumption.
  - rewrite add_draft_result, add_draft_fields.
    rewrite decide_True by reflexivity. rewrite !decide_False by discriminate.
    destruct (QueueManager.draft_of draft_dict st !! "draft"%string) as [[s|n|m e|l|]|];
      reflexivity.
Qed.

Lemma batch_add_drafts_run `{Clock} `{Disk} (drafts_list : list nat) :
  forall st : QueueManager.state,
    (forall draft, In draft drafts_list ->
                   sized (QueueManager.draft_of draft st !! "draft"%string) = true) ->
    let run := QueueManager.batch_add_drafts drafts_list st in
    snd run = Ok tt /\
    QueueManager.queue (fst run) = QueueManager.queue st ++ drafts_list /\
    (forall draft, In draft drafts_list ->
       QueueManager.draft_of draft (fst run) !! "status"%string = Some (JStr (py "pending"))) /\
    (forall draft key,
       ~ In draft drafts_list \/ (key <> "status"%string /\ key <> "added_at"%string) ->
       QueueManager.draft_of draft (fst run) !! key = QueueManager.draft_of draft st !! key).
Proof.
  induction drafts_list as [|first rest IH]; intros st Hsized; cbv zeta.
  - cbn [QueueManager.batch_add_drafts fst snd]. rewrite List.app_nil_r.
    refine (conj eq_refl (conj eq_refl (conj _ _))); [intros ? [] | reflexivity].
  - cbn [QueueManager.batch_add_drafts].
    destruct (add_draft_frame first st)
      as (Hq & Hst & Hkeep & Hres).
    destruct (QueueManager.add_draft first st) as [st1 r] eqn:Eadd. cbn [fst snd] in *.
    assert (Hfirst : sized (QueueManager.draft_of first st !! "draft"%string) = true)
      by (apply Hsized; now left).
    assert (r = Ok tt) as ->.
    { rewrite Hres.
      destruct (QueueManager.draft_of first st !! "draft"%string) as [[s|n|m e|l|]|];
        try discriminate Hfirst; reflexivity. }
    specialize (IH st1). cbv zeta in IH.
    destruct IH as (Hok & Hq' & Hst' & Hkeep').
    { intros draft Hin. rewrite Hkeep by (right; split; discriminate).
      apply Hsized. now right. }
    refine (conj Hok (conj _ (conj _ _))).
    + rewrite Hq', Hq, <- List.app_assoc. reflexivity.
    + intros draft [<- | Hin]; [|now apply Hst'].
      destruct (List.in_dec Nat.eq_dec first rest) as [Hin | Hout]; [now apply Hst'|].
      rewrite Hkeep' by (now left). exact Hst.
    + intros draft key Hother. rewrite Hkeep'.
      * apply Hkeep. destruct Hother as [Hnot | Hkey]; [left | now right].
        intros ->. apply Hnot. now left.
      * destruct Hother as [Hnot | Hkey]; [left | now right].
        intros Hin. apply Hnot. now right.
Qed.

Lemma get_drafts_run `{Disk} (q : list nat) :
  forall st : QueueManager.state,
    QueueManager.queue st = q ->
    let run := QueueManager.get_drafts (length q) st in
    snd run = List.map Some q /\
    QueueManager.queue (fst run) = [] /\
    (forall draft, In draft q ->
       QueueManager.draft_of draft (fst run) !! "status"%string
       = Some (JStr (py "retrieved"))) /\
    (forall draft key,
       ~ In draft q \/ key <> "status"%string ->
       QueueManager.draft_of draft (fst run) !! key = QueueManager.draft_of draft st !! key).
Proof.
  induction q as [|first rest IH]; intros st Hq; cbv zeta.
  - cbn [length QueueManager.get_drafts fst snd List.map].
    refine (conj eq_refl (conj Hq (conj _ _))); [intros ? [] | reflexivity].
  - cbn [length QueueManager.get_drafts]. unfold QueueManager.get_next_draft. rewrite Hq.
    match goal with
    | |- context [QueueManager.get_drafts (length rest) ?s] => set (st1 := s)
    end.
    assert (Hfield : forall draft key,
               QueueManager.draft_of draft st1 !! key =
               if decide (first = draft)
               then (if decide (key = "status"%string)
                     then Some (JStr (py "retrieved"))
                     else QueueManager.draft_of draft st !! key)
               else QueueManager.draft_of draft st !! key).
    { intros draft key. unfold st1.
      change (QueueManager.draft_of draft (QueueManager.save_queue ?s))
        with (QueueManager.draft_of draft s).
      rewrite draft_of_set_field.
      destruct (decide (first = draft)) as [->|Hne]; [|reflexivity].
      destruct (decide (key = "status"%string)) as [->|Hk]; [apply lookup_insert_eq|].
      now rewrite lookup_insert_ne by congruence. }
    specialize (IH st1 eq_refl). cbv zeta in IH.
    destruct (QueueManager.get_drafts (length rest) st1) as [st2 rs]. cbn [fst snd] in *.
    destruct IH as (Hrs & Hq2 & Hst & Hkeep).
    refine (conj _ (conj Hq2 (conj _ _))).
    + now rewrite Hrs.
    + intros draft [<- | Hin]; [|now apply Hst].
      destruct (List.in_dec Nat.eq_dec first rest) as [Hin | Hout]; [now apply Hst|].
      rewrite Hkeep by (now left). rewrite Hfield.
      now rewrite !decide_True by reflexivity.
    + intros draft key Hother. rewrite Hkeep.
      * rewrite Hfield. destruct (decide (first = draft)) as [<-|Hne]; [|reflexivity].
        destruct Hother as [Hnot | Hkey]; [exfalso; apply Hnot; now left|].
        now rewrite decide_False by exact Hkey.
      * destruct Hother as [Hnot | Hkey]; [left | now right].
        intros Hin. apply Hnot. now right.
Qed.

(** The queue is first in, first out, and works on the drafts it was
    given: after [batch_add_drafts] of drafts that each have a text (or
    a list) as [draft], the queue is the old queue followed by the
    drafts, each [pending]; as many calls of [get_next_draft] as the
    queue is long hand back these very objects in that order, each
    marked [retrieved] and otherwise as it was given but for the time
    stamp, and leave the queue empty, where [get_next_draft] returns
    [None] and changes nothing. *)
Theorem queue_is_first_in_first_out `{Clock} `{Disk}
    (drafts_list : list nat) (st : QueueManager.state) :
  (forall draft, In draft drafts_list ->
                 sized (QueueManager.draft_of draft st !! "draft"%string) = true) ->
  let added := QueueManager.batch_add_drafts drafts_list st in
  let got := QueueManager.get_drafts (length (QueueManager.queue st ++ drafts_list))
               (fst added) in
  snd added = Ok tt /\
  QueueManager.queue (fst added) = QueueManager.queue st ++ drafts_list /\
  snd got = List.map Some (QueueManager.queue st ++ drafts_list) /\
  QueueManager.queue (fst got) = [] /\
  QueueManager.get_next_draft (fst got) = (fst got, Ok None) /\
  forall draft, In draft drafts_list ->
    QueueManager.draft_of draft (fst added) !! "status"%string = Some (JStr (py "pending")) /\
    QueueManager.draft_of draft (fst got) !! "status"%string = Some (JStr (py "retrieved")) /\
    forall key, key <> "status"%string -> key <> "added_at"%string ->
      QueueManager.draft_of draft (fst got) !! key = QueueManager.draft_of draft st !! key.
Proof.
  intros Hsized. cbv zeta.
  destruct (batch_add_drafts_run drafts_list st Hsized) as (Hok & Hq & Hpending & Hkeep).
  cbv zeta in *.
  destruct (get_drafts_run (QueueManager.queue st ++ drafts_list)
              (fst (QueueManager.batch_add_drafts drafts_list st)) Hq)
    as (Hrs & Hempty & Hretrieved & Hkeep').
  cbv zeta in *.
  refine (conj Hok (conj Hq (conj Hrs (conj Hempty (conj _ _))))).
  - unfold QueueManager.get_next_draft. now rewrite Hempty.
  - intros draft Hin. refine (conj (Hpending _ Hin) (conj _ _)).
    + apply Hretrieved. apply List.in_or_app. now right.
    + intros key Hs Ha. rewrite Hkeep' by (now right). apply Hkeep. now right.
Qed.

Lemma queue_is_first_in_first_out_witness :
  let st := {| QueueManager.store :=
                 {[ 0 := {[ "draft"%string := JStr (py "First post.") ]};
                    1 := {[ "draft"%string := JStr (py "Second post.");
                            "character_count"%string := JInt 12 ]} ]};
               QueueManager.queue := [];
               QueueManager.file := Absent;
               QueueManager.ticks := 0;
               QueueManager.writes := 0 |} in
  let added := @QueueManager.batch_add_drafts demo_clock good_disk [0; 1] st in
  let got := @QueueManager.get_drafts good_disk (length (QueueManager.queue st ++ [0; 1]))
               (fst added) in
  snd added = Ok tt /\
  QueueManager.queue (fst added) = QueueManager.queue st ++ [0; 1] /\
  snd got = List.map Some (QueueManager.queue st ++ [0; 1]) /\
  QueueManager.queue (fst got) = [] /\
  @QueueManager.get_next_draft good_disk (fst got) = (fst got, Ok None) /\
  forall draft, In draft [0; 1] ->
    QueueManager.draft_of draft (fst added) !! "status"%string = Some (JStr (py "pending")) /\
    QueueManager.draft_of draft (fst got) !! "status"%string = Some (JStr (py "retrieved")) /\
    forall key, key <> "status"%string -> key <> "added_at"%string ->
      QueueManager.draft_of draft (fst got) !! key = QueueManager.draft_of draft st !! key.
Proof.
  cbv zeta.
  apply (@queue_is_first_in_first_out demo_clock good_disk [0; 1]).
  intros draft [<- | [<- | []]]; vm_compute; reflexivity.
Defined.

(** ** queue_manager.py: the listing *)

Lemma summaries_from_run (drafts : list (gmap string jval)) :
  forall (i : nat) (summaries : list QueueManager.summary),
    QueueManager.summaries_from i drafts = Ok summaries ->
    length summaries = length drafts /\
    forall j s, summaries !! j = Some s ->
      exists draft text,
        drafts !! j = Some draft /\
        default (JStr []) (draft !! "draft"%string) = JStr text /\
        QueueManager.position s = i + j + 1 /\
        QueueManager.title_preview s = firstn 50 text ++ py "..." /\
        QueueManager.category s = default (JStr (py "unknown")) (draft !! "category"%string) /\
        QueueManager.added_at s = default (JStr (py "unknown")) (draft !! "added_at"%string) /\
        QueueManager.status s = default (JStr (py "unknown")) (draft !! "status"%string).
Proof.
  induction drafts as [|draft rest IH]; intros i summaries Hrun.
  - injection Hrun as <-. split; [reflexivity|]. intros j s Hj. discriminate Hj.
  - cbn [QueueManager.summaries_from] in Hrun.
    destruct (default (JStr []) (draft !! "draft"%string)) as [text| | | |] eqn:Etext;
      cbn [QueueManager.preview] in Hrun; try discriminate Hrun.
    destruct (QueueManager.summaries_from (S i) rest) as [tail|e] eqn:Etail;
      [|discriminate Hrun].
    injection Hrun as <-. destruct (IH (S i) tail Etail) as [Hlen Hall].
    split; [cbn [length]; now rewrite Hlen|].
    intros [|j] s Hj.
    + injection Hj as <-. exists draft, text.
      cbn [QueueManager.position QueueManager.title_preview QueueManager.category
           QueueManager.added_at QueueManager.status].
      rewrite Nat.add_0_r. repeat split; try reflexivity. exact Etext.
    + destruct (Hall j s Hj) as (d & t & Hd & Ht & Hpos & Hrest).
      exists d, t. refine (conj Hd (conj Ht (conj _ Hrest))). rewrite Hpos. lia.
Qed.

Lemma slice_to_length {A} (limit : Z) (l : list A) :
  length (QueueManager.slice_to limit l) <= length l /\
  ((0 <= limit)%Z -> length (QueueManager.slice_to limit l) = Nat.min (Z.to_nat limit) (length l)) /\
  ((limit < 0)%Z -> length (QueueManager.slice_to limit l) = length l - Z.to_nat (- limit)).
Proof.
  unfold QueueManager.slice_to. destruct (limit <? 0)%Z eqn:E.
  - apply Z.ltb_lt in E. rewrite List.length_firstn. repeat split; lia.
  - apply Z.ltb_ge in E. rewrite List.length_firstn. repeat split; lia.
Qed.

(** [list_queue] lists the drafts at the front of the queue, in order
    and numbered from 1: as many as [limit] says, or the whole queue
    when that is shorter; a negative [limit] leaves out that many
    drafts at the end instead.  Each preview is at most 53 characters
    long and ends in three full stops. *)
Theorem list_queue_summaries (limit : Z) (st : QueueManager.state)
    (summaries : list QueueManager.summary) :
  QueueManager.list_queue limit st = Ok summaries ->
  ((0 <= limit)%Z ->
   length summaries = Nat.min (Z.to_nat limit) (length (QueueManager.queue st))) /\
  ((limit < 0)%Z ->
   length summaries = length (QueueManager.queue st) - Z.to_nat (- limit)) /\
  forall j s, summaries !! j = Some s ->
    QueueManager.position s = j + 1 /\
    length (QueueManager.title_preview s) <= 53 /\
    endswith (py "...") (QueueManager.title_preview s) = true /\
    exists draft,
      QueueManager.queue st !! j = Some draft /\
      QueueManager.status s
      = default (JStr (py "unknown"))
          (QueueManager.draft_of draft st !! "status"%string) /\
      QueueManager.category s
      = default (JStr (py "unknown"))
          (QueueManager.draft_of draft st !! "category"%string).
Proof.
  unfold QueueManager.list_queue. intros Hrun.
  apply summaries_from_run in Hrun as [Hlen Hall].
  rewrite List.length_map in Hlen.
  destruct (slice_to_length limit (QueueManager.queue st)) as (_ & Hpos & Hneg).
  refine (conj _ (conj _ _)).
  - intros Hl. now rewrite Hlen, Hpos.
  - intros Hl. now rewrite Hlen, Hneg.
  - intros j s Hj. destruct (Hall j s Hj) as (d & text & Hd & _ & Hp & Ht & Hc & _ & Hs).
    refine (conj Hp (conj _ (conj _ _))).
    + rewrite Ht, List.length_app. pose proof (List.firstn_le_length 50 text).
      change (length (py "...")) with 3. lia.
    + rewrite Ht. apply endswith_app.
    + change (List.map ?f ?l) with (f <$> l) in Hd. rewrite list_lookup_fmap in Hd.
      destruct (QueueManager.slice_to limit (QueueManager.queue st) !! j) as [draft|] eqn:Ej;
        [|discriminate Hd].
      injection Hd as <-. exists draft. refine (conj _ (conj Hs Hc)).
      unfold QueueManager.slice_to in Ej.
      destruct (limit <? 0)%Z; apply lookup_take_Some in Ej as [Ej _]; exact Ej.
Qed.

Lemma list_queue_summaries_witness :
  let st := {| QueueManager.store :=
                 {[ 0 := {[ "draft"%string := JStr (py "First post.");
                            "status"%string := JStr (py "pending") ]};
                    1 := {[ "draft"%string := JStr (py "Second post.") ]} ]};
               QueueManager.queue := [0; 1];
               QueueManager.file := Absent;
               QueueManager.ticks := 0;
               QueueManager.writes := 0 |} in
  let summaries :=
    [ {| QueueManager.position := 1;
         QueueManager.category := JStr (py "unknown");
         QueueManager.title_preview := py "First post....";
         QueueManager.added_at := JStr (py "unknown");
         QueueManager.status := JStr (py "pending") |} ] in
  ((0 <= -1)%Z ->
   length summaries = Nat.min (Z.to_nat (-1)) (length (QueueManager.queue st))) /\
  ((-1 < 0)%Z ->
   length summaries = length (QueueManager.queue st) - Z.to_nat (- -1)) /\
  forall j s, summaries !! j = Some s ->
    QueueManager.position s = j + 1 /\
    length (QueueManager.title_preview s) <= 53 /\
    endswith (py "...") (QueueManager.title_preview s) = true /\
    exists draft,
      QueueManager.queue st !! j = Some draft /\
      QueueManager.status s
      = default (JStr (py "unknown"))
          (QueueManager.draft_of draft st !! "status"%string) /\
      QueueManager.category s
      = default (JStr (py "unknown"))
          (QueueManager.draft_of draft st !! "category"%string).
Proof.
  cbv zeta.
  apply (list_queue_summaries (-1)).
  vm_compute. reflexivity.
Defined.

(** ** generator.py: the summary paragraph *)

Lemma re_split_go_nonempty (w : char -> bool) (r : regex) (s : str) :
  forall skip prev cur, re_split_go w r skip prev cur s <> [].
Proof.
  induction s as [|c s IH]; intros skip prev cur; cbn [re_split_go]; [discriminate|].
  destruct skip as [|k]; [|apply IH].
  destruct (match_at w r prev (c :: s)) as [[|n]|]; [apply IH | discriminate | apply IH].
Qed.

(** [_create_detailed_summary] never gives its fall-back sentence:
    [re.split] returns at least one piece, so there is always a key
    sentence, if only an empty one.  The summary is always the opening
    words, a text made of at most two pieces of the content, and the
    closing sentence; for a content that is empty or blank the text in
    between is the lower-cased empty string. *)
Theorem detailed_summary_never_default `{PyUnicode}
    (content : str) (keywords themes : list str) :
  (exists summary_text,
     _create_detailed_summary content keywords themes
     = summary_opening ++ rstrip_dots (str_lower summary_text) ++ summary_closing) /\
  _create_detailed_summary content keywords themes <> [] /\
  (strip content = [] ->
   _create_detailed_summary content keywords themes
   = summary_opening ++ rstrip_dots (str_lower []) ++ summary_closing).
Proof.
  unfold _create_detailed_summary. cbv zeta.
  refine (conj _ (conj _ _)).
  - unfold re_split.
    pose proof (re_split_go_nonempty re_word (plus (Cls (one_of ".!?")))
                  (strip content) 0 None []) as Hne.
    destruct (re_split_go re_word (plus (Cls (one_of ".!?"))) 0 None [] (strip content))
      as [|first rest]; [contradiction|].
    match goal with
    | |- context [List.map strip ?l] => destruct (List.map strip l) as [|k ks]
    end; eexists; reflexivity.
  - unfold re_split.
    pose proof (re_split_go_nonempty re_word (plus (Cls (one_of ".!?")))
                  (strip content) 0 None []) as Hne.
    destruct (re_split_go re_word (plus (Cls (one_of ".!?"))) 0 None [] (strip content))
      as [|first rest]; [contradiction|].
    match goal with
    | |- context [List.map strip ?l] => destruct (List.map strip l) as [|k ks]
    end; discriminate.
  - intros ->. unfold re_split. cbn [re_split_go rev firstn List.filter].
    destruct (any_in (firstn 3 keywords) (str_lower []) ||
              any_in (firstn 2 themes) (str_lower []))%bool; reflexivity.
Qed.
